(** * GS1 parser: extraction, date normalisation and product matching

    A shallow embedding of the algorithmic core of [app.js]: [parseGs1],
    [convertRawToParenthesized], [parseGS1Date], [getExpiryStatus],
    [buildMasterIndex], [matchProduct] and [processScan] with the text that
    [updateRecentScan] reads from the entry; then the catalog reader
    ([parseMasterFile], [parseCSVLine]), the exports ([exportTSV],
    [exportCSV]), the loop of the bulk paste and the pages of the history
    table.

    Conventions of the embedding.
    - A JavaScript string is a [string]: a finite sequence of code units, here
      restricted to the code units 0..255.
    - A JavaScript number that is an integer or NaN is a [jsnum]: [Some z] is
      the integer [z] and [None] is NaN.  Every comparison with NaN is false.
    - A [Map] is an association list with unique keys in insertion order
      ([Map.prototype.set] keeps the position of a key that is already there).
    - A regular expression is embedded as a function that tries the pattern at
      the start of a text and returns the capture group; [regexMatch] tries
      every start position from left to right, as [String.prototype.match]
      does for a pattern without the [g] flag.
    - The wall clock and the host's parsing of an ISO date ([new Date(iso)])
      are read from a [DateHost] record. *)

From Stdlib Require Import String Ascii ZArith List Lia Bool Arith DecimalString.
Import ListNotations.
Local Open Scope string_scope.
Local Open Scope nat_scope.

(* ====================================================================== *)
(** ** JavaScript values, numbers and string primitives *)
(* ====================================================================== *)

Module Js.

(** Integer-valued numbers and NaN. *)
Definition jsnum := option Z.

(** The values [parseGs1] can be called with. *)
Inductive value :=
| Undefined
| Null
| Boolean (b : bool)
| Number (n : jsnum)
| Str (s : string)
| Object.

Definition code (c : ascii) : nat := nat_of_ascii c.

(** [\d] *)
Definition isDigit (c : ascii) : bool := ((48 <=? code c) && (code c <=? 57))%nat.

(** [A-Za-z] *)
Definition isLetter (c : ascii) : bool :=
  (((65 <=? code c) && (code c <=? 90)) || ((97 <=? code c) && (code c <=? 122)))%nat.

(** [\s], also the characters removed by [trim] and skipped by [parseInt]:
    TAB, LF, VT, FF, CR, SPACE and NBSP. *)
Definition isWhiteSpace (c : ascii) : bool :=
  (((9 <=? code c) && (code c <=? 13)) || (code c =? 32) || (code c =? 160))%nat.

Definition digitValue (c : ascii) : Z := Z.of_nat (code c - 48).

(** [s.substring(a)] *)
Fixpoint drop (n : nat) (s : string) : string :=
  match n, s with
  | 0, _ => s
  | S n', String _ s' => drop n' s'
  | S _, EmptyString => EmptyString
  end.

(** [s.substring(a, b)] for [a <= b]; the end is clamped to the length. *)
Definition substring (s : string) (a b : nat) : string := String.substring a (b - a) s.

(** [s.slice(-n)]: the last [n] code units, the whole string when shorter. *)
Definition sliceLast (n : nat) (s : string) : string := drop (String.length s - n) s.

(** [s.startsWith(p)] *)
Definition startsWith (s p : string) : bool := prefix p s.

(** [s.includes(sub)] *)
Fixpoint includes (s sub : string) : bool :=
  prefix sub s ||
  match s with
  | EmptyString => false
  | String _ s' => includes s' sub
  end.

Fixpoint zeros (n : nat) : string :=
  match n with
  | 0 => EmptyString
  | S n' => String "0" (zeros n')
  end.

(** [s.padStart(target, '0')] *)
Definition padStart0 (target : nat) (s : string) : string := zeros (target - String.length s) ++ s.

Fixpoint trimStart (s : string) : string :=
  match s with
  | EmptyString => EmptyString
  | String c s' => if isWhiteSpace c then trimStart s' else s
  end.

Fixpoint trimEnd (s : string) : string :=
  match s with
  | EmptyString => EmptyString
  | String c s' =>
      match trimEnd s' with
      | EmptyString => if isWhiteSpace c then EmptyString else String c EmptyString
      | t => String c t
      end
  end.

(** [s.trim()] *)
Definition trim (s : string) : string := trimEnd (trimStart s).

Fixpoint mapChars (f : ascii -> ascii) (s : string) : string :=
  match s with
  | EmptyString => EmptyString
  | String c s' => String (f c) (mapChars f s')
  end.

Fixpoint filterChars (p : ascii -> bool) (s : string) : string :=
  match s with
  | EmptyString => EmptyString
  | String c s' => if p c then String c (filterChars p s') else filterChars p s'
  end.

(** [s.split(sep)] for a separator of one code unit. *)
Fixpoint split (sep : ascii) (s : string) : list string :=
  match s with
  | EmptyString => [EmptyString]
  | String c s' =>
      if Ascii.eqb c sep then EmptyString :: split sep s'
      else match split sep s' with
           | h :: t => String c h :: t
           | [] => [String c EmptyString]
           end
  end.

(** [String(n)] for an integer or NaN. *)
Definition toString (n : jsnum) : string :=
  match n with
  | Some z => NilZero.string_of_int (Z.to_int z)
  | None => "NaN"
  end.

(** The longest prefix of decimal digits, read as a number; [acc] is the
    value read so far and [seen] tells whether a digit was read. *)
Fixpoint readDigits (acc : Z) (seen : bool) (s : string) : jsnum :=
  match s with
  | String c s' =>
      if isDigit c then readDigits (10 * acc + digitValue c) true s'
      else if seen then Some acc else None
  | EmptyString => if seen then Some acc else None
  end.

(** [parseInt(s, 10)]: leading white space, an optional sign, then the longest
    run of digits; NaN when there is no digit. *)
Definition parseInt10 (s : string) : jsnum :=
  match trimStart s with
  | String "-" t => option_map Z.opp (readDigits 0 false t)
  | String "+" t => readDigits 0 false t
  | t => readDigits 0 false t
  end.

Definition add (a b : jsnum) : jsnum :=
  match a, b with
  | Some x, Some y => Some (x + y)%Z
  | _, _ => None
  end.

(** [a < b], [a > b] and [a === b] on numbers: false when either is NaN. *)
Definition lt (a b : jsnum) : bool :=
  match a, b with
  | Some x, Some y => (x <? y)%Z
  | _, _ => false
  end.

Definition gt (a b : jsnum) : bool := lt b a.

Definition strictEq (a b : jsnum) : bool :=
  match a, b with
  | Some x, Some y => (x =? y)%Z
  | _, _ => false
  end.

(** Gregorian calendar of [Date]. *)
Definition isLeapYear (y : Z) : bool :=
  ((y mod 4 =? 0) && negb (y mod 100 =? 0) || (y mod 400 =? 0))%Z.

(** Days of month [m] (1 = January) of year [y]. *)
Definition daysInMonth (y m : Z) : Z :=
  (if m =? 2 then (if isLeapYear y then 29 else 28)
   else if (m =? 4) || (m =? 6) || (m =? 9) || (m =? 11) then 30
   else 31)%Z.

(** [new Date(year, monthIndex, 0).getDate()]: day zero of the month with
    index [monthIndex] (0 = January) is the last day of the month before it.
    A month index outside 0..11 carries into the year, a year in 0..99 is read
    as 1900 + year, and NaN in either argument gives NaN. *)
Definition lastDayBefore (year monthIndex : jsnum) : jsnum :=
  match year, monthIndex with
  | Some y, Some m =>
      let y := (if (0 <=? y) && (y <=? 99) then 1900 + y else y)%Z in
      let y' := (y + m / 12)%Z in
      let m0 := (m mod 12)%Z in
      Some (if (m0 =? 0)%Z then 31%Z else daysInMonth y' m0)
  | _, _ => None
  end.

(** A [Map] with string keys, in insertion order. *)
Definition map (V : Type) := list (string * V).

Fixpoint get {V} (m : map V) (k : string) : option V :=
  match m with
  | [] => None
  | (k', v) :: m' => if String.eqb k' k then Some v else get m' k
  end.

Definition has {V} (m : map V) (k : string) : bool :=
  match get m k with
  | Some _ => true
  | None => false
  end.

Fixpoint set {V} (m : map V) (k : string) (v : V) : map V :=
  match m with
  | [] => [(k, v)]
  | (k', v') :: m' => if String.eqb k' k then (k', v) :: m' else (k', v') :: set m' k v
  end.

Definition size {V} (m : map V) : nat := List.length m.

End Js.

(* ====================================================================== *)
(** ** The patterns of [aiPatterns] *)
(* ====================================================================== *)

Module Regex.

(** A literal at the start of the text: the rest of the text after it. *)
Fixpoint literal (p s : string) : option string :=
  match p, s with
  | EmptyString, _ => Some s
  | String a p', String b s' => if Ascii.eqb a b then literal p' s' else None
  | String _ _, EmptyString => None
  end.

(** [\d{n}]: exactly [n] digits at the start of the text, and the rest. *)
Fixpoint digits (n : nat) (s : string) : option (string * string) :=
  match n with
  | 0 => Some (EmptyString, s)
  | S n' =>
      match s with
      | String c s' =>
          if Js.isDigit c then
            match digits n' s' with
            | Some (d, r) => Some (String c d, r)
            | None => None
            end
          else None
      | EmptyString => None
      end
  end.

(** [\d*], greedy: the longest run of digits at the start of the text. *)
Fixpoint digitRun (s : string) : string :=
  match s with
  | String c s' => if Js.isDigit c then String c (digitRun s') else EmptyString
  | EmptyString => EmptyString
  end.

(** [[A-Za-z0-9\-\/\.\s]] *)
Definition isValueChar (c : ascii) : bool :=
  Js.isLetter c || Js.isDigit c || Ascii.eqb c "-" || Ascii.eqb c "/" || Ascii.eqb c "."
  || Js.isWhiteSpace c.

(** [(?=\([0-9]{2}\)|$)]: the text goes on with a two-digit AI in brackets,
    or ends here. *)
Definition lookahead (s : string) : bool :=
  match s with
  | String "(" (String a (String b (String ")" _))) => Js.isDigit a && Js.isDigit b
  | EmptyString => true
  | _ => false
  end.

(** The lazy part of [[...]+?(?=...)] after its first character: stop as soon
    as the lookahead holds, otherwise take one more character of the class. *)
Fixpoint lazyRest (s : string) : option string :=
  if lookahead s then Some EmptyString
  else match s with
       | String c s' => if isValueChar c then option_map (String c) (lazyRest s') else None
       | EmptyString => None
       end.

(** [([A-Za-z0-9\-\/\.\s]+?)(?=\([0-9]{2}\)|$)] at the start of the text. *)
Definition lazyValue (s : string) : option string :=
  match s with
  | String c s' => if isValueChar c then option_map (String c) (lazyRest s') else None
  | EmptyString => None
  end.

(** ['01': /\(01\)(\d{14})/] *)
Definition gtin14At (s : string) : option string :=
  match literal "(01)" s with
  | Some r => option_map fst (digits 14 r)
  | None => None
  end.

(** ['01short': /\(01\)(\d{12,13})/]: greedy, 13 digits before 12. *)
Definition gtinShortAt (s : string) : option string :=
  match literal "(01)" s with
  | Some r =>
      match digits 13 r with
      | Some (d, _) => Some d
      | None => option_map fst (digits 12 r)
      end
  | None => None
  end.

(** ['17': /\(17\)(\d{6})/] *)
Definition expiryAt (s : string) : option string :=
  match literal "(17)" s with
  | Some r => option_map fst (digits 6 r)
  | None => None
  end.

(** ['10': /\(10\)([A-Za-z0-9\-\/\.\s]+?)(?=\([0-9]{2}\)|$)/] *)
Definition batchAt (s : string) : option string :=
  match literal "(10)" s with
  | Some r => lazyValue r
  | None => None
  end.

(** ['21': /\(21\)([A-Za-z0-9\-\/\.\s]+?)(?=\([0-9]{2}\)|$)/] *)
Definition serialAt (s : string) : option string :=
  match literal "(21)" s with
  | Some r => lazyValue r
  | None => None
  end.

(** ['30': /\(30\)(\d+)/] *)
Definition qtyAt (s : string) : option string :=
  match literal "(30)" s with
  | Some r =>
      match digitRun r with
      | EmptyString => None
      | d => Some d
      end
  | None => None
  end.

(** [text.match(pattern)] for a pattern without the [g] flag: the capture
    group of the match at the leftmost start position, [None] for [null]. *)
Fixpoint regexMatch (pat : string -> option string) (text : string) : option string :=
  match pat text with
  | Some m => Some m
  | None =>
      match text with
      | String _ text' => regexMatch pat text'
      | EmptyString => None
      end
  end.

End Regex.

(* ====================================================================== *)
(** ** The raw-to-bracketed decoder *)
(* ====================================================================== *)

(** The table [aiLengths] of [convertRawToParenthesized]: 0 is a field of
    variable length. *)
Definition aiTable : list (string * nat) :=
  [ ("01", 14); ("02", 14); ("10", 0); ("11", 6); ("12", 6); ("13", 6);
    ("15", 6); ("16", 6); ("17", 6); ("20", 2); ("21", 0); ("22", 0);
    ("30", 0); ("37", 0); ("240", 0); ("241", 0); ("242", 0); ("250", 0); ("251", 0) ].

(** [aiLengths[key]], [None] for [undefined]. *)
Definition aiLengths (key : string) : option nat := Js.get aiTable key.

(** The AI recognised at position [i] of [part]: a code of three characters
    first, then one of two. *)
Definition findAi (part : string) (i : nat) : option (string * nat) :=
  let ai3 :=
    if i + 3 <=? String.length part then
      let ai3 := Js.substring part i (i + 3) in
      option_map (fun aiLen => (ai3, aiLen)) (aiLengths ai3)
    else None in
  match ai3 with
  | Some found => Some found
  | None =>
      if i + 2 <=? String.length part then
        let ai2 := Js.substring part i (i + 2) in
        option_map (fun aiLen => (ai2, aiLen)) (aiLengths ai2)
      else None
  end.

(** One turn of the loop [while (i < part.length)], on the pair of [i] and
    [result]. *)
Definition decodeStep (part : string) (st : nat * string) : nat * string :=
  let '(i, result) := st in
  match findAi part i with
  | Some (ai, aiLen) =>
      let valueStart := i + String.length ai in
      let valueEnd :=
        if 0 <? aiLen then Nat.min (valueStart + aiLen) (String.length part)
        else String.length part in
      let value := Js.substring part valueStart valueEnd in
      (valueEnd, result ++ "(" ++ ai ++ ")" ++ value)
  | None => (i + 1, result)
  end.

(** The loop itself; every turn moves [i] forward, so [String.length part]
    turns are enough (lemma [decodeLoop_enough]). *)
Fixpoint decodeLoop (fuel : nat) (part : string) (st : nat * string) : string :=
  match fuel with
  | 0 => snd st
  | S fuel' =>
      if fst st <? String.length part then decodeLoop fuel' part (decodeStep part st)
      else snd st
  end.

Definition decodePart (result part : string) : string :=
  decodeLoop (String.length part) part (0, result).

Definition convertRawToParenthesized (raw : string) : string :=
  let parts := Js.split "|" raw in
  let result := fold_left decodePart parts EmptyString in
  if String.eqb result EmptyString then raw else result.

(* ====================================================================== *)
(** ** Date normalisation and expiry status *)
(* ====================================================================== *)

Record DateParts := { iso : string; formatted : string }.

Definition noDate : DateParts := {| iso := ""; formatted := "" |}.

Definition parseGS1Date (dateStr : string) : DateParts :=
  if negb (String.length dateStr =? 6) then noDate
  else
    let yy := Js.parseInt10 (Js.substring dateStr 0 2) in
    let mm := Js.parseInt10 (Js.substring dateStr 2 4) in
    let dd := Js.parseInt10 (Js.substring dateStr 4 6) in
    let year := Js.add (Some 2000%Z) yy in
    let dd := if Js.strictEq dd (Some 0%Z) then Js.lastDayBefore year mm else dd in
    if Js.lt mm (Some 1%Z) || Js.gt mm (Some 12%Z) || Js.lt dd (Some 1%Z) || Js.gt dd (Some 31%Z)
    then noDate
    else
      {| iso := Js.toString year ++ "-" ++ Js.padStart0 2 (Js.toString mm)
                ++ "-" ++ Js.padStart0 2 (Js.toString dd);
         formatted := Js.padStart0 2 (Js.toString dd) ++ "/"
                      ++ Js.padStart0 2 (Js.toString mm) ++ "/" ++ Js.toString year |}.

Inductive ExpiryStatus := missing | expired | soon | ok.

(** What [getExpiryStatus] reads from the host: the time value, in
    milliseconds, of [new Date()] after [setHours(0, 0, 0, 0)], and that of
    [new Date(isoDate)] after [setHours(0, 0, 0, 0)], [None] for an invalid
    date, whose time value is NaN. *)
Record DateHost := {
  todayMidnight : Z;
  isoMidnight : string -> option Z
}.

Definition msPerDay : Z := 1000 * 60 * 60 * 24.

(** [Math.ceil((expiry - today) / (1000 * 60 * 60 * 24))].  For an expiry in
    the years that [parseGS1Date] produces and any today that a [Date] can
    hold, the quotient is below 2^27, where the floating-point division of
    integers by [msPerDay] has the ceiling of the exact quotient. *)
Definition diffDays (today expiry : Z) : Z := (- ((today - expiry) / msPerDay))%Z.

(** The two comparisons that end [getExpiryStatus]. *)
Definition statusOfDiff (diff : Z) : ExpiryStatus :=
  if (diff <? 0)%Z then expired
  else if (diff <=? 30)%Z then soon
  else ok.

Definition getExpiryStatus (host : DateHost) (isoDate : string) : ExpiryStatus :=
  if String.eqb isoDate EmptyString then missing
  else
    match isoMidnight host isoDate with
    | Some expiry => statusOfDiff (diffDays (todayMidnight host) expiry)
    | None => ok
    end.

(* ====================================================================== *)
(** ** The field extractor *)
(* ====================================================================== *)

Inductive MatchType :=
| EXACT | LAST8 | SEQ6 | AMBIGUOUS_LAST8 | AMBIGUOUS_SEQ6 | NONE | INVALID.

(** The object [result] of [parseGs1]; [error] is [None] while the property
    is not set. *)
Module Scan.
Record t := {
  valid : bool;
  raw : string;
  gtin14 : string;
  gtin13 : string;
  expiry : string;
  expiryFormatted : string;
  expiryStatus : ExpiryStatus;
  batch : string;
  serial : string;
  qty : string;
  productName : string;
  matchType : MatchType;
  error : option string
}.
End Scan.

(** What [parseGs1] returns: the object [{ valid: false, error }] of its first
    lines, which has no other property, or the object [result]. *)
Inductive ParsedScan :=
| Rejected (error : string)
| Scanned (result : Scan.t).

Definition isValid (p : ParsedScan) : bool :=
  match p with
  | Rejected _ => false
  | Scanned r => Scan.valid r
  end.



(** The group separator, [\x1d]. *)
Definition GS : ascii := ascii_of_nat 29.

(** [cleanedRaw]: trimmed, group separators turned into ["|"], and decoded
    when it holds no bracket. *)
Definition cleanInput (raw : string) : string :=
  let cleanedRaw := Js.trim raw in
  let cleanedRaw := Js.mapChars (fun c => if Ascii.eqb c GS then "|"%char else c) cleanedRaw in
  if Js.includes cleanedRaw "(" then cleanedRaw
  else convertRawToParenthesized cleanedRaw.

(** [result.gtin14] and [result.gtin13]. *)
Definition gtinFields (cleanedRaw : string) : string * string :=
  match Regex.regexMatch Regex.gtin14At cleanedRaw with
  | Some g14 => (g14, if Js.startsWith g14 "0" then Js.drop 1 g14 else g14)
  | None =>
      match Regex.regexMatch Regex.gtinShortAt cleanedRaw with
      | Some short =>
          let g13 := Js.padStart0 13 short in
          (Js.padStart0 14 g13, g13)
      | None => (EmptyString, EmptyString)
      end
  end.

(** [result.expiry], [result.expiryFormatted] and [result.expiryStatus]. *)
Definition expiryFields (host : DateHost) (cleanedRaw : string)
  : string * string * ExpiryStatus :=
  match Regex.regexMatch Regex.expiryAt cleanedRaw with
  | Some d =>
      let parsed := parseGS1Date d in
      (iso parsed, formatted parsed, getExpiryStatus host (iso parsed))
  | None => (EmptyString, EmptyString, missing)
  end.

Definition parseGs1 (host : DateHost) (raw : Js.value) : ParsedScan :=
  match raw with
  | Js.Str (String _ _ as raw) =>
      let cleanedRaw := cleanInput raw in
      let '(gtin14, gtin13) := gtinFields cleanedRaw in
      let '(expiry, expiryFormatted, expiryStatus) := expiryFields host cleanedRaw in
      let batch :=
        match Regex.regexMatch Regex.batchAt cleanedRaw with
        | Some b => Js.trim b
        | None => EmptyString
        end in
      let serial :=
        match Regex.regexMatch Regex.serialAt cleanedRaw with
        | Some s => Js.trim s
        | None => EmptyString
        end in
      let qty :=
        match Regex.regexMatch Regex.qtyAt cleanedRaw with
        | Some q => q
        | None => "1"
        end in
      let noGtin := String.eqb gtin14 EmptyString && String.eqb gtin13 EmptyString in
      Scanned
        {| Scan.valid := negb noGtin;
           Scan.raw := raw;
           Scan.gtin14 := gtin14;
           Scan.gtin13 := gtin13;
           Scan.expiry := expiry;
           Scan.expiryFormatted := expiryFormatted;
           Scan.expiryStatus := expiryStatus;
           Scan.batch := batch;
           Scan.serial := serial;
           Scan.qty := qty;
           Scan.productName := EmptyString;
           Scan.matchType := if noGtin then INVALID else NONE;
           Scan.error := if noGtin then Some "No valid GTIN found" else None |}
  | _ => Rejected "Empty or invalid input"
  end.

(* ====================================================================== *)
(** ** The master index and the matcher *)
(* ====================================================================== *)

(** The objects [{ gtin, name }]: the rows of the catalog, the entries of a
    last-8 bucket and those of [seq6Matches]. *)
Module Product.
Record t := { gtin : string; name : string }.
End Product.

Record MasterIndex := {
  exact : Js.map string;
  last8 : Js.map (list Product.t)
}.

(** The body of the loop of [buildMasterIndex]. *)
Definition addItem (index : MasterIndex) (item : Product.t) : MasterIndex :=
  let gtin := Js.padStart0 14 (Js.filterChars Js.isDigit (Product.gtin item)) in
  let name := Product.name item in
  let exact1 := Js.set (exact index) gtin name in
  let exact2 := if Js.startsWith gtin "0" then Js.set exact1 (Js.drop 1 gtin) name else exact1 in
  let key := Js.sliceLast 8 gtin in
  let buckets := if Js.has (last8 index) key then last8 index else Js.set (last8 index) key [] in
  let bucket := match Js.get buckets key with Some b => b | None => [] end in
  {| exact := exact2;
     last8 := Js.set buckets key (bucket ++ [{| Product.gtin := gtin; Product.name := name |}])%list |}.

Definition buildMasterIndex (data : list Product.t) : MasterIndex :=
  fold_left addItem data {| exact := []; last8 := [] |}.

(** The objects [{ name, matchType }] that [matchProduct] returns. *)
Module Match.
Record t := { name : string; matchType : MatchType }.
End Match.

(** The values of [seq6] in the outer loop of the last tier: [i] runs from 0
    to [last10.length - 6]. *)
Definition windows6 (last10 : string) : list string :=
  List.map (fun i => Js.substring last10 i (i + 6)) (seq 0 (String.length last10 + 1 - 6)).

(** The inner loop over the entries of [index.exact], for one [seq6]. *)
Definition collectSeq6 (entries : Js.map string) (seq6Matches : list Product.t) (seq6 : string)
  : list Product.t :=
  fold_left
    (fun (acc : list Product.t) (entry : string * string) =>
       let '(gtin, name) := entry in
       if Js.includes gtin seq6 then
         if existsb (fun m => String.eqb (Product.gtin m) gtin) acc then acc
         else (acc ++ [{| Product.gtin := gtin; Product.name := name |}])%list
       else acc)
    entries seq6Matches.

(** [seq6Matches] after both loops. *)
Definition seq6Matches (gtin14 : string) (index : MasterIndex) : list Product.t :=
  fold_left (collectSeq6 (exact index)) (windows6 (Js.sliceLast 10 gtin14)) [].

(** The last tier, from [const last10] to the end of [matchProduct]. *)
Definition seq6Tier (gtin14 : string) (index : MasterIndex) : Match.t :=
  match seq6Matches gtin14 index with
  | [m] => {| Match.name := Product.name m; Match.matchType := SEQ6 |}
  | _ :: _ :: _ => {| Match.name := ""; Match.matchType := AMBIGUOUS_SEQ6 |}
  | [] => {| Match.name := ""; Match.matchType := NONE |}
  end.

(** [index] is always an object with both maps, so the tests [!index] and
    [!index.exact] are false. *)
Definition matchProduct (parsed : ParsedScan) (index : MasterIndex) : Match.t :=
  match parsed with
  | Rejected _ => {| Match.name := ""; Match.matchType := INVALID |}
  | Scanned r =>
      if negb (Scan.valid r) then {| Match.name := ""; Match.matchType := INVALID |}
      else if Js.size (exact index) =? 0 then {| Match.name := ""; Match.matchType := NONE |}
      else
        let gtin14 := Scan.gtin14 r in
        let gtin13 := Scan.gtin13 r in
        match Js.get (exact index) gtin14 with
        | Some name => {| Match.name := name; Match.matchType := EXACT |}
        | None =>
            match Js.get (exact index) gtin13 with
            | Some name => {| Match.name := name; Match.matchType := EXACT |}
            | None =>
                match Js.get (last8 index) (Js.sliceLast 8 gtin14) with
                | Some [m] => {| Match.name := Product.name m; Match.matchType := LAST8 |}
                | Some (_ :: _ :: _) => {| Match.name := ""; Match.matchType := AMBIGUOUS_LAST8 |}
                | Some [] | None => seq6Tier gtin14 index
                end
            end
        end
  end.

(** The entry that [processScan] stores, without its [scanTime]; a property
    read from the rejected object is [None], for [undefined]. *)
Module Entry.
Record t := {
  raw : Js.value;
  gtin14 : option string;
  gtin13 : option string;
  expiry : option string;
  expiryFormatted : option string;
  expiryStatus : option ExpiryStatus;
  batch : option string;
  serial : option string;
  qty : string;
  productName : string;
  matchType : MatchType
}.
End Entry.







(* ====================================================================== *)
(** ** Vocabulary of the statements *)
(* ====================================================================== *)

Fixpoint allChars (p : ascii -> bool) (s : string) : bool :=
  match s with
  | EmptyString => true
  | String c s' => p c && allChars p s'
  end.

Definition allDigits : string -> bool := allChars Js.isDigit.

(** The pattern [pat] matches at no start position inside [pre] of the text
    [pre ++ s]. *)
Fixpoint unmatchedBefore (pat : string -> option string) (pre s : string) : bool :=
  match pre with
  | EmptyString => true
  | String _ pre' =>
      match pat (pre ++ s) with
      | Some _ => false
      | None => unmatchedBefore pat pre' s
      end
  end.

(** The specification's reading of the GTIN rule, in its words: a run of
    exactly 14 digits directly following [(01)], the run being all the digits
    up to the first character that is not one. *)
Definition exactly14At (s : string) : option string :=
  match Regex.literal "(01)" s with
  | Some r => if String.length (Regex.digitRun r) =? 14 then Some (Regex.digitRun r) else None
  | None => None
  end.

(** [findAi part i] on the text of [part] from position [i] on. *)
Definition findAiAt (t : string) : option (string * nat) :=
  let ai3 :=
    if 3 <=? String.length t then
      option_map (fun aiLen => (String.substring 0 3 t, aiLen))
        (aiLengths (String.substring 0 3 t))
    else None in
  match ai3 with
  | Some found => Some found
  | None =>
      if 2 <=? String.length t then
        option_map (fun aiLen => (String.substring 0 2 t, aiLen))
          (aiLengths (String.substring 0 2 t))
      else None
  end.

(** The position after the value of an AI of length [aiLen] whose code
    starts at [i]: [valueEnd] in [convertRawToParenthesized]. *)
Definition valueEndOf (part : string) (i : nat) (code : string) (aiLen : nat) : nat :=
  if 0 <? aiLen then Nat.min (i + String.length code + aiLen) (String.length part)
  else String.length part.

(** A payload as a list of pairs of an AI code and its value, without and
    with brackets. *)
Definition token := (string * string)%type.

Definition unbracketed (toks : list token) : string :=
  fold_right (fun t acc => fst t ++ snd t ++ acc) EmptyString toks.

Definition bracketed (toks : list token) : string :=
  fold_right (fun t acc => "(" ++ fst t ++ ")" ++ snd t ++ acc) EmptyString toks.

(** The characters of a bracketed payload of numeric values. *)
Definition bracketChar (c : ascii) : bool :=
  Js.isDigit c || Ascii.eqb c "(" || Ascii.eqb c ")".

(** A token of an AI of fixed length: the code is in the dictionary with a
    positive length and the value is that many digits. *)
Definition fixedToken (t : token) : bool :=
  match aiLengths (fst t) with
  | Some n => (0 <? n) && (String.length (snd t) =? n) && allDigits (snd t)
  | None => false
  end.

(** Two results of [parseGs1] with the same field values, [raw] apart. *)
Definition sameFields (p q : ParsedScan) : Prop :=
  match p, q with
  | Rejected e1, Rejected e2 => e1 = e2
  | Scanned a, Scanned b =>
      Scan.valid a = Scan.valid b /\ Scan.gtin14 a = Scan.gtin14 b
      /\ Scan.gtin13 a = Scan.gtin13 b /\ Scan.expiry a = Scan.expiry b
      /\ Scan.expiryFormatted a = Scan.expiryFormatted b
      /\ Scan.expiryStatus a = Scan.expiryStatus b /\ Scan.batch a = Scan.batch b
      /\ Scan.serial a = Scan.serial b /\ Scan.qty a = Scan.qty b
      /\ Scan.productName a = Scan.productName b
      /\ Scan.matchType a = Scan.matchType b /\ Scan.error a = Scan.error b
  | _, _ => False
  end.

(** The order [expired], [soon], [ok] of the statuses of a dated scan. *)
Inductive notLater : ExpiryStatus -> ExpiryStatus -> Prop :=
| notLater_same s : notLater s s
| notLater_expired_soon : notLater expired soon
| notLater_expired_ok : notLater expired ok
| notLater_soon_ok : notLater soon ok.


(** The month and the day that [parseGS1Date] reads in a date of six
    characters. *)
Definition monthOf (dateStr : string) : Js.jsnum := Js.parseInt10 (Js.substring dateStr 2 4).
Definition dayOf (dateStr : string) : Js.jsnum := Js.parseInt10 (Js.substring dateStr 4 6).

(** The range test of [parseGS1Date] on what was read: the month is not in
    1..12 or the day is above 31. *)
Definition outOfRange (dateStr : string) : Prop :=
  Js.lt (monthOf dateStr) (Some 1%Z) = true \/ Js.gt (monthOf dateStr) (Some 12%Z) = true
  \/ Js.gt (dayOf dateStr) (Some 31%Z) = true.

(** The number of days from 1970-01-01 to a day of the Gregorian calendar. *)
Definition daysFromCivil (y m d : Z) : Z :=
  (let y' := if m <=? 2 then y - 1 else y in
   let era := y' / 400 in
   let yoe := y' - era * 400 in
   let mp := (m + 9) mod 12 in
   let doy := (153 * mp + 2) / 5 + d - 1 in
   let doe := yoe * 365 + yoe / 4 - yoe / 100 + doy in
   era * 146097 + doe - 719468)%Z.

(** The time value of an ISO date [YYYY-MM-DD] at midnight UTC; an ISO date
    that is not a day of the calendar is an invalid date. *)
Definition isoDateTime (isoDate : string) : option Z :=
  match isoDate with
  | String y1 (String y2 (String y3 (String y4 (String "-"
      (String m1 (String m2 (String "-" (String d1 (String d2 EmptyString))))))))) =>
      if allDigits (String y1 (String y2 (String y3 (String y4
                     (String m1 (String m2 (String d1 (String d2 EmptyString))))))))
      then
        let y := (1000 * Js.digitValue y1 + 100 * Js.digitValue y2
                  + 10 * Js.digitValue y3 + Js.digitValue y4)%Z in
        let m := (10 * Js.digitValue m1 + Js.digitValue m2)%Z in
        let d := (10 * Js.digitValue d1 + Js.digitValue d2)%Z in
        if ((1 <=? m) && (m <=? 12) && (1 <=? d) && (d <=? Js.daysInMonth y m))%Z
        then Some (daysFromCivil y m d * msPerDay)%Z
        else None
      else None
  | _ => None
  end.

(** A host for the examples: local time is UTC and today is a given number
    of days after 1970-01-01. *)
Definition utcHost (todayDays : Z) : DateHost :=
  {| todayMidnight := (todayDays * msPerDay)%Z; isoMidnight := isoDateTime |}.

(** 2025-06-01. *)
Definition exampleHost : DateHost := utcHost 20240.

(** The string of two decimal digits. *)
Definition twoChars (a b : ascii) : string := String a (String b EmptyString).

(* ====================================================================== *)
(** ** Catalog files, exports and the history view *)
(* ====================================================================== *)

Definition DQUOTE : ascii := ascii_of_nat 34.
Definition TAB : ascii := ascii_of_nat 9.
Definition LF : ascii := ascii_of_nat 10.
Definition CR : ascii := ascii_of_nat 13.

(** [parts.join(sep)] *)
Fixpoint join (sep : string) (parts : list string) : string :=
  match parts with
  | [] => EmptyString
  | [p] => p
  | p :: rest => p ++ sep ++ join sep rest
  end.

(** [s.toLowerCase()] on the code units 0..255: the letters A-Z and the
    capital letters of Latin-1. *)
Definition toLowerChar (c : ascii) : ascii :=
  if ((65 <=? Js.code c) && (Js.code c <=? 90))
     || ((192 <=? Js.code c) && (Js.code c <=? 214))
     || ((216 <=? Js.code c) && (Js.code c <=? 222))
  then ascii_of_nat (Js.code c + 32)
  else c.

Definition toLowerCase (s : string) : string := Js.mapChars toLowerChar s.

(** [(s.match(/c/g) || []).length]: the occurrences of a character. *)
Fixpoint countChar (c : ascii) (s : string) : nat :=
  match s with
  | EmptyString => 0
  | String c' s' => (if Ascii.eqb c' c then 1 else 0) + countChar c s'
  end.

(** [s.split(/\r?\n/)]: a separator is a line feed, with the carriage return
    in front of it when there is one. *)
Fixpoint splitLines (s : string) : list string :=
  match s with
  | EmptyString => [EmptyString]
  | String c s' =>
      let cons_char :=
        match splitLines s' with
        | h :: t => String c h :: t
        | [] => [String c EmptyString]
        end in
      if Ascii.eqb c LF then EmptyString :: splitLines s'
      else if Ascii.eqb c CR then
        match s' with
        | String c' s'' => if Ascii.eqb c' LF then EmptyString :: splitLines s'' else cons_char
        | EmptyString => cons_char
        end
      else cons_char
  end.

(** [array.findIndex(p)], [None] for -1. *)
Fixpoint findIndex {A} (p : A -> bool) (l : list A) : option nat :=
  match l with
  | [] => None
  | x :: l' => if p x then Some 0 else option_map S (findIndex p l')
  end.

(** The loop of [parseCSVLine] on the text from position [i] on, with the
    variables [current], [inQuotes] and [result]; [next] is [line[i + 1]].
    The delimiter is a string of one character. *)
Fixpoint csvLoop (delimiter : ascii) (rest current : string) (inQuotes : bool)
  (result : list string) : list string :=
  match rest with
  | EmptyString => (result ++ [Js.trim current])%list
  | String char rest' =>
      if Ascii.eqb char DQUOTE then
        match rest' with
        | String next rest'' =>
            if inQuotes && Ascii.eqb next DQUOTE
            then csvLoop delimiter rest'' (current ++ String DQUOTE EmptyString) inQuotes result
            else csvLoop delimiter rest' current (negb inQuotes) result
        | EmptyString => csvLoop delimiter rest' current (negb inQuotes) result
        end
      else if Ascii.eqb char delimiter && negb inQuotes
      then csvLoop delimiter rest' EmptyString inQuotes (result ++ [Js.trim current])%list
      else csvLoop delimiter rest' (current ++ String char EmptyString) inQuotes result
  end.

Definition parseCSVLine (line : string) (delimiter : ascii) : list string :=
  csvLoop delimiter line EmptyString false [].

(** The tests of [parseMasterFile] on a header. *)
Definition isGtinHeader (h : string) : bool :=
  Js.includes h "gtin" || Js.includes h "barcode" || Js.includes h "ean"
  || Js.includes h "upc" || Js.includes h "code".

Definition isNameHeader (h : string) : bool :=
  Js.includes h "name" || Js.includes h "description" || Js.includes h "product"
  || Js.includes h "item".

(** The delimiter that [parseMasterFile] chooses from the first line. *)
Definition chooseDelimiter (content : string) : ascii :=
  let firstLine := hd EmptyString (Js.split LF content) in
  if Js.includes firstLine (String TAB EmptyString) then TAB
  else if countChar "," firstLine <? countChar ";" firstLine then ";"%char
  else ","%char.

(** The body of the loop of [parseMasterFile]: the row pushed for a line,
    if any. *)
Definition masterRow (delimiter : ascii) (gtinCol nameCol : nat) (line : string)
  : option Product.t :=
  let cols := parseCSVLine line delimiter in
  if Nat.max gtinCol nameCol <? List.length cols then
    let gtin := Js.filterChars Js.isDigit (nth gtinCol cols EmptyString) in
    let name := Js.trim (nth nameCol cols EmptyString) in
    if negb (String.eqb gtin EmptyString) && (8 <=? String.length gtin)
    then Some {| Product.gtin := gtin; Product.name := name |}
    else None
  else None.

Definition parseMasterFile (content filename : string) : list Product.t :=
  let delimiter := chooseDelimiter content in
  let lines :=
    filter (fun line => negb (String.eqb (Js.trim line) EmptyString)) (splitLines content) in
  match lines with
  | [] => []
  | header :: body =>
      let headers := parseCSVLine (toLowerCase header) delimiter in
      let gtinCol := match findIndex isGtinHeader headers with Some i => i | None => 0 end in
      let nameCol := match findIndex isNameHeader headers with Some i => i | None => 1 end in
      fold_left
        (fun data line =>
           match masterRow delimiter gtinCol nameCol line with
           | Some row => (data ++ [row])%list
           | None => data
           end)
        body []
  end.

(** The properties of a history row that the exports read; [None] is a
    property that is [undefined]. *)
Module Row.
Record t := {
  scanTime : option string;
  raw : option string;
  gtin14 : option string;
  gtin13 : option string;
  expiryFormatted : option string;
  batch : option string;
  serial : option string;
  qty : option string;
  productName : option string;
  matchType : option string
}.
End Row.

(** [value || fallback] on a string or [undefined]. *)
Definition orElse (value : option string) (fallback : string) : string :=
  match value with
  | Some (String _ _ as v) => v
  | _ => fallback
  end.

(** The array of ten values that both exports build for a row. *)
Definition exportFields (row : Row.t) : list string :=
  [ orElse (Row.scanTime row) ""; orElse (Row.raw row) ""; orElse (Row.gtin14 row) "";
    orElse (Row.gtin13 row) ""; orElse (Row.expiryFormatted row) "";
    orElse (Row.batch row) ""; orElse (Row.serial row) ""; orElse (Row.qty row) "1";
    orElse (Row.productName row) ""; orElse (Row.matchType row) "" ].

Definition exportHeaders : list string :=
  [ "Scan Time"; "Raw"; "GTIN14"; "GTIN13"; "Expiry"; "Batch"; "Serial"; "Qty";
    "Product Name"; "Match Type" ].

Definition exportTSV (rows : list Row.t) : string :=
  join (String LF EmptyString)
    (join (String TAB EmptyString) exportHeaders
     :: List.map (fun row => join (String TAB EmptyString) (exportFields row)) rows).

(** The replacement of every double quote of [v] by two of them. *)
Fixpoint doubleQuotes (v : string) : string :=
  match v with
  | EmptyString => EmptyString
  | String c v' =>
      if Ascii.eqb c DQUOTE then String DQUOTE (String DQUOTE (doubleQuotes v'))
      else String c (doubleQuotes v')
  end.

(** The value between double quotes, its own double quotes doubled. *)
Definition quoteField (v : string) : string :=
  String DQUOTE (doubleQuotes v ++ String DQUOTE EmptyString).

Definition exportCSV (rows : list Row.t) : string :=
  join (String LF EmptyString)
    (join "," (List.map (fun h => String DQUOTE (h ++ String DQUOTE EmptyString)) exportHeaders)
     :: List.map (fun row => join "," (List.map quoteField (exportFields row))) rows).




(** [array.slice(start, end)] for indices that are not negative. *)
Definition slice {A} (l : list A) (startIdx endIdx : nat) : list A :=
  firstn (endIdx - startIdx) (skipn startIdx l).

(** The page of the history table: the lines of [renderHistoryTable] from
    [totalItems] to [pageItems], for a page number of at least 1 and a
    positive page size. *)
Record Page (A : Type) := {
  pageNumber : nat;
  totalPages : nat;
  startIdx : nat;
  endIdx : nat;
  pageItems : list A
}.
Arguments pageNumber {A}.
Arguments totalPages {A}.
Arguments startIdx {A}.
Arguments endIdx {A}.
Arguments pageItems {A}.

Definition paginate {A} (page perPage : nat) (filtered : list A) : Page A :=
  let totalItems := List.length filtered in
  let totalPages := Nat.max 1 ((totalItems + perPage - 1) / perPage) in
  let page := Nat.min page totalPages in
  let startIdx := (page - 1) * perPage in
  let endIdx := Nat.min (startIdx + perPage) totalItems in
  {| pageNumber := page; totalPages := totalPages; startIdx := startIdx; endIdx := endIdx;
     pageItems := slice filtered startIdx endIdx |}.

(* ====================================================================== *)
(** ** Vocabulary of the further properties *)
(* ====================================================================== *)

(** The constant [gtin] of the loop of [buildMasterIndex]: the digits of the
    GTIN of a row, padded with zeros to 14. *)
Definition canonicalGtin (item : Product.t) : string :=
  Js.padStart0 14 (Js.filterChars Js.isDigit (Product.gtin item)).

(** The entry that the loop pushes on a bucket for a row. *)
Definition canonicalProduct (item : Product.t) : Product.t :=
  {| Product.gtin := canonicalGtin item; Product.name := Product.name item |}.

(** The row sets the key [k] of the exact map: [k] is its canonical GTIN, or
    that GTIN without its leading zero. *)
Definition writesKey (item : Product.t) (k : string) : bool :=
  String.eqb (canonicalGtin item) k
  || (Js.startsWith (canonicalGtin item) "0" && String.eqb (Js.drop 1 (canonicalGtin item)) k).

(** [A-Za-z0-9] *)
Definition isAlnum (c : ascii) : bool := Js.isLetter c || Js.isDigit c.

(** A token of an AI of variable length: the code is in the dictionary with
    length 0 and the value is made of letters and digits. *)
Definition variableToken (t : token) : bool :=
  match aiLengths (fst t) with
  | Some 0 => allChars isAlnum (snd t)
  | _ => false
  end.

(** A group of tokens between two separators: tokens of fixed length, then
    at most one token of variable length; the group is not empty. *)
Fixpoint groupOk (toks : list token) : bool :=
  match toks with
  | [] => false
  | [t] => fixedToken t || variableToken t
  | t :: rest => fixedToken t && groupOk rest
  end.





(** The text holds no occurrence of the character. *)
Definition without (c : ascii) (s : string) : bool :=
  allChars (fun x => negb (Ascii.eqb x c)) s.

(** A cell of a catalog file that needs no quotes: it holds no delimiter, no
    double quote and no end of line. *)
Definition plainCell (s : string) : bool :=
  without "," s && without ";" s && without TAB s && without DQUOTE s
  && without LF s && without CR s.

(* ====================================================================== *)
(** ** Strings *)
(* ====================================================================== *)

Section Strings.

Lemma append_empty_r (s : string) : s ++ "" = s.
Proof. induction s; simpl; congruence. Qed.

Lemma append_assoc (a b c : string) : (a ++ b) ++ c = a ++ b ++ c.
Proof. induction a; simpl; congruence. Qed.

Lemma length_append (a b : string) :
  String.length (a ++ b) = String.length a + String.length b.
Proof. induction a; simpl; congruence. Qed.

Lemma drop_append (a b : string) : Js.drop (String.length a) (a ++ b) = b.
Proof. induction a; simpl; auto. Qed.

Lemma length_drop (n : nat) (s : string) :
  String.length (Js.drop n s) = String.length s - n.
Proof. revert s; induction n; intros [|c s]; simpl; auto. Qed.

Lemma substring_drop (n m : nat) (s : string) :
  String.substring n m s = String.substring 0 m (Js.drop n s).
Proof.
  revert s; induction n; intros s; simpl.
  - reflexivity.
  - destruct s as [|c s]; simpl.
    + destruct m; reflexivity.
    + apply IHn.
Qed.

Lemma substring_prefix (a b : string) :
  String.substring 0 (String.length a) (a ++ b) = a.
Proof. induction a; simpl; [destruct b; reflexivity | congruence]. Qed.

Lemma substring_0_0 (s : string) : String.substring 0 0 s = "".
Proof. destruct s; reflexivity. Qed.

Lemma substring_prefix_inv (p t : string) :
  String.substring 0 (String.length p) t = p -> t = p ++ Js.drop (String.length p) t.
Proof.
  revert t; induction p as [|c p IH]; intros t; simpl; [reflexivity|].
  destruct t as [|c' t]; [discriminate|].
  intros [= -> H]; f_equal; apply IH; exact H.
Qed.

Lemma length_substring (s : string) (m : nat) :
  String.length (String.substring 0 m s) = Nat.min m (String.length s).
Proof.
  revert m; induction s as [|c s IH]; intros [|m]; simpl; auto.
Qed.

Lemma length_zeros (n : nat) : String.length (Js.zeros n) = n.
Proof. induction n; simpl; congruence. Qed.

Lemma length_padStart0 (n : nat) (s : string) :
  String.length s <= n -> String.length (Js.padStart0 n s) = n.
Proof. intros H; unfold Js.padStart0; rewrite length_append, length_zeros; lia. Qed.

Lemma allChars_append (p : ascii -> bool) (a b : string) :
  allChars p (a ++ b) = allChars p a && allChars p b.
Proof. induction a; simpl; [reflexivity | rewrite IHa, andb_assoc; reflexivity]. Qed.

Lemma allChars_weaken (p q : ascii -> bool) (s : string) :
  (forall c, p c = true -> q c = true) -> allChars p s = true -> allChars q s = true.
Proof.
  intros Hpq; induction s as [|c s IH]; simpl; auto.
  intros H; apply andb_true_iff in H as [Hc Hs]; rewrite (Hpq _ Hc), IH; auto.
Qed.

Lemma prefix_empty (s : string) : prefix "" s = true.
Proof. destruct s; reflexivity. Qed.

Lemma includes_cons (c : ascii) (s sub : string) :
  Js.includes (String c s) sub = prefix sub (String c s) || Js.includes s sub.
Proof. reflexivity. Qed.

Lemma prefix_char_ne (a c : ascii) (s : string) :
  a <> c -> prefix (String a "") (String c s) = false.
Proof.
  intros Hne; change (prefix (String a "") (String c s))
    with (if ascii_dec a c then prefix "" s else false).
  destruct (ascii_dec a c); [contradiction | reflexivity].
Qed.

End Strings.

(* ====================================================================== *)
(** ** Patterns *)
(* ====================================================================== *)

Section Patterns.

Lemma literal_inv (p s r : string) : Regex.literal p s = Some r -> s = p ++ r.
Proof.
  revert s; induction p as [|a p IH]; intros [|b s]; simpl; intros H;
    try congruence.
  destruct (Ascii.eqb_spec a b) as [->|]; [|discriminate].
  f_equal; auto.
Qed.

Lemma literal_append (p r : string) : Regex.literal p (p ++ r) = Some r.
Proof.
  induction p as [|a p IH]; simpl; [destruct r; reflexivity|].
  rewrite Ascii.eqb_refl; exact IH.
Qed.

Lemma digits_inv (n : nat) (s d r : string) :
  Regex.digits n s = Some (d, r) ->
  s = d ++ r /\ String.length d = n /\ allDigits d = true.
Proof.
  revert s d r; induction n as [|n IH]; intros s d r; simpl.
  - intros [= <- <-]; auto.
  - destruct s as [|c s]; [discriminate|].
    destruct (Js.isDigit c) eqn:Hc; [|discriminate].
    destruct (Regex.digits n s) as [[d' r']|] eqn:Hd; [|discriminate].
    intros [= <- <-]. destruct (IH _ _ _ Hd) as (-> & <- & Hall).
    unfold allDigits in *; simpl; rewrite Hc, Hall; auto.
Qed.

Lemma digits_append (d r : string) :
  allDigits d = true -> Regex.digits (String.length d) (d ++ r) = Some (d, r).
Proof.
  unfold allDigits; induction d as [|c d IH]; simpl; [reflexivity|].
  intros H; apply andb_true_iff in H as [Hc Hd]; rewrite Hc, IH; auto.
Qed.

Lemma regexMatch_at (pat : string -> option string) (s m : string) :
  pat s = Some m -> Regex.regexMatch pat s = Some m.
Proof. intros H; destruct s; simpl; rewrite H; reflexivity. Qed.

Lemma regexMatch_skip (pat : string -> option string) (pre s : string) :
  unmatchedBefore pat pre s = true ->
  Regex.regexMatch pat (pre ++ s) = Regex.regexMatch pat s.
Proof.
  induction pre as [|c pre IH]; simpl; [reflexivity|].
  destruct (pat (String c (pre ++ s))); [discriminate | exact IH].
Qed.

Lemma regexMatch_inv (pat : string -> option string) (text m : string) :
  Regex.regexMatch pat text = Some m ->
  exists pre s, text = pre ++ s /\ pat s = Some m /\ unmatchedBefore pat pre s = true.
Proof.
  induction text as [|c text IH]; simpl.
  - destruct (pat "") eqn:H; [|discriminate].
    intros [= ->]; exists "", ""; auto.
  - destruct (pat (String c text)) eqn:H.
    + intros [= ->]; exists "", (String c text); auto.
    + intros Hm; destruct (IH Hm) as (pre & s & -> & Hs & Hpre).
      exists (String c pre), s; simpl; rewrite H; auto.
Qed.

Lemma gtin14At_inv (s g : string) :
  Regex.gtin14At s = Some g ->
  exists rest, s = "(01)" ++ g ++ rest /\ String.length g = 14 /\ allDigits g = true.
Proof.
  unfold Regex.gtin14At.
  destruct (Regex.literal "(01)" s) as [r|] eqn:Hl; [|discriminate].
  destruct (Regex.digits 14 r) as [[d r']|] eqn:Hd; [|discriminate].
  simpl; intros [= <-].
  apply literal_inv in Hl; apply digits_inv in Hd as (-> & Hlen & Hall).
  exists r'; auto.
Qed.

Lemma gtinShortAt_inv (s g : string) :
  Regex.gtinShortAt s = Some g ->
  exists rest, s = "(01)" ++ g ++ rest
               /\ (String.length g = 12 \/ String.length g = 13) /\ allDigits g = true.
Proof.
  unfold Regex.gtinShortAt.
  destruct (Regex.literal "(01)" s) as [r|] eqn:Hl; [|discriminate].
  apply literal_inv in Hl.
  destruct (Regex.digits 13 r) as [[d r']|] eqn:Hd.
  - intros [= <-]; apply digits_inv in Hd as (-> & Hlen & Hall); exists r'; auto.
  - destruct (Regex.digits 12 r) as [[d r']|] eqn:Hd'; [|discriminate].
    simpl; intros [= <-]; apply digits_inv in Hd' as (-> & Hlen & Hall); exists r'; auto.
Qed.

End Patterns.

(* ====================================================================== *)
(** ** The extractor *)
(* ====================================================================== *)

Section Extractor.

Variable host : DateHost.

(** The object that [parseGs1] builds for a string that is not empty. *)
Lemma parseGs1_string (c : ascii) (s : string) :
  exists r,
    parseGs1 host (Js.Str (String c s)) = Scanned r
    /\ Scan.raw r = String c s
    /\ (Scan.gtin14 r, Scan.gtin13 r) = gtinFields (cleanInput (String c s))
    /\ (Scan.expiry r, Scan.expiryFormatted r, Scan.expiryStatus r)
       = expiryFields host (cleanInput (String c s))
    /\ Scan.valid r
       = negb (String.eqb (Scan.gtin14 r) "" && String.eqb (Scan.gtin13 r) "")
    /\ Scan.matchType r = (if Scan.valid r then NONE else INVALID)
    /\ Scan.error r = (if Scan.valid r then None else Some "No valid GTIN found").
Proof.
  unfold parseGs1.
  destruct (gtinFields (cleanInput (String c s))) as [g14 g13].
  destruct (expiryFields host (cleanInput (String c s))) as [[e ef] es].
  eexists; split; [reflexivity|]; simpl.
  destruct (String.eqb g14 "" && String.eqb g13 ""); simpl; auto 10.
Qed.

Lemma gtinFields_shape (text g14 g13 : string) :
  gtinFields text = (g14, g13) ->
  (g14 = "" /\ g13 = "")
  \/ (String.length g14 = 14
      /\ g13 = if Js.startsWith g14 "0" then Js.drop 1 g14 else g14).
Proof.
  unfold gtinFields.
  destruct (Regex.regexMatch Regex.gtin14At text) as [g|] eqn:H14.
  - intros [= <- <-]; right.
    apply regexMatch_inv in H14 as (pre & s & _ & Hs & _).
    apply gtin14At_inv in Hs as (rest & _ & Hlen & _); auto.
  - destruct (Regex.regexMatch Regex.gtinShortAt text) as [g|] eqn:H13.
    + intros [= <- <-]; right.
      apply regexMatch_inv in H13 as (pre & s & _ & Hs & _).
      apply gtinShortAt_inv in Hs as (rest & _ & Hlen & _).
      assert (H13' : String.length (Js.padStart0 13 g) = 13)
        by (apply length_padStart0; lia).
      assert (H14' : Js.padStart0 14 (Js.padStart0 13 g) = String "0" (Js.padStart0 13 g))
        by (unfold Js.padStart0 at 1; rewrite H13'; reflexivity).
      rewrite H14'; split; [simpl; congruence|].
      unfold Js.startsWith; simpl; rewrite prefix_empty; reflexivity.
    + intros [= <- <-]; auto.
Qed.

End Extractor.

(* ====================================================================== *)
(** ** Dates *)
(* ====================================================================== *)

Section Dates.

Lemma parseGS1Date_outOfRange (d : string) :
  String.length d = 6 -> outOfRange d -> parseGS1Date d = noDate.
Proof.
  intros Hlen Hout; unfold parseGS1Date; rewrite Hlen; simpl negb; cbv iota.
  fold (monthOf d); fold (dayOf d).
  destruct Hout as [H | [H | H]].
  - rewrite H; reflexivity.
  - rewrite H, orb_true_r; reflexivity.
  - assert (Hz : Js.strictEq (dayOf d) (Some 0%Z) = false).
    { destruct (dayOf d) as [z|]; simpl in *; [|discriminate].
      apply Z.ltb_lt in H; apply Z.eqb_neq; lia. }
    rewrite Hz, H, !orb_true_r; reflexivity.
Qed.

Lemma getExpiryStatus_dated (host : DateHost) (isoDate : string) :
  isoDate <> "" -> getExpiryStatus host isoDate <> missing.
Proof.
  intros Hne; unfold getExpiryStatus.
  destruct (String.eqb_spec isoDate ""); [contradiction|].
  destruct (isoMidnight host isoDate); [|discriminate].
  unfold statusOfDiff; destruct (_ <? _)%Z; [discriminate|].
  destruct (_ <=? _)%Z; discriminate.
Qed.

Lemma expiryAt_inv (s d : string) :
  Regex.expiryAt s = Some d -> String.length d = 6 /\ allDigits d = true.
Proof.
  unfold Regex.expiryAt.
  destruct (Regex.literal "(17)" s) as [r|]; [|discriminate].
  destruct (Regex.digits 6 r) as [[d' r']|] eqn:Hd; [|discriminate].
  simpl; intros [= <-]; apply digits_inv in Hd; tauto.
Qed.

End Dates.

(* ====================================================================== *)
(** ** Properties of the extractor *)
(* ====================================================================== *)

(** C1, as the code has it.  The expiry [250231] is normalised to the ISO
    date 2025-02-31, since the day is only tested against the range 1..31,
    and the scan gets that date and a status other than [missing].  A date
    that fails the range test (a month outside 1..12, or a day above 31),
    like a text in which the expiry pattern does not match, empties the two
    expiry fields and sets the status to [missing], and nothing else: the
    scan is valid exactly when a GTIN was extracted, and its GTIN fields are
    those of the text. *)
Theorem malformed_date_degrades_expiry_only (host : DateHost) (c : ascii) (s : string) :
  exists r,
    parseGs1 host (Js.Str (String c s)) = Scanned r
    /\ (Scan.gtin14 r, Scan.gtin13 r) = gtinFields (cleanInput (String c s))
    /\ Scan.valid r = negb (String.eqb (Scan.gtin14 r) "" && String.eqb (Scan.gtin13 r) "")
    /\ (Regex.regexMatch Regex.expiryAt (cleanInput (String c s)) = Some "250231" ->
        Scan.expiry r = "2025-02-31" /\ Scan.expiryFormatted r = "31/02/2025"
        /\ Scan.expiryStatus r <> missing)
    /\ (forall d,
          Regex.regexMatch Regex.expiryAt (cleanInput (String c s)) = Some d ->
          outOfRange d ->
          Scan.expiry r = "" /\ Scan.expiryFormatted r = "" /\ Scan.expiryStatus r = missing)
    /\ (Regex.regexMatch Regex.expiryAt (cleanInput (String c s)) = None ->
        Scan.expiry r = "" /\ Scan.expiryFormatted r = "" /\ Scan.expiryStatus r = missing).
Proof.
  destruct (parseGs1_string host c s) as (r & Hr & _ & Hg & He & Hv & _).
  unfold expiryFields in He.
  exists r; split; [exact Hr|]; split; [exact Hg|]; split; [exact Hv|].
  split; [|split].
  - intros Hm; rewrite Hm in He; injection He as H1 H2 H3.
    rewrite H1, H2, H3; split; [reflexivity|]; split; [reflexivity|].
    apply getExpiryStatus_dated; discriminate.
  - intros d Hm Hout; rewrite Hm in He.
    apply regexMatch_inv in Hm as (pre & t & _ & Ht & _).
    apply expiryAt_inv in Ht as [Hlen _].
    rewrite (parseGS1Date_outOfRange d Hlen Hout) in He.
    injection He as H1 H2 H3; auto.
  - intros Hm; rewrite Hm in He; injection He as H1 H2 H3; auto.
Qed.

(** The theorem at the scan of a GTIN with the expiry [251301], month 13:
    the scan is valid, without expiry. *)
Lemma malformed_date_degrades_expiry_only_witness :
  exists r,
    parseGs1 exampleHost (Js.Str "(01)06297000001234(17)251301") = Scanned r
    /\ Scan.gtin14 r = "06297000001234"
    /\ Scan.valid r = true
    /\ Scan.expiry r = "" /\ Scan.expiryFormatted r = "" /\ Scan.expiryStatus r = missing.
Proof.
  destruct (malformed_date_degrades_expiry_only exampleHost "(" "01)06297000001234(17)251301")
    as (r & Hr & Hg & Hv & _ & Hout & _).
  change (gtinFields _) with ("06297000001234", "6297000001234") in Hg.
  injection Hg as H14 H13.
  exists r; split; [exact Hr|]; split; [exact H14|]; split.
  - rewrite Hv, H14; reflexivity.
  - apply (Hout "251301" eq_refl); right; left; reflexivity.
Defined.

(** C1, as the specification has it, fails at [250231]: normalisation does
    not return the empty date, and on every host the scan of that expiry has
    the ISO date 2025-02-31 and a status that is not [missing]. *)
Lemma feb31_is_not_rejected :
  parseGS1Date "250231" = {| iso := "2025-02-31"; formatted := "31/02/2025" |}
  /\ (forall host : DateHost,
        exists r,
          parseGs1 host (Js.Str "(01)06297000001234(17)250231") = Scanned r
          /\ Scan.valid r = true
          /\ Scan.expiry r = "2025-02-31"
          /\ Scan.expiryStatus r <> missing).
Proof.
  split; [reflexivity|].
  intros host; eexists; split; [reflexivity|]; simpl.
  repeat split. apply getExpiryStatus_dated; discriminate.
Qed.

(** C5.  A valid result of [parseGs1] has a [gtin14] of 14 characters, and
    its [gtin13] is [gtin14] without its first character when that is a
    zero, and [gtin14] itself otherwise. *)
Theorem gtin14_gtin13_invariant (host : DateHost) (raw : Js.value) (r : Scan.t) :
  parseGs1 host raw = Scanned r ->
  Scan.valid r = true ->
  String.length (Scan.gtin14 r) = 14
  /\ Scan.gtin13 r
     = (if Js.startsWith (Scan.gtin14 r) "0" then Js.drop 1 (Scan.gtin14 r)
        else Scan.gtin14 r).
Proof.
  intros Hp Hv.
  destruct raw as [| | | |[|c s]|]; try discriminate Hp.
  destruct (parseGs1_string host c s) as (r' & Hr & _ & Hg & _ & Hv' & _).
  rewrite Hp in Hr; injection Hr as <-.
  symmetry in Hg; apply gtinFields_shape in Hg as [[H14 H13] | H]; [|exact H].
  rewrite Hv', H14, H13 in Hv; discriminate.
Qed.

(** The theorem at the scan of the first example of the specification. *)
Lemma gtin14_gtin13_invariant_witness :
  exists r,
    parseGs1 exampleHost (Js.Str "(01)06297000001234(17)250630(10)ABC001(21)SN123")
    = Scanned r
    /\ Scan.gtin14 r = "06297000001234"
    /\ Scan.gtin13 r = "6297000001234"
    /\ String.length (Scan.gtin14 r) = 14
    /\ Scan.gtin13 r
       = (if Js.startsWith (Scan.gtin14 r) "0" then Js.drop 1 (Scan.gtin14 r)
          else Scan.gtin14 r).
Proof.
  eexists; split; [reflexivity|]; split; [reflexivity|]; split; [reflexivity|].
  exact (gtin14_gtin13_invariant exampleHost
           (Js.Str "(01)06297000001234(17)250630(10)ABC001(21)SN123") _ eq_refl eq_refl).
Defined.

Section ScanOutcomes.



End ScanOutcomes.




Section GtinRule.

Lemma digits_none_short (n : nat) (d r : string) :
  String.length d < n ->
  match r with String c _ => Js.isDigit c = false | EmptyString => True end ->
  Regex.digits n (d ++ r) = None.
Proof.
  revert d; induction n as [|n IH]; intros d Hn Hr; [lia|].
  destruct d as [|c d]; simpl in *.
  - destruct r as [|c r]; [reflexivity | rewrite Hr; reflexivity].
  - destruct (Js.isDigit c); [|reflexivity].
    rewrite IH; auto; lia.
Qed.

End GtinRule.

(** C4, as the code has it.  In a text [pre ++ "(01)" ++ g ++ rest] where [g]
    is made of digits and no earlier position matches: when [g] has 14
    digits it is the GTIN, whatever follows it, more digits included; when
    no [(01)] of the text is followed by 14 digits and [g] has 13 digits, or
    12 digits not followed by a digit, the GTIN is [g] padded with zeros to
    13 and then to 14 digits. *)
Theorem gtin_is_first_14_digits (pre g rest : string) :
  allDigits g = true ->
  (String.length g = 14 ->
   unmatchedBefore Regex.gtin14At pre ("(01)" ++ g ++ rest) = true ->
   gtinFields (pre ++ "(01)" ++ g ++ rest)
   = (g, if Js.startsWith g "0" then Js.drop 1 g else g))
  /\ (Regex.regexMatch Regex.gtin14At (pre ++ "(01)" ++ g ++ rest) = None ->
      unmatchedBefore Regex.gtinShortAt pre ("(01)" ++ g ++ rest) = true ->
      String.length g = 13
      \/ (String.length g = 12
          /\ match rest with String c _ => Js.isDigit c = false | EmptyString => True end) ->
      gtinFields (pre ++ "(01)" ++ g ++ rest)
      = (Js.padStart0 14 (Js.padStart0 13 g), Js.padStart0 13 g)).
Proof.
  intros Hg; split.
  - intros Hlen Hpre; unfold gtinFields.
    rewrite (regexMatch_skip _ _ _ Hpre).
    assert (Hat : Regex.gtin14At ("(01)" ++ g ++ rest) = Some g).
    { unfold Regex.gtin14At; rewrite literal_append, <- Hlen, digits_append; auto. }
    rewrite (regexMatch_at _ _ _ Hat); reflexivity.
  - intros Hnone Hpre Hlen; unfold gtinFields; rewrite Hnone.
    rewrite (regexMatch_skip _ _ _ Hpre).
    assert (Hat : Regex.gtinShortAt ("(01)" ++ g ++ rest) = Some g).
    { unfold Regex.gtinShortAt; rewrite literal_append.
      destruct Hlen as [Hlen | [Hlen Hrest]].
      - rewrite <- Hlen, digits_append; auto.
      - rewrite digits_none_short by (auto; lia).
        rewrite <- Hlen, digits_append; auto. }
    rewrite (regexMatch_at _ _ _ Hat); reflexivity.
Qed.

(** The theorem at a run of 15 digits after [(01)], whose first 14 are the
    GTIN, and at a run of 13 digits. *)
Lemma gtin_is_first_14_digits_witness :
  gtinFields "(01)123456789012345(17)250630" = ("12345678901234", "12345678901234")
  /\ gtinFields "x(01)6297000001234(10)A" = ("06297000001234", "6297000001234").
Proof.
  split.
  - exact (proj1 (gtin_is_first_14_digits "" "12345678901234" "5(17)250630" eq_refl)
             eq_refl eq_refl).
  - exact (proj2 (gtin_is_first_14_digits "x" "6297000001234" "(10)A" eq_refl)
             eq_refl eq_refl (or_introl eq_refl)).
Defined.

(** C4, as the specification has it, fails at [(01)] followed by 15 digits:
    no [(01)] of the text is followed by a run of exactly 14 digits, yet the
    scan is valid and its GTIN is the first 14 digits of the run. *)
Lemma longer_run_is_accepted :
  Regex.digitRun "123456789012345" = "123456789012345"
  /\ Regex.regexMatch exactly14At "(01)123456789012345" = None
  /\ gtinFields "(01)123456789012345" = ("12345678901234", "12345678901234")
  /\ (forall host : DateHost,
        exists r,
          parseGs1 host (Js.Str "(01)123456789012345") = Scanned r
          /\ Scan.valid r = true /\ Scan.gtin14 r = "12345678901234").
Proof.
  repeat split.
  intros host; eexists; split; [reflexivity|]; split; reflexivity.
Qed.

(* ====================================================================== *)
(** ** The index and the matcher *)
(* ====================================================================== *)

Section Matcher.

Lemma set_not_empty {V} (m : Js.map V) (k : string) (v : V) : Js.set m k v <> [].
Proof. destruct m as [|[k' v'] m]; simpl; [|destruct (String.eqb k' k)]; discriminate. Qed.

Lemma addItem_exact_not_empty (index : MasterIndex) (item : Product.t) :
  exact (addItem index item) <> [].
Proof.
  unfold addItem; simpl.
  destruct (Js.startsWith _ "0"); apply set_not_empty.
Qed.

(** The index holds a bucket only when its exact map holds a key. *)
Lemma built_index_buckets (data : list Product.t) :
  last8 (buildMasterIndex data) = [] \/ exact (buildMasterIndex data) <> [].
Proof.
  unfold buildMasterIndex.
  assert (H : forall start,
             last8 start = [] \/ exact start <> [] ->
             last8 (fold_left addItem data start) = []
             \/ exact (fold_left addItem data start) <> []).
  { induction data as [|item data IH]; intros start Hs; simpl; [exact Hs|].
    apply IH; right; apply addItem_exact_not_empty. }
  apply H; left; reflexivity.
Qed.

Lemma seq6Tier_no_entries (gtin14 : string) (index : MasterIndex) :
  exact index = [] ->
  seq6Tier gtin14 index = {| Match.name := ""; Match.matchType := NONE |}.
Proof.
  intros He; unfold seq6Tier, seq6Matches; rewrite He.
  assert (H : forall ws acc, fold_left (collectSeq6 []) ws acc = acc)
    by (induction ws as [|w ws IH]; intros acc; simpl; auto).
  rewrite H; reflexivity.
Qed.

(** The third tier on any index whose exact map is not empty. *)
Lemma matchProduct_last8 (index : MasterIndex) (r : Scan.t) :
  Scan.valid r = true ->
  exact index <> [] ->
  Js.get (exact index) (Scan.gtin14 r) = None ->
  Js.get (exact index) (Scan.gtin13 r) = None ->
  matchProduct (Scanned r) index
  = match Js.get (last8 index) (Js.sliceLast 8 (Scan.gtin14 r)) with
    | Some [m] => {| Match.name := Product.name m; Match.matchType := LAST8 |}
    | Some (_ :: _ :: _) => {| Match.name := ""; Match.matchType := AMBIGUOUS_LAST8 |}
    | _ => seq6Tier (Scan.gtin14 r) index
    end.
Proof.
  intros Hv Hne H14 H13; unfold matchProduct; rewrite Hv, H14, H13; simpl.
  destruct (exact index) as [|e es] eqn:He; [contradiction|]; simpl.
  destruct (Js.get (last8 index) _) as [[|m [|m' b]]|]; reflexivity.
Qed.

(** The inner loop never removes an entry of [seq6Matches]. *)
Lemma collectSeq6_keeps (entries : Js.map string) (acc : list Product.t) (seq6 : string)
  (m : Product.t) :
  In m acc -> In m (collectSeq6 entries acc seq6).
Proof.
  unfold collectSeq6; revert acc; induction entries as [|[k v] entries IH]; intros acc Hm;
    simpl; [exact Hm|].
  apply IH.
  destruct (Js.includes k seq6); [|exact Hm].
  destruct (existsb _ acc); [exact Hm | apply in_or_app; left; exact Hm].
Qed.

(** After the inner loop, every key of the exact map that contains [seq6]
    has an entry in [seq6Matches]. *)
Lemma collectSeq6_hits (entries : Js.map string) (acc : list Product.t) (seq6 k v : string) :
  In (k, v) entries -> Js.includes k seq6 = true ->
  exists m, In m (collectSeq6 entries acc seq6) /\ Product.gtin m = k.
Proof.
  revert acc; induction entries as [|[k' v'] entries IH]; intros acc Hin Hk; [contradiction|].
  destruct Hin as [[= -> ->] | Hin].
  - unfold collectSeq6; simpl; rewrite Hk.
    fold (collectSeq6 entries
            (if existsb (fun m => String.eqb (Product.gtin m) k) acc then acc
             else (acc ++ [{| Product.gtin := k; Product.name := v |}])%list) seq6).
    destruct (existsb (fun m => String.eqb (Product.gtin m) k) acc) eqn:He.
    + apply existsb_exists in He as (m & Hm & Heq).
      apply String.eqb_eq in Heq.
      exists m; split; [apply collectSeq6_keeps; exact Hm | exact Heq].
    + exists {| Product.gtin := k; Product.name := v |}; split; [|reflexivity].
      apply collectSeq6_keeps, in_or_app; right; left; reflexivity.
  - unfold collectSeq6; simpl.
    apply (IH _ Hin Hk).
Qed.

Lemma seq6Matches_hits (gtin14 : string) (index : MasterIndex) (seq6 k v : string) :
  In seq6 (windows6 (Js.sliceLast 10 gtin14)) ->
  In (k, v) (exact index) -> Js.includes k seq6 = true ->
  exists m, In m (seq6Matches gtin14 index) /\ Product.gtin m = k.
Proof.
  unfold seq6Matches; generalize (windows6 (Js.sliceLast 10 gtin14)) as ws.
  assert (Hkeep : forall ws acc m,
             In m acc -> In m (fold_left (collectSeq6 (exact index)) ws acc)).
  { induction ws as [|w ws IH]; intros acc m Hm; simpl; [exact Hm|].
    apply IH, collectSeq6_keeps; exact Hm. }
  intros ws; generalize (@nil Product.t) as acc.
  induction ws as [|w ws IH]; intros acc Hw Hin Hk; [contradiction|].
  destruct Hw as [-> | Hw]; simpl.
  - destruct (collectSeq6_hits (exact index) acc seq6 k v Hin Hk) as (m & Hm & Heq).
    exists m; split; [apply Hkeep; exact Hm | exact Heq].
  - apply IH; assumption.
Qed.

(** Two keys of the exact map that each contain a window make the last tier
    ambiguous, whether or not they stand for two products. *)
Lemma seq6Tier_two_keys (gtin14 : string) (index : MasterIndex)
  (w1 w2 k1 v1 k2 v2 : string) :
  In w1 (windows6 (Js.sliceLast 10 gtin14)) -> In w2 (windows6 (Js.sliceLast 10 gtin14)) ->
  In (k1, v1) (exact index) -> In (k2, v2) (exact index) -> k1 <> k2 ->
  Js.includes k1 w1 = true -> Js.includes k2 w2 = true ->
  seq6Tier gtin14 index = {| Match.name := ""; Match.matchType := AMBIGUOUS_SEQ6 |}.
Proof.
  intros Hw1 Hw2 Hk1 Hk2 Hne Hi1 Hi2.
  destruct (seq6Matches_hits gtin14 index w1 k1 v1 Hw1 Hk1 Hi1) as (m1 & Hm1 & Hg1).
  destruct (seq6Matches_hits gtin14 index w2 k2 v2 Hw2 Hk2 Hi2) as (m2 & Hm2 & Hg2).
  unfold seq6Tier.
  destruct (seq6Matches gtin14 index) as [|a [|b l]]; [contradiction | | reflexivity].
  destruct Hm1 as [<- | []], Hm2 as [<- | []]; congruence.
Qed.

Lemma string_cons_neq (c : ascii) (s : string) : String c s <> s.
Proof.
  intros H; apply (f_equal String.length) in H; simpl in H; lia.
Qed.

(** A catalog of one product whose GTIN, padded to 14 digits, starts with a
    zero: every valid scan that reaches the last tier with a window inside
    the 13-digit form of the product is reported ambiguous. *)
Lemma leading_zero_product_is_ambiguous (item : Product.t) (r : Scan.t) (g13 w : string) :
  Js.padStart0 14 (Js.filterChars Js.isDigit (Product.gtin item)) = String "0" g13 ->
  Scan.valid r = true ->
  Scan.gtin14 r <> String "0" g13 -> Scan.gtin14 r <> g13 ->
  Scan.gtin13 r <> String "0" g13 -> Scan.gtin13 r <> g13 ->
  Js.sliceLast 8 (Scan.gtin14 r) <> Js.sliceLast 8 (String "0" g13) ->
  In w (windows6 (Js.sliceLast 10 (Scan.gtin14 r))) ->
  Js.includes g13 w = true ->
  matchProduct (Scanned r) (buildMasterIndex [item])
  = {| Match.name := ""; Match.matchType := AMBIGUOUS_SEQ6 |}.
Proof.
  intros Hg Hv H14a H14b H13a H13b H8 Hw Hi.
  assert (Hindex : buildMasterIndex [item]
                   = {| exact := [ (String "0" g13, Product.name item);
                                   (g13, Product.name item) ];
                        last8 := [ (Js.sliceLast 8 (String "0" g13),
                                    [ {| Product.gtin := String "0" g13;
                                         Product.name := Product.name item |} ]) ] |}).
  { unfold buildMasterIndex, addItem; simpl fold_left; rewrite Hg.
    unfold Js.startsWith; simpl prefix; rewrite prefix_empty.
    simpl Js.set.
    assert (Hneq : String.eqb (String "0" g13) g13 = false)
      by (apply String.eqb_neq, string_cons_neq).
    simpl Js.drop; rewrite Hneq.
    rewrite String.eqb_refl; reflexivity. }
  assert (Hneq : forall a b : string, a <> b -> String.eqb b a = false)
    by (intros a b H; apply String.eqb_neq; congruence).
  assert (Hget : forall (V : Type) (a b k : string) (x y : V),
             Js.get [(a, x); (b, y)] k
             = if String.eqb a k then Some x else if String.eqb b k then Some y else None)
    by reflexivity.
  assert (Hget1 : forall (V : Type) (a k : string) (x : V),
             Js.get [(a, x)] k = if String.eqb a k then Some x else None)
    by reflexivity.
  rewrite Hindex, matchProduct_last8; cbn [exact last8];
    [ | exact Hv | discriminate
      | rewrite Hget, (Hneq _ _ H14a), (Hneq _ _ H14b); reflexivity
      | rewrite Hget, (Hneq _ _ H13a), (Hneq _ _ H13b); reflexivity ].
  rewrite Hget1, (Hneq _ _ H8).
  apply (seq6Tier_two_keys _ _ w w (String "0" g13) (Product.name item)
           g13 (Product.name item)).
  - exact Hw.
  - exact Hw.
  - left; reflexivity.
  - right; left; reflexivity.
  - apply string_cons_neq.
  - rewrite includes_cons, Hi, orb_true_r; reflexivity.
  - exact Hi.
Qed.

End Matcher.

(** C3.  For a valid scan whose two GTINs are not keys of the exact map of
    a built index: a bucket of one entry under the last 8 digits of [gtin14]
    gives [LAST8] with the name of that entry; a bucket of more than one
    entry gives [AMBIGUOUS-LAST8], whatever the last tier would find; and
    without a bucket the result is that of the last tier. *)
Theorem last8_tier (data : list Product.t) (r : Scan.t) :
  Scan.valid r = true ->
  Js.get (exact (buildMasterIndex data)) (Scan.gtin14 r) = None ->
  Js.get (exact (buildMasterIndex data)) (Scan.gtin13 r) = None ->
  (forall m,
      Js.get (last8 (buildMasterIndex data)) (Js.sliceLast 8 (Scan.gtin14 r)) = Some [m] ->
      matchProduct (Scanned r) (buildMasterIndex data)
      = {| Match.name := Product.name m; Match.matchType := LAST8 |})
  /\ (forall bucket,
        Js.get (last8 (buildMasterIndex data)) (Js.sliceLast 8 (Scan.gtin14 r)) = Some bucket ->
        1 < List.length bucket ->
        matchProduct (Scanned r) (buildMasterIndex data)
        = {| Match.name := ""; Match.matchType := AMBIGUOUS_LAST8 |})
  /\ (Js.get (last8 (buildMasterIndex data)) (Js.sliceLast 8 (Scan.gtin14 r)) = None ->
      matchProduct (Scanned r) (buildMasterIndex data)
      = seq6Tier (Scan.gtin14 r) (buildMasterIndex data)).
Proof.
  intros Hv H14 H13.
  assert (Hcase : exact (buildMasterIndex data) <> []
                  \/ (exact (buildMasterIndex data) = []
                      /\ last8 (buildMasterIndex data) = [])).
  { destruct (built_index_buckets data) as [Hl | He]; [|auto].
    destruct (exact (buildMasterIndex data)); [right; auto | left; discriminate]. }
  destruct Hcase as [He | [He Hl]].
  - rewrite (matchProduct_last8 _ _ Hv He H14 H13).
    repeat split.
    + intros m ->; reflexivity.
    + intros bucket -> Hlen.
      destruct bucket as [|m [|m' b]]; simpl in Hlen; try lia; reflexivity.
    + intros ->; reflexivity.
  - (* an empty catalog: no bucket, and the last tier finds nothing *)
    rewrite Hl; simpl; repeat split; try discriminate.
    intros _; unfold matchProduct; rewrite Hv, He; simpl.
    rewrite seq6Tier_no_entries; auto.
Qed.

(** The theorem at a catalog of two products that share their last 8
    digits, and the scan of a third GTIN with the same last 8 digits. *)
Lemma last8_tier_witness :
  exists r,
    parseGs1 exampleHost (Js.Str "(01)36297000001234") = Scanned r
    /\ matchProduct (Scanned r)
         (buildMasterIndex [ {| Product.gtin := "16297000001234"; Product.name := "A" |};
                             {| Product.gtin := "26297000001234"; Product.name := "B" |} ])
       = {| Match.name := ""; Match.matchType := AMBIGUOUS_LAST8 |}.
Proof.
  eexists; split; [reflexivity|].
  match goal with
  | |- matchProduct (Scanned ?r) (buildMasterIndex ?data) = _ =>
      refine (proj1 (proj2 (last8_tier data r eq_refl eq_refl eq_refl)) _ eq_refl _)
  end.
  simpl; lia.
Defined.

(** C2, at the input where the code departs from it.  The catalog holds one
    product, the GTIN 6297000001234 of the sample catalog; the scan of
    16297000001239 reaches the last tier and shares the window [700000]
    with it.  The exact map holds the product under its 14-digit key and
    under its 13-digit key, the loop counts both keys, and the result is
    [AMBIGUOUS-SEQ6] without a name. *)
Theorem single_product_counted_twice (host : DateHost) :
  buildMasterIndex
    [ {| Product.gtin := "6297000001234"; Product.name := "Vitamin D 1000 IU Tab 60s" |} ]
  = {| exact := [ ("06297000001234", "Vitamin D 1000 IU Tab 60s");
                  ("6297000001234", "Vitamin D 1000 IU Tab 60s") ];
       last8 := [ ("00001234",
                   [ {| Product.gtin := "06297000001234";
                        Product.name := "Vitamin D 1000 IU Tab 60s" |} ]) ] |}
  /\ seq6Matches "16297000001239"
       (buildMasterIndex
          [ {| Product.gtin := "6297000001234"; Product.name := "Vitamin D 1000 IU Tab 60s" |} ])
     = [ {| Product.gtin := "06297000001234"; Product.name := "Vitamin D 1000 IU Tab 60s" |};
         {| Product.gtin := "6297000001234"; Product.name := "Vitamin D 1000 IU Tab 60s" |} ]
  /\ matchProduct (parseGs1 host (Js.Str "(01)16297000001239"))
       (buildMasterIndex
          [ {| Product.gtin := "6297000001234"; Product.name := "Vitamin D 1000 IU Tab 60s" |} ])
     = {| Match.name := ""; Match.matchType := AMBIGUOUS_SEQ6 |}.
Proof. repeat split. Qed.

(* ====================================================================== *)
(** ** Properties of the dates *)
(* ====================================================================== *)

Section Calendar.

Local Open Scope Z_scope.

Lemma digitValue_nonneg (c : ascii) : 0 <= Js.digitValue c.
Proof. unfold Js.digitValue; lia. Qed.

Lemma isDigit_not_space (c : ascii) : Js.isDigit c = true -> Js.isWhiteSpace c = false.
Proof.
  unfold Js.isDigit, Js.isWhiteSpace; intros H.
  apply andb_true_iff in H as [H1 H2].
  apply Nat.leb_le in H1; apply Nat.leb_le in H2.
  repeat (apply orb_false_iff; split).
  - apply andb_false_iff; right; apply Nat.leb_gt; lia.
  - apply Nat.eqb_neq; lia.
  - apply Nat.eqb_neq; lia.
Qed.

Lemma parseInt10_two_digits (a b : ascii) :
  Js.isDigit a = true -> Js.isDigit b = true ->
  Js.parseInt10 (twoChars a b) = Some (10 * Js.digitValue a + Js.digitValue b).
Proof.
  intros Ha Hb.
  assert (Hread : Js.readDigits 0 false (twoChars a b)
                  = Some (10 * Js.digitValue a + Js.digitValue b)).
  { unfold twoChars; simpl; rewrite Ha, Hb; reflexivity. }
  unfold Js.parseInt10, twoChars; simpl Js.trimStart.
  rewrite (isDigit_not_space a Ha).
  destruct a as [[] [] [] [] [] [] [] []]; try discriminate Ha; exact Hread.
Qed.

Lemma daysInMonth_range (y m : Z) : 28 <= Js.daysInMonth y m <= 31.
Proof.
  unfold Js.daysInMonth.
  destruct (m =? 2); [destruct (Js.isLeapYear y); lia|].
  destruct ((m =? 4) || (m =? 6) || (m =? 9) || (m =? 11))%bool; lia.
Qed.

(** Day zero of the month after [m] is the last day of [m]. *)
Lemma lastDayBefore_month (y m : Z) :
  100 <= y -> 1 <= m <= 12 ->
  Js.lastDayBefore (Some y) (Some m) = Some (Js.daysInMonth y m).
Proof.
  intros Hy Hm; unfold Js.lastDayBefore.
  replace (y <=? 99) with false by (symmetry; apply Z.leb_gt; lia).
  rewrite andb_false_r.
  destruct (Z.eq_dec m 12) as [-> | Hne].
  - reflexivity.
  - rewrite Z.mod_small, Z.div_small, Z.add_0_r by lia.
    replace (m =? 0) with false by (symmetry; apply Z.eqb_neq; lia).
    reflexivity.
Qed.

Lemma diffDays_monotone (today e1 e2 : Z) :
  e1 <= e2 -> diffDays today e1 <= diffDays today e2.
Proof.
  intros H; unfold diffDays.
  assert ((today - e2) / msPerDay <= (today - e1) / msPerDay)
    by (apply Z.div_le_mono; [reflexivity | lia]).
  lia.
Qed.

Lemma statusOfDiff_monotone (d1 d2 : Z) :
  d1 <= d2 -> notLater (statusOfDiff d1) (statusOfDiff d2).
Proof.
  intros H; unfold statusOfDiff.
  destruct (Z.ltb_spec d1 0), (Z.leb_spec d1 30), (Z.ltb_spec d2 0), (Z.leb_spec d2 30);
    try lia; constructor.
Qed.

Lemma getExpiryStatus_diff (host : DateHost) (isoDate : string) (e : Z) :
  isoDate <> EmptyString -> isoMidnight host isoDate = Some e ->
  getExpiryStatus host isoDate = statusOfDiff (diffDays (todayMidnight host) e).
Proof.
  intros Hne He; unfold getExpiryStatus.
  destruct (String.eqb_spec isoDate ""); [contradiction|].
  rewrite He; reflexivity.
Qed.

End Calendar.

(** C6.  A date of six digits whose day is [00] and whose month is in 1..12
    is normalised to the last day of that month of the year 2000 + YY, which
    is what day zero of the following month is. *)
Theorem day_zero_is_last_day_of_month (y1 y2 m1 m2 : ascii) :
  Js.isDigit y1 = true -> Js.isDigit y2 = true ->
  Js.isDigit m1 = true -> Js.isDigit m2 = true ->
  (1 <= 10 * Js.digitValue m1 + Js.digitValue m2 <= 12)%Z ->
  Js.lastDayBefore (Some (2000 + (10 * Js.digitValue y1 + Js.digitValue y2))%Z)
    (Some (10 * Js.digitValue m1 + Js.digitValue m2)%Z)
  = Some (Js.daysInMonth (2000 + (10 * Js.digitValue y1 + Js.digitValue y2))
            (10 * Js.digitValue m1 + Js.digitValue m2))
  /\ parseGS1Date (twoChars y1 y2 ++ twoChars m1 m2 ++ "00")
     = {| iso :=
            Js.toString (Some (2000 + (10 * Js.digitValue y1 + Js.digitValue y2))%Z)
            ++ "-"
            ++ Js.padStart0 2 (Js.toString (Some (10 * Js.digitValue m1 + Js.digitValue m2)%Z))
            ++ "-"
            ++ Js.padStart0 2
                 (Js.toString
                    (Some (Js.daysInMonth
                             (2000 + (10 * Js.digitValue y1 + Js.digitValue y2))
                             (10 * Js.digitValue m1 + Js.digitValue m2))));
          formatted :=
            Js.padStart0 2
              (Js.toString
                 (Some (Js.daysInMonth
                          (2000 + (10 * Js.digitValue y1 + Js.digitValue y2))
                          (10 * Js.digitValue m1 + Js.digitValue m2))))
            ++ "/"
            ++ Js.padStart0 2 (Js.toString (Some (10 * Js.digitValue m1 + Js.digitValue m2)%Z))
            ++ "/"
            ++ Js.toString (Some (2000 + (10 * Js.digitValue y1 + Js.digitValue y2))%Z) |}.
Proof.
  intros Hy1 Hy2 Hm1 Hm2 Hmm.
  pose proof (digitValue_nonneg y1); pose proof (digitValue_nonneg y2).
  assert (Hlast := lastDayBefore_month
                     (2000 + (10 * Js.digitValue y1 + Js.digitValue y2))
                     (10 * Js.digitValue m1 + Js.digitValue m2) ltac:(lia) Hmm).
  split; [exact Hlast|].
  unfold parseGS1Date.
  change (String.length (twoChars y1 y2 ++ twoChars m1 m2 ++ "00")) with 6.
  change (Js.substring (twoChars y1 y2 ++ twoChars m1 m2 ++ "00") 0 2) with (twoChars y1 y2).
  change (Js.substring (twoChars y1 y2 ++ twoChars m1 m2 ++ "00") 2 4) with (twoChars m1 m2).
  change (Js.substring (twoChars y1 y2 ++ twoChars m1 m2 ++ "00") 4 6) with "00".
  rewrite (parseInt10_two_digits y1 y2 Hy1 Hy2), (parseInt10_two_digits m1 m2 Hm1 Hm2).
  change (Js.parseInt10 "00") with (Some 0%Z).
  cbv beta iota zeta delta [Nat.eqb negb Js.strictEq Z.eqb Js.add].
  rewrite Hlast.
  pose proof (daysInMonth_range (2000 + (10 * Js.digitValue y1 + Js.digitValue y2))
                (10 * Js.digitValue m1 + Js.digitValue m2)) as Hd.
  unfold Js.gt, Js.lt.
  replace (_ <? 1)%Z with false by (symmetry; apply Z.ltb_ge; lia).
  replace (12 <? _)%Z with false by (symmetry; apply Z.ltb_ge; lia).
  replace (_ <? 1)%Z with false by (symmetry; apply Z.ltb_ge; lia).
  replace (31 <? _)%Z with false by (symmetry; apply Z.ltb_ge; lia).
  reflexivity.
Qed.

(** The theorem at [250200], whose day is the 28th of February 2025. *)
Lemma day_zero_is_last_day_of_month_witness :
  parseGS1Date "250200" = {| iso := "2025-02-28"; formatted := "28/02/2025" |}.
Proof.
  refine (proj2 (day_zero_is_last_day_of_month "2" "5" "0" "2"
                   eq_refl eq_refl eq_refl eq_refl _)).
  vm_compute; split; discriminate.
Defined.

(** C8.  With today fixed, the status of a dated scan is that of the
    difference in whole days: [expired] below 0, [soon] from 0 to 30, [ok]
    above 30; a larger difference never gives an earlier status in the order
    [expired], [soon], [ok], and neither does a later expiry. *)
Theorem expiry_status_is_monotone (host : DateHost) :
  (forall isoDate e,
      isoDate <> EmptyString -> isoMidnight host isoDate = Some e ->
      getExpiryStatus host isoDate = statusOfDiff (diffDays (todayMidnight host) e))
  /\ (forall d : Z,
        ((d < 0)%Z -> statusOfDiff d = expired)
        /\ ((0 <= d <= 30)%Z -> statusOfDiff d = soon)
        /\ ((30 < d)%Z -> statusOfDiff d = ok))
  /\ (forall d1 d2 : Z, (d1 <= d2)%Z -> notLater (statusOfDiff d1) (statusOfDiff d2))
  /\ (forall iso1 iso2 e1 e2,
        iso1 <> EmptyString -> iso2 <> EmptyString ->
        isoMidnight host iso1 = Some e1 -> isoMidnight host iso2 = Some e2 ->
        (e1 <= e2)%Z ->
        (diffDays (todayMidnight host) e1 <= diffDays (todayMidnight host) e2)%Z
        /\ notLater (getExpiryStatus host iso1) (getExpiryStatus host iso2)).
Proof.
  split; [|split; [|split]].
  - intros isoDate e; apply getExpiryStatus_diff.
  - intros d; unfold statusOfDiff.
    destruct (Z.ltb_spec d 0), (Z.leb_spec d 30); repeat split; intros; auto; lia.
  - apply statusOfDiff_monotone.
  - intros iso1 iso2 e1 e2 H1 H2 He1 He2 Hle.
    rewrite (getExpiryStatus_diff host iso1 e1 H1 He1),
            (getExpiryStatus_diff host iso2 e2 H2 He2).
    split; [apply diffDays_monotone; exact Hle|].
    apply statusOfDiff_monotone, diffDays_monotone; exact Hle.
Qed.

(** The theorem on 2025-06-01, at the expiries of the day before, of 29 days
    later and of 31 days later. *)
Lemma expiry_status_is_monotone_witness :
  getExpiryStatus exampleHost "2025-05-31" = expired
  /\ getExpiryStatus exampleHost "2025-06-30" = soon
  /\ getExpiryStatus exampleHost "2025-07-02" = ok
  /\ notLater (getExpiryStatus exampleHost "2025-05-31")
       (getExpiryStatus exampleHost "2025-06-30")
  /\ notLater (getExpiryStatus exampleHost "2025-06-30")
       (getExpiryStatus exampleHost "2025-07-02").
Proof.
  destruct (expiry_status_is_monotone exampleHost) as (_ & _ & _ & Hmono).
  split; [reflexivity|]; split; [reflexivity|]; split; [reflexivity|]; split.
  - refine (proj2 (Hmono "2025-05-31" "2025-06-30" _ _ _ _ eq_refl eq_refl _));
      try discriminate.
  - refine (proj2 (Hmono "2025-06-30" "2025-07-02" _ _ _ _ eq_refl eq_refl _));
      try discriminate.
Defined.

(* ====================================================================== *)
(** ** The decoder *)
(* ====================================================================== *)

Section Decoder.

Lemma get_In {V} (m : Js.map V) (k : string) (v : V) : Js.get m k = Some v -> In (k, v) m.
Proof.
  induction m as [|[k' v'] m IH]; simpl; [discriminate|].
  destruct (String.eqb_spec k' k) as [->|]; [intros [= ->]; auto | auto].
Qed.

(** The codes of the dictionary, one by one. *)
Ltac each_code H :=
  apply get_In in H; unfold aiTable in H; simpl in H;
  repeat (destruct H as [H | H]; [injection H as <- <- | ]); [.. | contradiction].

Lemma aiLengths_code (code : string) (aiLen : nat) :
  aiLengths code = Some aiLen ->
  2 <= String.length code /\ allDigits code = true.
Proof. intros H; each_code H; split; simpl; auto; lia. Qed.

Lemma findAi_drop (part : string) (i : nat) : findAi part i = findAiAt (Js.drop i part).
Proof.
  unfold findAi, findAiAt, Js.substring.
  rewrite length_drop.
  replace (i + 3 - i) with 3 by lia; replace (i + 2 - i) with 2 by lia.
  rewrite !(substring_drop i).
  replace (i + 3 <=? String.length part) with (3 <=? String.length part - i)
    by (destruct (Nat.leb_spec 3 (String.length part - i)); symmetry;
        [apply Nat.leb_le | apply Nat.leb_gt]; lia).
  replace (i + 2 <=? String.length part) with (2 <=? String.length part - i)
    by (destruct (Nat.leb_spec 2 (String.length part - i)); symmetry;
        [apply Nat.leb_le | apply Nat.leb_gt]; lia).
  reflexivity.
Qed.

(** A code of the dictionary at the start of the text is the AI found
    there: no code of two characters starts a code of three. *)
Lemma findAiAt_code (t code : string) (aiLen : nat) :
  aiLengths code = Some aiLen ->
  String.substring 0 (String.length code) t = code ->
  findAiAt t = Some (code, aiLen).
Proof.
  intros H Ht; apply substring_prefix_inv in Ht; rewrite Ht.
  generalize (Js.drop (String.length code) t); clear Ht; intros rest.
  each_code H; destruct rest as [|x rest];
    unfold findAiAt; simpl; rewrite ?substring_0_0; reflexivity.
Qed.

Lemma decodeStep_code (part : string) (i : nat) (result code : string) (aiLen : nat) :
  aiLengths code = Some aiLen ->
  Js.substring part i (i + String.length code) = code ->
  decodeStep part (i, result)
  = (valueEndOf part i code aiLen,
     result ++ "(" ++ code ++ ")"
     ++ Js.substring part (i + String.length code) (valueEndOf part i code aiLen)).
Proof.
  intros H Hc; unfold decodeStep.
  unfold Js.substring in Hc.
  replace (i + String.length code - i) with (String.length code) in Hc by lia.
  rewrite substring_drop in Hc.
  rewrite findAi_drop, (findAiAt_code _ _ _ H Hc).
  reflexivity.
Qed.

Lemma decodeLoop_turn (fuel : nat) (part : string) (i : nat) (result : string) :
  decodeLoop (S fuel) part (i, result)
  = if i <? String.length part then decodeLoop fuel part (decodeStep part (i, result))
    else result.
Proof. reflexivity. Qed.

Lemma findAi_inside (part : string) (i : nat) (ai : string) (aiLen : nat) :
  findAi part i = Some (ai, aiLen) ->
  2 <= String.length ai /\ i + String.length ai <= String.length part.
Proof.
  assert (Hsub : forall n, i + n <= String.length part ->
                           String.length (Js.substring part i (i + n)) = n).
  { intros n Hn; unfold Js.substring.
    rewrite substring_drop, length_substring, length_drop; lia. }
  unfold findAi.
  destruct (Nat.leb_spec (i + 3) (String.length part)) as [H3 | H3].
  - destruct (aiLengths (Js.substring part i (i + 3))) as [n3|]; simpl.
    + intros [= <- _]; rewrite (Hsub 3 H3); lia.
    + destruct (Nat.leb_spec (i + 2) (String.length part)) as [H2 | H2]; [|discriminate].
      destruct (aiLengths (Js.substring part i (i + 2))); [|discriminate].
      simpl; intros [= <- _]; rewrite (Hsub 2 H2); lia.
  - destruct (Nat.leb_spec (i + 2) (String.length part)) as [H2 | H2]; [|discriminate].
    destruct (aiLengths (Js.substring part i (i + 2))); [|discriminate].
    simpl; intros [= <- _]; rewrite (Hsub 2 H2); lia.
Qed.

(** Every turn of the loop moves the position forward and never past the
    end of the part. *)
Lemma decodeStep_advances (part : string) (i : nat) (result : string) :
  i < String.length part ->
  i < fst (decodeStep part (i, result)) <= String.length part.
Proof.
  intros Hi; unfold decodeStep.
  destruct (findAi part i) as [[ai aiLen]|] eqn:Hf; simpl; [|lia].
  apply findAi_inside in Hf as [H2 Hin].
  destruct (0 <? aiLen); lia.
Qed.

(** The loop ends by its own test: any fuel from the number of characters
    left gives the same result. *)
Lemma decodeLoop_enough (part : string) (fuel1 fuel2 : nat) (st : nat * string) :
  String.length part - fst st <= fuel1 ->
  String.length part - fst st <= fuel2 ->
  decodeLoop fuel1 part st = decodeLoop fuel2 part st.
Proof.
  revert fuel2 st; induction fuel1 as [|fuel1 IH]; intros fuel2 [i result] H1 H2;
    simpl fst in *.
  - destruct fuel2 as [|fuel2]; [reflexivity|].
    rewrite decodeLoop_turn.
    replace (i <? String.length part) with false by (symmetry; apply Nat.ltb_ge; lia).
    reflexivity.
  - rewrite decodeLoop_turn.
    destruct (Nat.ltb_spec i (String.length part)) as [Hi | Hi].
    + destruct fuel2 as [|fuel2]; [lia|].
      rewrite decodeLoop_turn.
      replace (i <? String.length part) with true by (symmetry; apply Nat.ltb_lt; lia).
      pose proof (decodeStep_advances part i result Hi).
      apply IH; lia.
    + destruct fuel2 as [|fuel2]; [reflexivity|].
      rewrite decodeLoop_turn.
      replace (i <? String.length part) with false by (symmetry; apply Nat.ltb_ge; lia).
      reflexivity.
Qed.

End Decoder.

(** C10.  The dictionary of the decoder has 19 codes; the 14 that the
    extractor has no pattern for are among them with their lengths; and any
    code of the dictionary at a scan position is recognised there: the turn
    of the loop appends the code in brackets and its value, of the length of
    the dictionary (clamped to the part, or up to the end of the part for
    length 0), and moves the position past the value. *)
Theorem decoder_knows_nineteen_codes :
  List.length aiTable = 19
  /\ List.map aiLengths
       [ "02"; "11"; "12"; "13"; "15"; "16"; "20"; "22"; "37";
         "240"; "241"; "242"; "250"; "251" ]
     = [ Some 14; Some 6; Some 6; Some 6; Some 6; Some 6; Some 2; Some 0; Some 0;
         Some 0; Some 0; Some 0; Some 0; Some 0 ]
  /\ (forall part i result code aiLen,
        aiLengths code = Some aiLen ->
        Js.substring part i (i + String.length code) = code ->
        decodeStep part (i, result)
        = (valueEndOf part i code aiLen,
           result ++ "(" ++ code ++ ")"
           ++ Js.substring part (i + String.length code) (valueEndOf part i code aiLen)))
  /\ convertRawToParenthesized "11250630" = "(11)250630".
Proof.
  split; [reflexivity|]; split; [reflexivity|]; split; [|reflexivity].
  intros part i result code aiLen; apply decodeStep_code.
Qed.

(** The theorem at the code 11 in front of [11250630], and at the code 240
    after three characters that start no code. *)
Lemma decoder_knows_nineteen_codes_witness :
  decodeStep "11250630" (0, "") = (8, "(11)250630")
  /\ decodeStep "xyz240AB" (3, "") = (8, "(240)AB").
Proof.
  destruct decoder_knows_nineteen_codes as (_ & _ & Hstep & _).
  split.
  - exact (Hstep "11250630" 0 "" "11" 6 eq_refl eq_refl).
  - exact (Hstep "xyz240AB" 3 "" "240" 0 eq_refl eq_refl).
Defined.

(* ====================================================================== *)
(** ** Decoding and extracting *)
(* ====================================================================== *)

Section RoundTrip.

Lemma bracketChar_not_space (c : ascii) : bracketChar c = true -> Js.isWhiteSpace c = false.
Proof.
  unfold bracketChar; intros H.
  apply orb_true_iff in H as [H | H]; [apply orb_true_iff in H as [H | H]|].
  - apply isDigit_not_space; exact H.
  - apply Ascii.eqb_eq in H as ->; reflexivity.
  - apply Ascii.eqb_eq in H as ->; reflexivity.
Qed.

Lemma bracketChar_not_GS (c : ascii) : bracketChar c = true -> Ascii.eqb c GS = false.
Proof.
  unfold bracketChar; intros H.
  apply orb_true_iff in H as [H | H]; [apply orb_true_iff in H as [H | H]|].
  - destruct (Ascii.eqb_spec c GS) as [-> |]; [discriminate H | reflexivity].
  - apply Ascii.eqb_eq in H as ->; reflexivity.
  - apply Ascii.eqb_eq in H as ->; reflexivity.
Qed.

Lemma isDigit_bracketChar (c : ascii) : Js.isDigit c = true -> bracketChar c = true.
Proof. unfold bracketChar; intros ->; reflexivity. Qed.

Lemma trim_bracketChars (s : string) : allChars bracketChar s = true -> Js.trim s = s.
Proof.
  intros H; unfold Js.trim.
  assert (Hs : Js.trimStart s = s).
  { destruct s as [|c s]; simpl in *; [reflexivity|].
    apply andb_true_iff in H as [Hc _]; rewrite (bracketChar_not_space c Hc); reflexivity. }
  rewrite Hs; clear Hs.
  induction s as [|c s IH]; simpl in *; [reflexivity|].
  apply andb_true_iff in H as [Hc Hs].
  rewrite (IH Hs), (bracketChar_not_space c Hc); destruct s; reflexivity.
Qed.

Lemma mapGS_bracketChars (s : string) :
  allChars bracketChar s = true ->
  Js.mapChars (fun c => if Ascii.eqb c GS then "|"%char else c) s = s.
Proof.
  induction s as [|c s IH]; simpl; [reflexivity|].
  intros H; apply andb_true_iff in H as [Hc Hs].
  rewrite (bracketChar_not_GS c Hc), (IH Hs); reflexivity.
Qed.

Lemma includes_bracket_digits (s : string) : allDigits s = true -> Js.includes s "(" = false.
Proof.
  unfold allDigits; induction s as [|c s IH]; intros H; [reflexivity|].
  apply andb_true_iff in H as [Hc Hs].
  rewrite includes_cons, (IH Hs), orb_false_r.
  apply prefix_char_ne; intros <-; discriminate Hc.
Qed.

Lemma split_digits (s : string) : allDigits s = true -> Js.split "|" s = [s].
Proof.
  unfold allDigits; induction s as [|c s IH]; simpl; [reflexivity|].
  intros H; apply andb_true_iff in H as [Hc Hs]; rewrite (IH Hs).
  destruct (Ascii.eqb_spec c "|") as [-> |]; [discriminate Hc | reflexivity].
Qed.

Lemma fixedToken_inv (t : token) :
  fixedToken t = true ->
  exists n, aiLengths (fst t) = Some n /\ 0 < n
            /\ String.length (snd t) = n /\ allDigits (snd t) = true.
Proof.
  unfold fixedToken; destruct (aiLengths (fst t)) as [n|]; [|discriminate].
  intros H; apply andb_true_iff in H as [H Hd]; apply andb_true_iff in H as [Hn Hl].
  apply Nat.ltb_lt in Hn; apply Nat.eqb_eq in Hl; eauto.
Qed.

Lemma allDigits_unbracketed (toks : list token) :
  forallb fixedToken toks = true -> allDigits (unbracketed toks) = true.
Proof.
  induction toks as [|t toks IH]; simpl; [reflexivity|].
  intros H; apply andb_true_iff in H as [Ht Hs].
  apply fixedToken_inv in Ht as (n & Hc & _ & _ & Hv).
  apply aiLengths_code in Hc as [_ Hc].
  unfold allDigits in *; rewrite !allChars_append, Hc, Hv, (IH Hs); reflexivity.
Qed.

Lemma bracketChars_bracketed (toks : list token) :
  forallb fixedToken toks = true -> allChars bracketChar (bracketed toks) = true.
Proof.
  induction toks as [|t toks IH]; intros H; [reflexivity|].
  change (forallb fixedToken (t :: toks)) with (fixedToken t && forallb fixedToken toks) in H.
  apply andb_true_iff in H as [Ht Hs].
  apply fixedToken_inv in Ht as (n & Hc & _ & _ & Hv).
  apply aiLengths_code in Hc as [_ Hc].
  change (bracketed (t :: toks)) with ("(" ++ fst t ++ ")" ++ snd t ++ bracketed toks).
  rewrite !allChars_append, (IH Hs),
          (allChars_weaken _ _ _ isDigit_bracketChar Hc),
          (allChars_weaken _ _ _ isDigit_bracketChar Hv); reflexivity.
Qed.

(** The loop, started where a list of tokens of fixed length begins, emits
    the tokens in brackets. *)
Lemma decodeLoop_tokens (toks : list token) :
  forallb fixedToken toks = true ->
  forall pre acc fuel,
    String.length (unbracketed toks) <= fuel ->
    decodeLoop fuel (pre ++ unbracketed toks) (String.length pre, acc)
    = acc ++ bracketed toks.
Proof.
  induction toks as [|[code v] toks IH]; intros Hall pre acc fuel Hfuel.
  - simpl; rewrite !append_empty_r.
    destruct fuel; simpl; [reflexivity | rewrite Nat.ltb_irrefl; reflexivity].
  - simpl in Hall; apply andb_true_iff in Hall as [Ht Hs].
    apply fixedToken_inv in Ht as (n & Hc & Hn & Hv & _); simpl in Hc, Hv.
    destruct (aiLengths_code _ _ Hc) as [Hlen _].
    change (unbracketed ((code, v) :: toks)) with (code ++ v ++ unbracketed toks) in *.
    change (bracketed ((code, v) :: toks))
      with ("(" ++ code ++ ")" ++ v ++ bracketed toks).
    rewrite !length_append in Hfuel.
    destruct fuel as [|fuel]; [lia|].
    assert (Hpart : String.length (pre ++ code ++ v ++ unbracketed toks)
                    = String.length pre + String.length code + n
                      + String.length (unbracketed toks))
      by (rewrite !length_append; lia).
    rewrite decodeLoop_turn.
    replace (String.length pre <? String.length (pre ++ code ++ v ++ unbracketed toks))
      with true by (symmetry; apply Nat.ltb_lt; lia).
    assert (Hcode : Js.substring (pre ++ code ++ v ++ unbracketed toks)
                      (String.length pre) (String.length pre + String.length code) = code).
    { unfold Js.substring.
      replace (String.length pre + String.length code - String.length pre)
        with (String.length code) by lia.
      rewrite substring_drop, drop_append; apply substring_prefix. }
    rewrite (decodeStep_code _ _ acc _ _ Hc Hcode).
    assert (Hend : valueEndOf (pre ++ code ++ v ++ unbracketed toks)
                     (String.length pre) code n
                   = String.length (pre ++ code ++ v)).
    { unfold valueEndOf.
      replace (0 <? n) with true by (symmetry; apply Nat.ltb_lt; lia).
      rewrite Hpart, !length_append; lia. }
    rewrite Hend.
    assert (Hvalue : Js.substring (pre ++ code ++ v ++ unbracketed toks)
                       (String.length pre + String.length code)
                       (String.length (pre ++ code ++ v)) = v).
    { unfold Js.substring.
      replace (String.length (pre ++ code ++ v) - (String.length pre + String.length code))
        with (String.length v) by (rewrite !length_append; lia).
      rewrite substring_drop, <- length_append, <- append_assoc, drop_append.
      apply substring_prefix. }
    rewrite Hvalue.
    replace (pre ++ code ++ v ++ unbracketed toks)
      with ((pre ++ code ++ v) ++ unbracketed toks)
      by (rewrite !append_assoc; reflexivity).
    rewrite (IH Hs) by lia.
    rewrite !append_assoc; reflexivity.
Qed.

Lemma convert_unbracketed (toks : list token) :
  forallb fixedToken toks = true ->
  convertRawToParenthesized (unbracketed toks) = bracketed toks.
Proof.
  intros Hall; unfold convertRawToParenthesized.
  rewrite (split_digits _ (allDigits_unbracketed _ Hall)); simpl fold_left.
  unfold decodePart.
  pose proof (decodeLoop_tokens toks Hall "" "" _ (le_n _)) as Hloop.
  change ("" ++ unbracketed toks) with (unbracketed toks) in Hloop.
  change (String.length "") with 0 in Hloop.
  rewrite Hloop.
  destruct toks as [|[code v] toks]; reflexivity.
Qed.

Lemma cleanInput_unbracketed (toks : list token) :
  forallb fixedToken toks = true -> cleanInput (unbracketed toks) = bracketed toks.
Proof.
  intros Hall; unfold cleanInput.
  pose proof (allDigits_unbracketed _ Hall) as Hd.
  pose proof (allChars_weaken _ _ _ isDigit_bracketChar Hd) as Hb.
  rewrite (trim_bracketChars _ Hb), (mapGS_bracketChars _ Hb),
          (includes_bracket_digits _ Hd).
  apply convert_unbracketed; exact Hall.
Qed.

Lemma cleanInput_bracketed (toks : list token) :
  forallb fixedToken toks = true -> cleanInput (bracketed toks) = bracketed toks.
Proof.
  intros Hall; unfold cleanInput.
  pose proof (bracketChars_bracketed _ Hall) as Hb.
  rewrite (trim_bracketChars _ Hb), (mapGS_bracketChars _ Hb).
  destruct toks as [|[code v] toks]; [reflexivity|].
  simpl; rewrite prefix_empty; reflexivity.
Qed.

End RoundTrip.

(** C7.  For a payload that is a concatenation of AIs of fixed length of the
    dictionary, each with a numeric value of its length, the decoder returns
    the payload with every code in brackets, and [parseGs1] gives the payload
    and its bracketed form the same validity and the same field values. *)
Theorem decode_then_extract_round_trip (host : DateHost) (toks : list token) :
  forallb fixedToken toks = true ->
  convertRawToParenthesized (unbracketed toks) = bracketed toks
  /\ sameFields (parseGs1 host (Js.Str (unbracketed toks)))
       (parseGs1 host (Js.Str (bracketed toks))).
Proof.
  intros Hall; split; [apply convert_unbracketed; exact Hall|].
  pose proof (cleanInput_unbracketed _ Hall) as Hu.
  pose proof (cleanInput_bracketed _ Hall) as Hb.
  destruct toks as [|[code v] toks]; [reflexivity|].
  assert (Hcode : 2 <= String.length code).
  { simpl in Hall; apply andb_true_iff in Hall as [Ht _].
    apply fixedToken_inv in Ht as (n & Hc & _); apply (aiLengths_code _ _ Hc). }
  change (unbracketed ((code, v) :: toks)) with (code ++ v ++ unbracketed toks) in *.
  destruct code as [|a code]; [simpl in Hcode; lia|].
  match goal with
  | |- context [bracketed ?l] =>
      assert (Hopen : exists rest, bracketed l = String "(" rest) by (simpl; eauto)
  end.
  destruct Hopen as (rest & Hrest).
  rewrite Hrest in Hu, Hb |- *.
  simpl append in Hu |- *.
  unfold parseGs1; rewrite Hu, Hb.
  destruct (gtinFields (String "(" rest)) as [g14 g13].
  destruct (expiryFields host (String "(" rest)) as [[e ef] es].
  simpl; repeat split.
Qed.

(** The theorem at a GTIN, an expiry, a production date and a variant. *)
Lemma decode_then_extract_round_trip_witness :
  convertRawToParenthesized "010629700000123417250630112401012007"
  = "(01)06297000001234(17)250630(11)240101(20)07"
  /\ sameFields
       (parseGs1 exampleHost (Js.Str "010629700000123417250630112401012007"))
       (parseGs1 exampleHost (Js.Str "(01)06297000001234(17)250630(11)240101(20)07")).
Proof.
  exact (decode_then_extract_round_trip exampleHost
           [ ("01", "06297000001234"); ("17", "250630"); ("11", "240101"); ("20", "07") ]
           eq_refl).
Defined.

(* ====================================================================== *)
(** ** Invariants of the scans *)
(* ====================================================================== *)

Section Trimming.

Lemma trimStart_idempotent (s : string) : Js.trimStart (Js.trimStart s) = Js.trimStart s.
Proof.
  induction s as [|c s IH]; simpl; [reflexivity|].
  destruct (Js.isWhiteSpace c) eqn:Hc; [exact IH | simpl; rewrite Hc; reflexivity].
Qed.

Lemma trimEnd_idempotent (s : string) : Js.trimEnd (Js.trimEnd s) = Js.trimEnd s.
Proof.
  induction s as [|c s IH]; simpl; [reflexivity|].
  destruct (Js.trimEnd s) as [|c' t] eqn:Ht.
  - destruct (Js.isWhiteSpace c) eqn:Hc; simpl; [reflexivity | rewrite Hc; reflexivity].
  - change (Js.trimEnd (String c (String c' t)))
      with (match Js.trimEnd (String c' t) with
            | EmptyString =>
                if Js.isWhiteSpace c then EmptyString else String c EmptyString
            | u => String c u
            end).
    rewrite IH; reflexivity.
Qed.

(** [trimEnd] keeps a first character that is not white space. *)
Lemma trimStart_trimEnd (s : string) :
  Js.trimStart s = s -> Js.trimStart (Js.trimEnd s) = Js.trimEnd s.
Proof.
  destruct s as [|c s]; [reflexivity|]; simpl.
  destruct (Js.isWhiteSpace c) eqn:Hc.
  - intros H; apply (f_equal String.length) in H; simpl in H.
    assert (Hle : forall t, String.length (Js.trimStart t) <= String.length t).
    { induction t as [|a t IHt]; simpl; [lia|].
      destruct (Js.isWhiteSpace a); simpl; lia. }
    specialize (Hle s); lia.
  - intros _; destruct (Js.trimEnd s); simpl; rewrite Hc; reflexivity.
Qed.

Lemma trim_idempotent (s : string) : Js.trim (Js.trim s) = Js.trim s.
Proof.
  unfold Js.trim.
  rewrite (trimStart_trimEnd _ (trimStart_idempotent s)).
  apply trimEnd_idempotent.
Qed.

Lemma allChars_trimStart (p : ascii -> bool) (s : string) :
  allChars p s = true -> allChars p (Js.trimStart s) = true.
Proof.
  induction s as [|c s IH]; simpl; [reflexivity|].
  intros H; destruct (Js.isWhiteSpace c); [|exact H].
  apply andb_true_iff in H as [_ H]; auto.
Qed.

Lemma allChars_trimEnd (p : ascii -> bool) (s : string) :
  allChars p s = true -> allChars p (Js.trimEnd s) = true.
Proof.
  induction s as [|c s IH]; simpl; [reflexivity|].
  intros H; apply andb_true_iff in H as [Hc Hs]; specialize (IH Hs).
  destruct (Js.trimEnd s) as [|c' t].
  - destruct (Js.isWhiteSpace c); simpl; [reflexivity | rewrite Hc; reflexivity].
  - change (allChars p (String c (String c' t))) with (p c && allChars p (String c' t)).
    rewrite Hc, IH; reflexivity.
Qed.

Lemma allChars_trim (p : ascii -> bool) (s : string) :
  allChars p s = true -> allChars p (Js.trim s) = true.
Proof. intros H; apply allChars_trimEnd, allChars_trimStart, H. Qed.

Lemma append_not_empty (a : string) (c : ascii) (b : string) : a ++ String c b <> "".
Proof. destruct a; discriminate. Qed.

End Trimming.

Section ScanFields.

Variable host : DateHost.

(** The remaining fields of the object that [parseGs1] builds. *)
Lemma parseGs1_values (c : ascii) (s : string) :
  exists r,
    parseGs1 host (Js.Str (String c s)) = Scanned r
    /\ Scan.batch r
       = match Regex.regexMatch Regex.batchAt (cleanInput (String c s)) with
         | Some b => Js.trim b
         | None => EmptyString
         end
    /\ Scan.serial r
       = match Regex.regexMatch Regex.serialAt (cleanInput (String c s)) with
         | Some b => Js.trim b
         | None => EmptyString
         end
    /\ Scan.qty r
       = match Regex.regexMatch Regex.qtyAt (cleanInput (String c s)) with
         | Some q => q
         | None => "1"
         end
    /\ Scan.productName r = EmptyString.
Proof.
  unfold parseGs1.
  destruct (gtinFields (cleanInput (String c s))) as [g14 g13].
  destruct (expiryFields host (cleanInput (String c s))) as [[e ef] es].
  eexists; split; [reflexivity|]; simpl; auto.
Qed.

Lemma scanned_is_string (raw : Js.value) (r : Scan.t) :
  parseGs1 host raw = Scanned r -> exists c s, raw = Js.Str (String c s).
Proof.
  destruct raw as [| | | |[|c s]|]; try discriminate; eauto.
Qed.

Lemma parseGS1Date_both (d : string) :
  (iso (parseGS1Date d) = "" /\ formatted (parseGS1Date d) = "")
  \/ (iso (parseGS1Date d) <> "" /\ formatted (parseGS1Date d) <> "").
Proof.
  unfold parseGS1Date.
  destruct (negb _); [left; split; reflexivity|].
  destruct (_ || _); [left; split; reflexivity|].
  right; simpl; split; apply append_not_empty.
Qed.

Lemma lazyRest_chars (s v : string) :
  Regex.lazyRest s = Some v -> allChars Regex.isValueChar v = true.
Proof.
  assert (Heq : forall c t,
             Regex.lazyRest (String c t)
             = if Regex.lookahead (String c t) then Some EmptyString
               else if Regex.isValueChar c then option_map (String c) (Regex.lazyRest t)
                    else None) by reflexivity.
  revert v; induction s as [|c s IH]; intros v.
  - intros [= <-]; reflexivity.
  - rewrite Heq.
    destruct (Regex.lookahead (String c s)); [intros [= <-]; reflexivity|].
    destruct (Regex.isValueChar c) eqn:Hc; [|discriminate].
    destruct (Regex.lazyRest s) as [v'|]; [|discriminate].
    intros [= <-]; change (Regex.isValueChar c && allChars Regex.isValueChar v' = true).
    rewrite Hc; apply IH; reflexivity.
Qed.

Lemma lazyValue_chars (s v : string) :
  Regex.lazyValue s = Some v -> v <> "" /\ allChars Regex.isValueChar v = true.
Proof.
  unfold Regex.lazyValue; destruct s as [|c s]; [discriminate|].
  destruct (Regex.isValueChar c) eqn:Hc; [|discriminate].
  destruct (Regex.lazyRest s) as [v'|] eqn:Hr; [|discriminate].
  intros [= <-]; split; [discriminate|].
  change (Regex.isValueChar c && allChars Regex.isValueChar v' = true).
  rewrite Hc; apply (lazyRest_chars _ _ Hr).
Qed.

Lemma digitRun_digits (s : string) : allDigits (Regex.digitRun s) = true.
Proof.
  unfold allDigits; induction s as [|c s IH]; simpl; [reflexivity|].
  destruct (Js.isDigit c) eqn:Hc; simpl; [rewrite Hc; exact IH | reflexivity].
Qed.

End ScanFields.

(** X1.  In every object that [parseGs1] builds, the two expiry texts are
    empty together, and the status is [missing] exactly when they are. *)
Theorem expiry_fields_agree (host : DateHost) (raw : Js.value) (r : Scan.t) :
  parseGs1 host raw = Scanned r ->
  (Scan.expiry r = "" <-> Scan.expiryFormatted r = "")
  /\ (Scan.expiryStatus r = missing <-> Scan.expiry r = "").
Proof.
  intros Hp; destruct (scanned_is_string host raw r Hp) as (c & s & ->).
  destruct (parseGs1_string host c s) as (r' & Hr & _ & _ & He & _).
  rewrite Hp in Hr; injection Hr as <-.
  unfold expiryFields in He.
  destruct (Regex.regexMatch Regex.expiryAt (cleanInput (String c s))) as [d|].
  - injection He as H1 H2 H3; rewrite H1, H2, H3.
    destruct (parseGS1Date_both d) as [[Hi Hf] | [Hi Hf]].
    + rewrite Hi, Hf; repeat split; auto.
    + repeat split; try contradiction.
      intros Hm; exfalso; exact (getExpiryStatus_dated host _ Hi Hm).
  - injection He as H1 H2 H3; rewrite H1, H2, H3; repeat split; auto.
Qed.

(** The theorem at a scan with an expiry and at a scan without one. *)
Lemma expiry_fields_agree_witness :
  (exists r,
      parseGs1 exampleHost (Js.Str "(01)06297000001234(17)250630") = Scanned r
      /\ Scan.expiry r = "2025-06-30"
      /\ (Scan.expiryStatus r = missing <-> Scan.expiry r = ""))
  /\ (exists r,
        parseGs1 exampleHost (Js.Str "(01)06297000001234(10)A") = Scanned r
        /\ Scan.expiry r = ""
        /\ (Scan.expiryStatus r = missing <-> Scan.expiry r = "")).
Proof.
  split; eexists; (split; [reflexivity|]); (split; [reflexivity|]).
  - exact (proj2 (expiry_fields_agree exampleHost
                    (Js.Str "(01)06297000001234(17)250630") _ eq_refl)).
  - exact (proj2 (expiry_fields_agree exampleHost
                    (Js.Str "(01)06297000001234(10)A") _ eq_refl)).
Defined.

(** X2.  The quantity of a scan is never empty and is made of digits: the
    digits after [(30)], or the default 1. *)
Theorem quantity_is_a_number (host : DateHost) (raw : Js.value) (r : Scan.t) :
  parseGs1 host raw = Scanned r ->
  Scan.qty r <> "" /\ allDigits (Scan.qty r) = true.
Proof.
  intros Hp; destruct (scanned_is_string host raw r Hp) as (c & s & ->).
  destruct (parseGs1_values host c s) as (r' & Hr & _ & _ & Hq & _).
  rewrite Hp in Hr; injection Hr as <-; rewrite Hq.
  destruct (Regex.regexMatch Regex.qtyAt (cleanInput (String c s))) as [q|] eqn:Hm;
    [|split; [discriminate | reflexivity]].
  apply regexMatch_inv in Hm as (pre & t & _ & Ht & _).
  unfold Regex.qtyAt in Ht.
  destruct (Regex.literal "(30)" t) as [rest|]; [|discriminate].
  pose proof (digitRun_digits rest) as Hd.
  destruct (Regex.digitRun rest) as [|a u]; [discriminate|].
  injection Ht as <-; split; [discriminate | exact Hd].
Qed.

(** The theorem at a scan with the quantity 100. *)
Lemma quantity_is_a_number_witness :
  exists r,
    parseGs1 exampleHost (Js.Str "(01)06297000003456(17)241231(10)LOT001(30)100") = Scanned r
    /\ Scan.qty r = "100"
    /\ Scan.qty r <> "" /\ allDigits (Scan.qty r) = true.
Proof.
  eexists; split; [reflexivity|]; split; [reflexivity|].
  exact (quantity_is_a_number exampleHost
           (Js.Str "(01)06297000003456(17)241231(10)LOT001(30)100") _ eq_refl).
Defined.

(** X3.  The batch and the serial of a scan are trimmed, and they hold only
    letters, digits, [-], [/], [.] and white space: never a bracket. *)
Theorem batch_and_serial_are_clean (host : DateHost) (raw : Js.value) (r : Scan.t) :
  parseGs1 host raw = Scanned r ->
  (Js.trim (Scan.batch r) = Scan.batch r
   /\ allChars Regex.isValueChar (Scan.batch r) = true)
  /\ (Js.trim (Scan.serial r) = Scan.serial r
      /\ allChars Regex.isValueChar (Scan.serial r) = true).
Proof.
  intros Hp; destruct (scanned_is_string host raw r Hp) as (c & s & ->).
  destruct (parseGs1_values host c s) as (r' & Hr & Hb & Hs & _).
  rewrite Hp in Hr; injection Hr as <-; rewrite Hb, Hs.
  assert (Hclean : forall pat ai,
             (forall t v, pat t = Some v ->
                          exists u, Regex.literal ai t = Some u /\ Regex.lazyValue u = Some v) ->
             forall text,
               let v := match Regex.regexMatch pat text with
                        | Some b => Js.trim b
                        | None => EmptyString
                        end in
               Js.trim v = v /\ allChars Regex.isValueChar v = true).
  { intros pat ai Hpat text.
    destruct (Regex.regexMatch pat text) as [b|] eqn:Hm; simpl; [|split; reflexivity].
    apply regexMatch_inv in Hm as (pre & t & _ & Ht & _).
    destruct (Hpat _ _ Ht) as (u & _ & Hv).
    apply lazyValue_chars in Hv as [_ Hv].
    split; [apply trim_idempotent | apply allChars_trim; exact Hv]. }
  split.
  - apply (Hclean Regex.batchAt "(10)").
    intros t v; unfold Regex.batchAt.
    destruct (Regex.literal "(10)" t) as [u|]; [eauto | discriminate].
  - apply (Hclean Regex.serialAt "(21)").
    intros t v; unfold Regex.serialAt.
    destruct (Regex.literal "(21)" t) as [u|]; [eauto | discriminate].
Qed.

(** The theorem at a scan whose batch is followed by a space. *)
Lemma batch_and_serial_are_clean_witness :
  exists r,
    parseGs1 exampleHost (Js.Str "(01)06297000001234(10)AB 12 (21)SN/7") = Scanned r
    /\ Scan.batch r = "AB 12" /\ Scan.serial r = "SN/7"
    /\ Js.trim (Scan.batch r) = Scan.batch r.
Proof.
  eexists; split; [reflexivity|]; split; [reflexivity|]; split; [reflexivity|].
  exact (proj1 (proj1 (batch_and_serial_are_clean exampleHost
                         (Js.Str "(01)06297000001234(10)AB 12 (21)SN/7") _ eq_refl))).
Defined.

Section GtinDigits.

Lemma allChars_drop (p : ascii -> bool) (n : nat) (s : string) :
  allChars p s = true -> allChars p (Js.drop n s) = true.
Proof.
  revert s; induction n as [|n IH]; intros [|c s] H; simpl; auto.
  apply IH; simpl in H; apply andb_true_iff in H; tauto.
Qed.

Lemma allDigits_zeros (n : nat) : allDigits (Js.zeros n) = true.
Proof. induction n; simpl; auto. Qed.

Lemma allDigits_padStart0 (n : nat) (s : string) :
  allDigits s = true -> allDigits (Js.padStart0 n s) = true.
Proof.
  intros H; unfold Js.padStart0, allDigits.
  rewrite allChars_append; fold allDigits; rewrite allDigits_zeros, H; reflexivity.
Qed.

Lemma gtinFields_digits (text g14 g13 : string) :
  gtinFields text = (g14, g13) ->
  allDigits g14 = true /\ allDigits g13 = true
  /\ (g14 = "" \/ String.length g13 = 13 \/ String.length g13 = 14).
Proof.
  unfold gtinFields.
  destruct (Regex.regexMatch Regex.gtin14At text) as [g|] eqn:H14.
  - intros [= <- <-].
    apply regexMatch_inv in H14 as (pre & s & _ & Hs & _).
    apply gtin14At_inv in Hs as (rest & _ & Hlen & Hd).
    split; [exact Hd|].
    destruct (Js.startsWith g "0").
    + split; [exact (allChars_drop Js.isDigit 1 g Hd)|].
      right; left.
      exact (eq_trans (length_drop 1 g) (f_equal (fun n => n - 1) Hlen)).
    + split; [exact Hd | right; right; exact Hlen].
  - destruct (Regex.regexMatch Regex.gtinShortAt text) as [g|] eqn:H13.
    + intros [= <- <-].
      apply regexMatch_inv in H13 as (pre & s & _ & Hs & _).
      apply gtinShortAt_inv in Hs as (rest & _ & Hlen & Hd).
      split; [apply allDigits_padStart0, allDigits_padStart0, Hd|].
      split; [apply allDigits_padStart0, Hd|].
      right; left; apply length_padStart0; lia.
    + intros [= <- <-]; auto.
Qed.

End GtinDigits.

(** X4.  The two GTINs of a scan are made of digits only.  In a valid scan
    [gtin13] has 13 digits, or 14 when [gtin14] does not start with a zero;
    in an invalid scan both GTINs are empty.  The product name is always
    empty: only the matcher gives one. *)
Theorem gtins_are_digits (host : DateHost) (raw : Js.value) (r : Scan.t) :
  parseGs1 host raw = Scanned r ->
  allDigits (Scan.gtin14 r) = true /\ allDigits (Scan.gtin13 r) = true
  /\ (Scan.valid r = true ->
      String.length (Scan.gtin13 r) = 13 \/ String.length (Scan.gtin13 r) = 14)
  /\ (Scan.valid r = false -> Scan.gtin14 r = "" /\ Scan.gtin13 r = "")
  /\ Scan.productName r = "".
Proof.
  intros Hp; destruct (scanned_is_string host raw r Hp) as (c & s & ->).
  destruct (parseGs1_string host c s) as (r' & Hr & _ & Hg & _ & Hv & _).
  rewrite Hp in Hr; injection Hr as <-.
  destruct (parseGs1_values host c s) as (r' & Hr & _ & _ & _ & Hn).
  rewrite Hp in Hr; injection Hr as <-.
  symmetry in Hg.
  destruct (gtinFields_digits _ _ _ Hg) as (H14 & H13 & Hlen).
  split; [exact H14|]; split; [exact H13|]; split; [|split; [|exact Hn]].
  - intros Hvalid; destruct Hlen as [He | Hlen]; [|exact Hlen].
    apply gtinFields_shape in Hg as [[_ He13] | [Hl _]].
    + rewrite Hv, He, He13 in Hvalid; discriminate.
    + rewrite He in Hl; discriminate.
  - intros Hinvalid; rewrite Hv in Hinvalid.
    apply negb_false_iff, andb_true_iff in Hinvalid as [Ha Hb].
    apply String.eqb_eq in Ha; apply String.eqb_eq in Hb; auto.
Qed.

(** The theorem at a scan of 13 digits after [(01)] and at a text without
    GTIN. *)
Lemma gtins_are_digits_witness :
  (exists r,
      parseGs1 exampleHost (Js.Str "(01)6297000001234") = Scanned r
      /\ Scan.gtin14 r = "06297000001234"
      /\ allDigits (Scan.gtin14 r) = true)
  /\ (exists r,
        parseGs1 exampleHost (Js.Str "(17)250630") = Scanned r
        /\ Scan.valid r = false
        /\ allDigits (Scan.gtin14 r) = true).
Proof.
  split; eexists; (split; [reflexivity|]); (split; [reflexivity|]).
  - exact (proj1 (gtins_are_digits exampleHost (Js.Str "(01)6297000001234") _ eq_refl)).
  - exact (proj1 (gtins_are_digits exampleHost (Js.Str "(17)250630") _ eq_refl)).
Defined.

(* ====================================================================== *)
(** ** Dates of six digits *)
(* ====================================================================== *)

Section SixDigits.

Local Open Scope Z_scope.

Lemma isDigit_cases (c : ascii) :
  Js.isDigit c = true ->
  In c [ "0"; "1"; "2"; "3"; "4"; "5"; "6"; "7"; "8"; "9" ]%char.
Proof.
  destruct c as [[] [] [] [] [] [] [] []]; intros H; try discriminate H;
    simpl; auto 12.
Qed.

Ltac each_digit H :=
  apply isDigit_cases in H; simpl in H;
  repeat (destruct H as [H | H]; [subst | ]); [.. | contradiction].

(** The text of a number of two digits, padded to two characters, is the
    two digits. *)
Lemma pad_two_digits (a b : ascii) :
  Js.isDigit a = true -> Js.isDigit b = true ->
  Js.padStart0 2 (Js.toString (Some (10 * Js.digitValue a + Js.digitValue b)))
  = twoChars a b.
Proof. intros Ha Hb; each_digit Ha; each_digit Hb; reflexivity. Qed.

Lemma year_two_digits (a b : ascii) :
  Js.isDigit a = true -> Js.isDigit b = true ->
  Js.toString (Some (2000 + (10 * Js.digitValue a + Js.digitValue b)))
  = ("20" ++ twoChars a b)%string.
Proof. intros Ha Hb; each_digit Ha; each_digit Hb; reflexivity. Qed.

Lemma two_digits_range (a b : ascii) :
  Js.isDigit a = true -> Js.isDigit b = true ->
  0 <= 10 * Js.digitValue a + Js.digitValue b <= 99.
Proof. intros Ha Hb; each_digit Ha; each_digit Hb; vm_compute; split; discriminate. Qed.

(** [parseGS1Date] on six digits, with the numbers it reads. *)
Lemma parseGS1Date_six_digits (y1 y2 m1 m2 d1 d2 : ascii) :
  Js.isDigit y1 = true -> Js.isDigit y2 = true ->
  Js.isDigit m1 = true -> Js.isDigit m2 = true ->
  Js.isDigit d1 = true -> Js.isDigit d2 = true ->
  let yy := 10 * Js.digitValue y1 + Js.digitValue y2 in
  let mm := 10 * Js.digitValue m1 + Js.digitValue m2 in
  let dd := 10 * Js.digitValue d1 + Js.digitValue d2 in
  let dd' := if dd =? 0 then Js.lastDayBefore (Some (2000 + yy)) (Some mm) else Some dd in
  parseGS1Date (twoChars y1 y2 ++ twoChars m1 m2 ++ twoChars d1 d2)
  = if (mm <? 1) || (12 <? mm) || Js.lt dd' (Some 1) || Js.gt dd' (Some 31)
    then noDate
    else {| iso := Js.toString (Some (2000 + yy)) ++ "-"
                   ++ Js.padStart0 2 (Js.toString (Some mm)) ++ "-"
                   ++ Js.padStart0 2 (Js.toString dd');
            formatted := Js.padStart0 2 (Js.toString dd') ++ "/"
                         ++ Js.padStart0 2 (Js.toString (Some mm)) ++ "/"
                         ++ Js.toString (Some (2000 + yy)) |}.
Proof.
  intros Hy1 Hy2 Hm1 Hm2 Hd1 Hd2 yy mm dd dd'.
  unfold parseGS1Date.
  change (String.length (twoChars y1 y2 ++ twoChars m1 m2 ++ twoChars d1 d2)) with 6%nat.
  change (Js.substring (twoChars y1 y2 ++ twoChars m1 m2 ++ twoChars d1 d2) 0 2)
    with (twoChars y1 y2).
  change (Js.substring (twoChars y1 y2 ++ twoChars m1 m2 ++ twoChars d1 d2) 2 4)
    with (twoChars m1 m2).
  change (Js.substring (twoChars y1 y2 ++ twoChars m1 m2 ++ twoChars d1 d2) 4 6)
    with (twoChars d1 d2).
  rewrite (parseInt10_two_digits y1 y2 Hy1 Hy2), (parseInt10_two_digits m1 m2 Hm1 Hm2),
          (parseInt10_two_digits d1 d2 Hd1 Hd2).
  reflexivity.
Qed.

End SixDigits.

(** X5.  On a date of six digits [parseGS1Date] fails exactly when the month
    is not in 1..12 or the day is above 31; for a month in 1..12 and a day
    in 1..31 the ISO date is [20YY-MM-DD] and the display date is
    [DD/MM/20YY], with the digits of the input as they are. *)
Theorem six_digit_date_is_rearranged (y1 y2 m1 m2 d1 d2 : ascii) :
  Js.isDigit y1 = true -> Js.isDigit y2 = true ->
  Js.isDigit m1 = true -> Js.isDigit m2 = true ->
  Js.isDigit d1 = true -> Js.isDigit d2 = true ->
  ((1 <= 10 * Js.digitValue m1 + Js.digitValue m2 <= 12)%Z ->
   (1 <= 10 * Js.digitValue d1 + Js.digitValue d2 <= 31)%Z ->
   parseGS1Date (twoChars y1 y2 ++ twoChars m1 m2 ++ twoChars d1 d2)
   = {| iso := "20" ++ twoChars y1 y2 ++ "-" ++ twoChars m1 m2 ++ "-" ++ twoChars d1 d2;
        formatted := twoChars d1 d2 ++ "/" ++ twoChars m1 m2 ++ "/20" ++ twoChars y1 y2 |})
  /\ (parseGS1Date (twoChars y1 y2 ++ twoChars m1 m2 ++ twoChars d1 d2) = noDate
      <-> (10 * Js.digitValue m1 + Js.digitValue m2 < 1)%Z
          \/ (12 < 10 * Js.digitValue m1 + Js.digitValue m2)%Z
          \/ (31 < 10 * Js.digitValue d1 + Js.digitValue d2)%Z).
Proof.
  intros Hy1 Hy2 Hm1 Hm2 Hd1 Hd2.
  rewrite (parseGS1Date_six_digits y1 y2 m1 m2 d1 d2 Hy1 Hy2 Hm1 Hm2 Hd1 Hd2).
  pose proof (two_digits_range y1 y2 Hy1 Hy2) as Hyy.
  pose proof (two_digits_range d1 d2 Hd1 Hd2) as Hdd.
  set (yy := (10 * Js.digitValue y1 + Js.digitValue y2)%Z) in *.
  set (mm := (10 * Js.digitValue m1 + Js.digitValue m2)%Z) in *.
  set (dd := (10 * Js.digitValue d1 + Js.digitValue d2)%Z) in *.
  cbv zeta.
  split.
  - intros Hmm Hday.
    replace (dd =? 0)%Z with false by (symmetry; apply Z.eqb_neq; lia).
    unfold Js.lt, Js.gt, Js.lt.
    replace (mm <? 1)%Z with false by (symmetry; apply Z.ltb_ge; lia).
    replace (12 <? mm)%Z with false by (symmetry; apply Z.ltb_ge; lia).
    replace (dd <? 1)%Z with false by (symmetry; apply Z.ltb_ge; lia).
    replace (31 <? dd)%Z with false by (symmetry; apply Z.ltb_ge; lia).
    cbv beta iota delta [orb].
    unfold yy, mm, dd.
    rewrite (year_two_digits y1 y2 Hy1 Hy2), (pad_two_digits m1 m2 Hm1 Hm2),
            (pad_two_digits d1 d2 Hd1 Hd2).
    reflexivity.
  - destruct (Z.ltb_spec mm 1) as [Hlo | Hlo]; [split; auto|].
    destruct (Z.ltb_spec 12 mm) as [Hhi | Hhi]; [split; auto|].
    cbv beta iota delta [orb].
    assert (Hday : exists day,
               (if (dd =? 0)%Z then Js.lastDayBefore (Some (2000 + yy)%Z) (Some mm)
                else Some dd) = Some day
               /\ (1 <= day)%Z /\ ((31 < day)%Z <-> (31 < dd)%Z)).
    { destruct (Z.eqb_spec dd 0) as [H0 | H0].
      - rewrite lastDayBefore_month by lia.
        pose proof (daysInMonth_range (2000 + yy) mm).
        eexists; split; [reflexivity|]; split; [lia|]; split; lia.
      - exists dd; split; [reflexivity|]; split; [lia|]; split; lia. }
    destruct Hday as (day & -> & Hlow & Hiff).
    unfold Js.gt, Js.lt.
    replace (day <? 1)%Z with false by (symmetry; apply Z.ltb_ge; lia).
    cbv beta iota delta [orb].
    destruct (Z.ltb_spec 31 day) as [H31 | H31].
    + split; [intros _; right; right; apply Hiff; exact H31 | reflexivity].
    + split.
      * intros H; apply (f_equal iso) in H; simpl in H.
        exfalso; exact (append_not_empty _ _ _ H).
      * intros [H | [H | H]]; lia.
Qed.

(** The theorem at [250630]. *)
Lemma six_digit_date_is_rearranged_witness :
  parseGS1Date "250630" = {| iso := "2025-06-30"; formatted := "30/06/2025" |}.
Proof.
  refine (proj1 (six_digit_date_is_rearranged "2" "5" "0" "6" "3" "0"
                   eq_refl eq_refl eq_refl eq_refl eq_refl eq_refl) _ _);
    vm_compute; split; discriminate.
Defined.

Section WholeDays.

Local Open Scope Z_scope.

Lemma diffDays_bounds (today e : Z) :
  (diffDays today e - 1) * msPerDay < e - today <= diffDays today e * msPerDay.
Proof.
  unfold diffDays, msPerDay.
  change (1000 * 60 * 60 * 24) with 86400000.
  pose proof (Z.div_mod (today - e) 86400000 ltac:(lia)).
  pose proof (Z.mod_pos_bound (today - e) 86400000 ltac:(lia)).
  lia.
Qed.

End WholeDays.

(** X6.  The difference in days is rounded up, so a dated scan is [expired]
    only when the expiry midnight lies a full day or more before today's
    midnight; it is [soon] from less than a day before up to 30 days after,
    and [ok] beyond 30 days. *)
Theorem expired_after_a_full_day (host : DateHost) (isoDate : string) (e : Z) :
  isoDate <> "" ->
  isoMidnight host isoDate = Some e ->
  (getExpiryStatus host isoDate = expired <-> (e + msPerDay <= todayMidnight host)%Z)
  /\ (getExpiryStatus host isoDate = soon
      <-> (todayMidnight host - msPerDay < e <= todayMidnight host + 30 * msPerDay)%Z)
  /\ (getExpiryStatus host isoDate = ok <-> (todayMidnight host + 30 * msPerDay < e)%Z).
Proof.
  intros Hne He; rewrite (getExpiryStatus_diff host isoDate e Hne He).
  pose proof (diffDays_bounds (todayMidnight host) e) as Hb.
  unfold statusOfDiff.
  set (d := diffDays (todayMidnight host) e) in *.
  unfold msPerDay in *; change (1000 * 60 * 60 * 24)%Z with 86400000%Z in *.
  destruct (Z.ltb_spec d 0); [|destruct (Z.leb_spec d 30)];
    repeat split; intros; try discriminate; try lia.
Qed.

(** The theorem with a local midnight that a clock change has moved one
    hour back: the expiry of yesterday, 23 hours before today, is [soon]. *)
Lemma expired_after_a_full_day_witness :
  getExpiryStatus
    {| todayMidnight := 1748736000000;
       isoMidnight := fun _ => Some (1748736000000 - 82800000)%Z |} "2025-05-31"
  = soon.
Proof.
  refine (proj2 (proj1 (proj2 (expired_after_a_full_day
                                 {| todayMidnight := 1748736000000;
                                    isoMidnight := fun _ => Some (1748736000000 - 82800000)%Z |}
                                 "2025-05-31" _ _ eq_refl))) _).
  - discriminate.
  - vm_compute; split; [reflexivity | discriminate].
Defined.

(* ====================================================================== *)
(** ** Lookups in the index *)
(* ====================================================================== *)

Section IndexLookups.

Lemma get_set {V} (m : Js.map V) (k k' : string) (v : V) :
  Js.get (Js.set m k v) k' = if String.eqb k k' then Some v else Js.get m k'.
Proof.
  induction m as [|[a x] m IH]; simpl.
  - reflexivity.
  - destruct (String.eqb_spec a k) as [-> | Hne]; simpl.
    + destruct (String.eqb k k'); reflexivity.
    + rewrite IH.
      destruct (String.eqb_spec a k') as [-> | Hne'].
      * destruct (String.eqb_spec k k') as [-> | _]; [contradiction | reflexivity].
      * reflexivity.
Qed.

Lemma buildMasterIndex_snoc (data : list Product.t) (item : Product.t) :
  buildMasterIndex (data ++ [item]) = addItem (buildMasterIndex data) item.
Proof. unfold buildMasterIndex; rewrite fold_left_app; reflexivity. Qed.

Lemma addItem_exact (index : MasterIndex) (item : Product.t) (k : string) :
  Js.get (exact (addItem index item)) k
  = if writesKey item k then Some (Product.name item) else Js.get (exact index) k.
Proof.
  unfold addItem, writesKey; fold (canonicalGtin item); cbn [exact].
  generalize (canonicalGtin item) as g; intros g.
  generalize (Js.drop 1 g) as g13; intros g13.
  destruct (Js.startsWith g "0"); rewrite !get_set.
  - destruct (String.eqb g13 k); destruct (String.eqb g k); reflexivity.
  - destruct (String.eqb g k); reflexivity.
Qed.

Lemma addItem_last8 (index : MasterIndex) (item : Product.t) (k : string) :
  Js.get (last8 (addItem index item)) k
  = if String.eqb (Js.sliceLast 8 (canonicalGtin item)) k
    then Some ((match Js.get (last8 index) (Js.sliceLast 8 (canonicalGtin item)) with
                | Some b => b
                | None => []
                end) ++ [canonicalProduct item])%list
    else Js.get (last8 index) k.
Proof.
  unfold addItem, canonicalProduct, Js.has; fold (canonicalGtin item); cbn [last8].
  set (key := Js.sliceLast 8 (canonicalGtin item)).
  destruct (Js.get (last8 index) key) as [b|] eqn:Hold.
  - rewrite Hold, get_set; destruct (String.eqb key k); reflexivity.
  - rewrite !get_set, String.eqb_refl; destruct (String.eqb key k); [reflexivity | exact Hold || reflexivity].
Qed.

(** No row of the catalog sets a key that the exact map does not hold. *)
Lemma exact_lookup_none (data : list Product.t) (k : string) :
  Js.get (exact (buildMasterIndex data)) k = None
  <-> (forall item, In item data -> writesKey item k = false).
Proof.
  induction data as [|item data IH] using rev_ind.
  - split; [intros _ item [] | reflexivity].
  - rewrite buildMasterIndex_snoc, addItem_exact.
    destruct (writesKey item k) eqn:Hw.
    + split; [discriminate|].
      intros H; rewrite (H item) in Hw; [discriminate | apply in_or_app; right; left; reflexivity].
    + rewrite IH; split.
      * intros H x Hx; apply in_app_or in Hx as [Hx | [<- | []]]; auto.
      * intros H x Hx; apply H, in_or_app; left; exact Hx.
Qed.

(** The last row that sets a key gives the name found under it. *)
Lemma exact_lookup_last (data1 data2 : list Product.t) (item : Product.t) (k : string) :
  writesKey item k = true ->
  (forall item', In item' data2 -> writesKey item' k = false) ->
  Js.get (exact (buildMasterIndex (data1 ++ item :: data2))) k = Some (Product.name item).
Proof.
  revert data1 item; induction data2 as [|x data2 IH] using rev_ind; intros data1 item Hw Hlater.
  - rewrite buildMasterIndex_snoc, addItem_exact, Hw; reflexivity.
  - replace (data1 ++ item :: data2 ++ [x])%list with ((data1 ++ item :: data2) ++ [x])%list
      by (rewrite <- app_assoc; reflexivity).
    rewrite buildMasterIndex_snoc, addItem_exact.
    rewrite (Hlater x) by (apply in_or_app; right; left; reflexivity).
    apply IH; [exact Hw|].
    intros y Hy; apply Hlater, in_or_app; left; exact Hy.
Qed.


Lemma length_padStart0_ge (n : nat) (s : string) : n <= String.length (Js.padStart0 n s).
Proof. unfold Js.padStart0; rewrite length_append, length_zeros; lia. Qed.

Lemma startsWith_zero (g : string) :
  Js.startsWith g "0" = true -> g = String "0" (Js.drop 1 g).
Proof.
  unfold Js.startsWith; destruct g as [|c g]; [discriminate|].
  change (prefix "0" (String c g)) with (if ascii_dec "0" c then prefix "" g else false).
  destruct (ascii_dec "0" c) as [<- | _]; [reflexivity | discriminate].
Qed.

End IndexLookups.

(** X7.  The exact map of a built index holds a key exactly when a row of
    the catalog sets it (as its GTIN padded to 14 digits, or as that GTIN
    without its leading zero), and the name under the key is that of the
    last such row: a later row with the same GTIN replaces the name. *)
Theorem exact_map_holds_last_name :
  (forall data k,
      Js.get (exact (buildMasterIndex data)) k = None
      <-> (forall item, In item data -> writesKey item k = false))
  /\ (forall data1 item data2 k,
        writesKey item k = true ->
        (forall item', In item' data2 -> writesKey item' k = false) ->
        Js.get (exact (buildMasterIndex (data1 ++ item :: data2))) k
        = Some (Product.name item)).
Proof.
  split; [exact exact_lookup_none|].
  intros data1 item data2 k; apply exact_lookup_last.
Qed.

(** The theorem at a catalog that lists one GTIN twice: the second name is
    found, under the 14-digit key and under the 13-digit key. *)
Lemma exact_map_holds_last_name_witness :
  Js.get (exact (buildMasterIndex
                   [ {| Product.gtin := "6297000001234"; Product.name := "old" |};
                     {| Product.gtin := "629-7000001234"; Product.name := "new" |};
                     {| Product.gtin := "6297000002345"; Product.name := "other" |} ]))
    "6297000001234"
  = Some "new".
Proof.
  refine (proj2 exact_map_holds_last_name
            [ {| Product.gtin := "6297000001234"; Product.name := "old" |} ]
            {| Product.gtin := "629-7000001234"; Product.name := "new" |}
            [ {| Product.gtin := "6297000002345"; Product.name := "other" |} ]
            "6297000001234" eq_refl _).
  intros item' [<- | []]; reflexivity.
Defined.

(** X8.  The bucket of a built index under a key of eight digits is the
    list, in catalog order and with every duplicate, of the rows whose
    padded GTIN ends with the key; there is no bucket when there is no such
    row. *)
Theorem last8_bucket_is_filtered_catalog (data : list Product.t) (k : string) :
  Js.get (last8 (buildMasterIndex data)) k
  = match filter (fun p => String.eqb (Js.sliceLast 8 (Product.gtin p)) k)
            (List.map canonicalProduct data) with
    | [] => None
    | bucket => Some bucket
    end.
Proof.
  induction data as [|item data IH] using rev_ind; [reflexivity|].
  rewrite buildMasterIndex_snoc, addItem_last8, map_app, filter_app.
  cbn [List.map filter canonicalProduct Product.gtin].
  fold (canonicalProduct item).
  destruct (String.eqb_spec (Js.sliceLast 8 (canonicalGtin item)) k) as [-> | Hne].
  - rewrite IH.
    destruct (filter _ (List.map canonicalProduct data)) as [|p l]; reflexivity.
  - rewrite app_nil_r; exact IH.
Qed.

(** X9.  [matchProduct] answers [INVALID] exactly for an invalid scan, and
    it gives a name only with [EXACT], [LAST8] or [SEQ6]: an ambiguous, a
    failed and an invalid match never carry a name. *)
Theorem match_result_shape (parsed : ParsedScan) (index : MasterIndex) :
  (Match.matchType (matchProduct parsed index) = INVALID <-> isValid parsed = false)
  /\ (Match.name (matchProduct parsed index) <> "" ->
      Match.matchType (matchProduct parsed index) = EXACT
      \/ Match.matchType (matchProduct parsed index) = LAST8
      \/ Match.matchType (matchProduct parsed index) = SEQ6).
Proof.
  assert (Hcases :
    (isValid parsed = false
     /\ matchProduct parsed index = {| Match.name := ""; Match.matchType := INVALID |})
    \/ (isValid parsed = true
        /\ ((exists t, (t = EXACT \/ t = LAST8 \/ t = SEQ6)
                       /\ Match.matchType (matchProduct parsed index) = t)
            \/ (exists t, t <> INVALID
                          /\ matchProduct parsed index
                             = {| Match.name := ""; Match.matchType := t |})))).
  { unfold matchProduct; destruct parsed as [e | r]; simpl; [left; auto|].
    destruct (Scan.valid r); simpl; [right; split; [reflexivity|] | left; auto].
    destruct (Js.size (exact index) =? 0);
      [right; exists NONE; split; [discriminate | reflexivity]|].
    destruct (Js.get (exact index) (Scan.gtin14 r)); [left; exists EXACT; auto|].
    destruct (Js.get (exact index) (Scan.gtin13 r)); [left; exists EXACT; auto|].
    assert (Hseq : (exists t, (t = EXACT \/ t = LAST8 \/ t = SEQ6)
                              /\ Match.matchType (seq6Tier (Scan.gtin14 r) index) = t)
                   \/ (exists t, t <> INVALID
                                 /\ seq6Tier (Scan.gtin14 r) index
                                    = {| Match.name := ""; Match.matchType := t |})).
    { unfold seq6Tier; destruct (seq6Matches (Scan.gtin14 r) index) as [|m [|m' l]].
      - right; exists NONE; split; [discriminate | reflexivity].
      - left; exists SEQ6; auto.
      - right; exists AMBIGUOUS_SEQ6; split; [discriminate | reflexivity]. }
    destruct (Js.get (last8 index) _) as [[|m [|m' b]]|]; auto.
    - left; exists LAST8; auto.
    - right; exists AMBIGUOUS_LAST8; split; [discriminate | reflexivity]. }
  destruct Hcases as [[Hv ->] | [Hv [(t & Ht & Hm) | (t & Ht & ->)]]]; rewrite Hv; simpl.
  - split; [split; reflexivity | intros H; contradiction H; reflexivity].
  - rewrite Hm; split; [|intros _; exact Ht].
    split; [intros ->; destruct Ht as [H | [H | H]]; discriminate H | discriminate].
  - split; [split; [intros H; contradiction | discriminate]|].
    intros H; contradiction H; reflexivity.
Qed.

(** The theorem at a scan with the last eight digits of a catalogued
    product. *)
Lemma match_result_shape_witness :
  Match.name
    (matchProduct (parseGs1 exampleHost (Js.Str "(01)05555500001234"))
       (buildMasterIndex [ {| Product.gtin := "6297000001234";
                              Product.name := "Vitamin D" |} ]))
  = "Vitamin D"
  /\ (Match.matchType
        (matchProduct (parseGs1 exampleHost (Js.Str "(01)05555500001234"))
           (buildMasterIndex [ {| Product.gtin := "6297000001234";
                                  Product.name := "Vitamin D" |} ]))
      = EXACT
      \/ Match.matchType
           (matchProduct (parseGs1 exampleHost (Js.Str "(01)05555500001234"))
              (buildMasterIndex [ {| Product.gtin := "6297000001234";
                                     Product.name := "Vitamin D" |} ]))
         = LAST8
      \/ Match.matchType
           (matchProduct (parseGs1 exampleHost (Js.Str "(01)05555500001234"))
              (buildMasterIndex [ {| Product.gtin := "6297000001234";
                                     Product.name := "Vitamin D" |} ]))
         = SEQ6).
Proof.
  split; [reflexivity|].
  apply (proj2 (match_result_shape
                  (parseGs1 exampleHost (Js.Str "(01)05555500001234"))
                  (buildMasterIndex [ {| Product.gtin := "6297000001234";
                                         Product.name := "Vitamin D" |} ]))).
  vm_compute; discriminate.
Defined.

Section Tiers.

Lemma canonicalGtin_length (item : Product.t) : 14 <= String.length (canonicalGtin item).
Proof. apply length_padStart0_ge. Qed.

Lemma allDigits_filterChars (s : string) : allDigits (Js.filterChars Js.isDigit s) = true.
Proof.
  unfold allDigits; induction s as [|c s IH]; simpl; [reflexivity|].
  destruct (Js.isDigit c) eqn:Hc; simpl; [rewrite Hc|]; exact IH.
Qed.

Lemma canonicalGtin_digits (item : Product.t) : allDigits (canonicalGtin item) = true.
Proof. apply allDigits_padStart0, allDigits_filterChars. Qed.

(** A key of 13 characters of a built index comes with the key of 14
    characters that starts with a zero. *)
Lemma exact_key_of_13 (data : list Product.t) (g13 : string) :
  String.length g13 = 13 ->
  Js.get (exact (buildMasterIndex data)) (String "0" g13) = None ->
  Js.get (exact (buildMasterIndex data)) g13 = None.
Proof.
  intros Hlen H14; apply exact_lookup_none; intros item Hin.
  pose proof (proj1 (exact_lookup_none data (String "0" g13)) H14 item Hin) as Hw.
  pose proof (canonicalGtin_length item) as Hc.
  unfold writesKey in *.
  apply orb_false_iff in Hw as [Hw _].
  apply orb_false_iff; split.
  - apply String.eqb_neq; intros Heq; rewrite Heq in Hc; lia.
  - destruct (Js.startsWith (canonicalGtin item) "0") eqn:Hz; [|reflexivity].
    apply String.eqb_neq; intros Heq.
    apply startsWith_zero in Hz; rewrite Heq in Hz.
    rewrite Hz, String.eqb_refl in Hw; discriminate.
Qed.

(** Every entry of [seq6Matches] is a key of the exact map that contains a
    window. *)
Lemma collectSeq6_sound (entries : Js.map string) (acc : list Product.t) (seq6 : string)
  (m : Product.t) :
  In m (collectSeq6 entries acc seq6) ->
  In m acc
  \/ (In (Product.gtin m, Product.name m) entries /\ Js.includes (Product.gtin m) seq6 = true).
Proof.
  unfold collectSeq6; revert acc; induction entries as [|[k v] entries IH]; intros acc Hm;
    simpl in Hm; [left; exact Hm|].
  apply IH in Hm as [Hm | [Hin Hi]]; [|right; split; [right; exact Hin | exact Hi]].
  destruct (Js.includes k seq6) eqn:Hk; [|left; exact Hm].
  destruct (existsb _ acc); [left; exact Hm|].
  apply in_app_or in Hm as [Hm | [<- | []]]; [left; exact Hm|].
  right; split; [left; reflexivity | exact Hk].
Qed.

Lemma seq6Matches_sound (gtin14 : string) (index : MasterIndex) (m : Product.t) :
  In m (seq6Matches gtin14 index) ->
  exists seq6,
    In seq6 (windows6 (Js.sliceLast 10 gtin14))
    /\ In (Product.gtin m, Product.name m) (exact index)
    /\ Js.includes (Product.gtin m) seq6 = true.
Proof.
  unfold seq6Matches; generalize (windows6 (Js.sliceLast 10 gtin14)) as ws.
  assert (H : forall ws acc,
             In m (fold_left (collectSeq6 (exact index)) ws acc) ->
             In m acc
             \/ exists seq6,
                 In seq6 ws /\ In (Product.gtin m, Product.name m) (exact index)
                 /\ Js.includes (Product.gtin m) seq6 = true).
  { induction ws as [|w ws IH]; intros acc Hm; simpl in Hm; [left; exact Hm|].
    apply IH in Hm as [Hm | (seq6 & Hw & Hin & Hi)].
    - apply collectSeq6_sound in Hm as [Hm | [Hin Hi]]; [left; exact Hm|].
      right; exists w; split; [left; reflexivity | auto].
    - right; exists seq6; split; [right; exact Hw | auto]. }
  intros ws Hm; apply H in Hm as [[] | Hm]; exact Hm.
Qed.

End Tiers.

(** X10.  For a scan of [parseGs1] and a built index, the second exact tier
    never decides: when [gtin14] is not a key of the exact map, [gtin13] is
    not one either. *)
Theorem second_exact_tier_never_decides
  (host : DateHost) (data : list Product.t) (raw : Js.value) (r : Scan.t) :
  parseGs1 host raw = Scanned r ->
  Scan.valid r = true ->
  Js.get (exact (buildMasterIndex data)) (Scan.gtin14 r) = None ->
  Js.get (exact (buildMasterIndex data)) (Scan.gtin13 r) = None.
Proof.
  intros Hp Hv H14.
  destruct (scanned_is_string host raw r Hp) as (c & s & ->).
  destruct (parseGs1_string host c s) as (r' & Hr & _ & Hg & _ & Hv' & _).
  rewrite Hp in Hr; injection Hr as <-.
  symmetry in Hg; apply gtinFields_shape in Hg as [[He14 He13] | [Hlen H13]].
  - rewrite Hv', He14, He13 in Hv; discriminate.
  - rewrite H13; destruct (Js.startsWith (Scan.gtin14 r) "0") eqn:Hz; [|exact H14].
    apply startsWith_zero in Hz.
    apply exact_key_of_13.
    + rewrite length_drop; lia.
    + rewrite <- Hz; exact H14.
Qed.

(** The theorem at a scan that misses a catalog of one product. *)
Lemma second_exact_tier_never_decides_witness :
  exists r,
    parseGs1 exampleHost (Js.Str "(01)06297000009999") = Scanned r
    /\ Scan.gtin13 r = "6297000009999"
    /\ Js.get (exact (buildMasterIndex
                        [ {| Product.gtin := "6297000001234"; Product.name := "A" |} ]))
         (Scan.gtin13 r)
       = None.
Proof.
  eexists; split; [reflexivity|]; split; [reflexivity|].
  exact (second_exact_tier_never_decides exampleHost
           [ {| Product.gtin := "6297000001234"; Product.name := "A" |} ]
           (Js.Str "(01)06297000009999") _ eq_refl eq_refl eq_refl).
Defined.

(** X11.  The last tier answers [NONE] exactly when no key of the exact map
    contains a window of six digits of the last ten digits of [gtin14]; and
    when it answers [SEQ6], the name is the one stored under a key that
    contains such a window. *)
Theorem seq6_tier_finds_windows (gtin14 : string) (index : MasterIndex) :
  (Match.matchType (seq6Tier gtin14 index) = NONE
   <-> (forall k v seq6,
           In (k, v) (exact index) -> In seq6 (windows6 (Js.sliceLast 10 gtin14)) ->
           Js.includes k seq6 = false))
  /\ (Match.matchType (seq6Tier gtin14 index) = SEQ6 ->
      exists k seq6,
        In (k, Match.name (seq6Tier gtin14 index)) (exact index)
        /\ In seq6 (windows6 (Js.sliceLast 10 gtin14))
        /\ Js.includes k seq6 = true).
Proof.
  split.
  - split.
    + intros Hnone k v seq6 Hk Hw.
      destruct (Js.includes k seq6) eqn:Hi; [|reflexivity].
      destruct (seq6Matches_hits gtin14 index seq6 k v Hw Hk Hi) as (m & Hm & _).
      unfold seq6Tier in Hnone.
      destruct (seq6Matches gtin14 index) as [|a [|b l]]; [contradiction | |]; discriminate.
    + intros Hno; unfold seq6Tier.
      destruct (seq6Matches gtin14 index) as [|a l] eqn:Hs; [reflexivity|].
      assert (Ha : In a (seq6Matches gtin14 index)) by (rewrite Hs; left; reflexivity).
      apply seq6Matches_sound in Ha as (seq6 & Hw & Hk & Hi).
      rewrite (Hno _ _ _ Hk Hw) in Hi; discriminate.
  - unfold seq6Tier.
    destruct (seq6Matches gtin14 index) as [|a [|b l]] eqn:Hs; try discriminate.
    intros _; simpl.
    assert (Ha : In a (seq6Matches gtin14 index)) by (rewrite Hs; left; reflexivity).
    apply seq6Matches_sound in Ha as (seq6 & Hw & Hk & Hi).
    exists (Product.gtin a), seq6; auto.
Qed.

(** The theorem at a product whose GTIN does not start with a zero and a
    scan that shares six digits with it. *)
Lemma seq6_tier_finds_windows_witness :
  exists k seq6,
    In (k, "Vitamin D") (exact (buildMasterIndex
                                  [ {| Product.gtin := "16297000001234";
                                       Product.name := "Vitamin D" |} ]))
    /\ In seq6 (windows6 (Js.sliceLast 10 "26297000001239"))
    /\ Js.includes k seq6 = true.
Proof.
  exact (proj2 (seq6_tier_finds_windows "26297000001239"
                  (buildMasterIndex [ {| Product.gtin := "16297000001234";
                                         Product.name := "Vitamin D" |} ])) eq_refl).
Defined.

Section ExactMatch.


Lemma literal_bracket (p t : string) :
  Regex.literal (String "(" p) t <> None -> exists t', t = String "(" t'.
Proof.
  intros H; destruct t as [|c t]; [contradiction H; reflexivity|].
  change (Regex.literal (String "(" p) (String c t))
    with (if Ascii.eqb "(" c then Regex.literal p t else None) in H.
  destruct (Ascii.eqb_spec "(" c) as [<- | _]; [eauto | contradiction H; reflexivity].
Qed.


Lemma gtinShortAt_bracket (t : string) :
  Regex.gtinShortAt t <> None -> exists t', t = String "(" t'.
Proof.
  unfold Regex.gtinShortAt; intros H; apply (literal_bracket "01)").
  destruct (Regex.literal "(01)" t); congruence.
Qed.





End ExactMatch.



(* ====================================================================== *)
(** ** Payloads with separators *)
(* ====================================================================== *)

Section Groups.

Lemma isAlnum_plain (c : ascii) :
  isAlnum c = true ->
  Js.isWhiteSpace c = false /\ Ascii.eqb c GS = false
  /\ Ascii.eqb c "|" = false /\ Ascii.eqb c "(" = false.
Proof.
  destruct c as [[] [] [] [] [] [] [] []]; intros H; try discriminate H;
    repeat split; reflexivity.
Qed.

Lemma isDigit_isAlnum (c : ascii) : Js.isDigit c = true -> isAlnum c = true.
Proof. unfold isAlnum; intros ->; apply orb_true_r. Qed.

Lemma trim_no_space (s : string) :
  allChars (fun c => negb (Js.isWhiteSpace c)) s = true -> Js.trim s = s.
Proof.
  intros H; unfold Js.trim.
  assert (Hs : Js.trimStart s = s).
  { destruct s as [|c s]; simpl in *; [reflexivity|].
    apply andb_true_iff in H as [Hc _]; apply negb_true_iff in Hc; rewrite Hc; reflexivity. }
  rewrite Hs; clear Hs.
  induction s as [|c s IH]; simpl in *; [reflexivity|].
  apply andb_true_iff in H as [Hc Hs]; apply negb_true_iff in Hc.
  rewrite (IH Hs), Hc; destruct s; reflexivity.
Qed.

Lemma mapChars_no_GS (s : string) :
  allChars (fun c => negb (Ascii.eqb c GS)) s = true ->
  Js.mapChars (fun c => if Ascii.eqb c GS then "|"%char else c) s = s.
Proof.
  induction s as [|c s IH]; simpl; [reflexivity|].
  intros H; apply andb_true_iff in H as [Hc Hs]; apply negb_true_iff in Hc.
  rewrite Hc, (IH Hs); reflexivity.
Qed.

Lemma mapChars_append (f : ascii -> ascii) (a b : string) :
  Js.mapChars f (a ++ b) = Js.mapChars f a ++ Js.mapChars f b.
Proof. induction a; simpl; congruence. Qed.

Lemma includes_no_bracket (s : string) :
  allChars (fun c => negb (Ascii.eqb c "(")) s = true -> Js.includes s "(" = false.
Proof.
  induction s as [|c s IH]; intros H; [reflexivity|].
  simpl in H; apply andb_true_iff in H as [Hc Hs]; apply negb_true_iff in Hc.
  rewrite includes_cons, (IH Hs), orb_false_r.
  apply prefix_char_ne; intros <-; discriminate Hc.
Qed.

(** Two texts that are cleaned to the same text are parsed to the same
    fields. *)
Lemma sameFields_of_cleanInput (host : DateHost) (a b : string) :
  a <> "" -> b <> "" -> cleanInput a = cleanInput b ->
  sameFields (parseGs1 host (Js.Str a)) (parseGs1 host (Js.Str b)).
Proof.
  intros Ha Hb Hc.
  destruct a as [|x a]; [contradiction|]; destruct b as [|y b]; [contradiction|].
  unfold parseGs1; rewrite Hc.
  destruct (gtinFields (cleanInput (String y b))) as [g14 g13].
  destruct (expiryFields host (cleanInput (String y b))) as [[e ef] es].
  simpl; repeat split.
Qed.

(** A turn of the loop at a token of fixed length. *)
Lemma decodeLoop_fixed (pre code v tail acc : string) (fuel : nat) :
  fixedToken (code, v) = true ->
  decodeLoop (S fuel) (pre ++ code ++ v ++ tail) (String.length pre, acc)
  = decodeLoop fuel ((pre ++ code ++ v) ++ tail)
      (String.length (pre ++ code ++ v), acc ++ "(" ++ code ++ ")" ++ v).
Proof.
  intros Ht; apply fixedToken_inv in Ht as (n & Hc & Hn & Hv & _); simpl in Hc, Hv.
  destruct (aiLengths_code _ _ Hc) as [Hlen _].
  assert (Hpart : String.length (pre ++ code ++ v ++ tail)
                  = String.length pre + String.length code + n + String.length tail)
    by (rewrite !length_append; lia).
  rewrite decodeLoop_turn.
  replace (String.length pre <? String.length (pre ++ code ++ v ++ tail))
    with true by (symmetry; apply Nat.ltb_lt; lia).
  assert (Hcode : Js.substring (pre ++ code ++ v ++ tail)
                    (String.length pre) (String.length pre + String.length code) = code).
  { unfold Js.substring.
    replace (String.length pre + String.length code - String.length pre)
      with (String.length code) by lia.
    rewrite substring_drop, drop_append; apply substring_prefix. }
  rewrite (decodeStep_code _ _ acc _ _ Hc Hcode).
  assert (Hend : valueEndOf (pre ++ code ++ v ++ tail) (String.length pre) code n
                 = String.length (pre ++ code ++ v)).
  { unfold valueEndOf.
    replace (0 <? n) with true by (symmetry; apply Nat.ltb_lt; lia).
    rewrite Hpart, !length_append; lia. }
  rewrite Hend.
  assert (Hvalue : Js.substring (pre ++ code ++ v ++ tail)
                     (String.length pre + String.length code)
                     (String.length (pre ++ code ++ v)) = v).
  { unfold Js.substring.
    replace (String.length (pre ++ code ++ v) - (String.length pre + String.length code))
      with (String.length v) by (rewrite !length_append; lia).
    rewrite substring_drop, <- length_append, <- append_assoc, drop_append.
    apply substring_prefix. }
  rewrite Hvalue, !append_assoc; reflexivity.
Qed.

(** A turn of the loop at a token of variable length: the value is all that
    is left of the part, and the loop ends. *)
Lemma decodeLoop_variable (pre code v acc : string) (fuel : nat) :
  aiLengths code = Some 0 ->
  decodeLoop (S fuel) (pre ++ code ++ v) (String.length pre, acc)
  = acc ++ "(" ++ code ++ ")" ++ v.
Proof.
  intros Hc; destruct (aiLengths_code _ _ Hc) as [Hlen _].
  rewrite decodeLoop_turn.
  replace (String.length pre <? String.length (pre ++ code ++ v))
    with true by (symmetry; apply Nat.ltb_lt; rewrite !length_append; lia).
  assert (Hcode : Js.substring (pre ++ code ++ v)
                    (String.length pre) (String.length pre + String.length code) = code).
  { unfold Js.substring.
    replace (String.length pre + String.length code - String.length pre)
      with (String.length code) by lia.
    rewrite substring_drop, drop_append; apply substring_prefix. }
  rewrite (decodeStep_code _ _ acc _ _ Hc Hcode).
  change (valueEndOf (pre ++ code ++ v) (String.length pre) code 0)
    with (String.length (pre ++ code ++ v)).
  assert (Hvalue : Js.substring (pre ++ code ++ v)
                     (String.length pre + String.length code)
                     (String.length (pre ++ code ++ v)) = v).
  { unfold Js.substring.
    replace (String.length (pre ++ code ++ v) - (String.length pre + String.length code))
      with (String.length v) by (rewrite !length_append; lia).
    rewrite substring_drop, <- length_append, <- append_assoc, drop_append.
    pose proof (substring_prefix v "") as H; rewrite append_empty_r in H; exact H. }
  rewrite Hvalue.
  destruct fuel as [|fuel]; [reflexivity|].
  rewrite decodeLoop_turn, Nat.ltb_irrefl; reflexivity.
Qed.

(** The loop on a group emits its tokens in brackets. *)
Lemma decodeLoop_group (toks : list token) :
  groupOk toks = true ->
  forall pre acc fuel,
    String.length (unbracketed toks) <= fuel ->
    decodeLoop fuel (pre ++ unbracketed toks) (String.length pre, acc)
    = acc ++ bracketed toks.
Proof.
  induction toks as [|[code v] toks IH]; intros Hok pre acc fuel Hfuel; [discriminate|].
  change (unbracketed ((code, v) :: toks)) with (code ++ v ++ unbracketed toks) in *.
  change (bracketed ((code, v) :: toks)) with ("(" ++ code ++ ")" ++ v ++ bracketed toks).
  assert (Hcode : forall n, aiLengths code = Some n -> 0 < fuel).
  { intros n Hc; destruct (aiLengths_code _ _ Hc) as [Hlen _].
    rewrite length_append in Hfuel; lia. }
  destruct toks as [|t toks].
  - simpl in Hok; change (unbracketed []) with EmptyString.
    change (bracketed []) with EmptyString.
    rewrite !append_empty_r in *.
    apply orb_true_iff in Hok as [Hfix | Hvar].
    + pose proof Hfix as Hfix'.
      apply fixedToken_inv in Hfix' as (n & Hc & _).
      destruct fuel as [|fuel]; [specialize (Hcode n Hc); lia|].
      pose proof (decodeLoop_fixed pre code v "" acc fuel Hfix) as Hstep.
      rewrite !append_empty_r in Hstep; rewrite Hstep.
      destruct fuel as [|fuel]; [reflexivity|].
      rewrite decodeLoop_turn, Nat.ltb_irrefl; reflexivity.
    + unfold variableToken in Hvar; simpl in Hvar.
      destruct (aiLengths code) as [[|n]|] eqn:Hc; try discriminate.
      destruct fuel as [|fuel]; [specialize (Hcode 0 eq_refl); lia|].
      apply decodeLoop_variable; exact Hc.
  - assert (Hok' : fixedToken (code, v) = true /\ groupOk (t :: toks) = true)
      by (apply andb_true_iff; exact Hok).
    destruct Hok' as [Hfix Hrest].
    pose proof Hfix as Hfix'.
    apply fixedToken_inv in Hfix' as (n & Hc & _); simpl in Hc.
    destruct (aiLengths_code _ _ Hc) as [Hlen _].
    destruct fuel as [|fuel]; [specialize (Hcode n Hc); lia|].
    rewrite (decodeLoop_fixed pre code v _ acc fuel Hfix).
    rewrite (IH Hrest) by (rewrite !length_append in Hfuel; lia).
    rewrite !append_assoc; reflexivity.
Qed.

Lemma decodePart_group (toks : list token) (acc : string) :
  groupOk toks = true -> decodePart acc (unbracketed toks) = acc ++ bracketed toks.
Proof.
  intros Hok; unfold decodePart.
  exact (decodeLoop_group toks Hok "" acc _ (le_n _)).
Qed.

(** The characters of the payload of a group are letters and digits. *)
Lemma group_chars (toks : list token) :
  groupOk toks = true -> allChars isAlnum (unbracketed toks) = true.
Proof.
  assert (Hfixed : forall t, fixedToken t = true ->
                             allChars isAlnum (fst t ++ snd t) = true).
  { intros t Ht; apply fixedToken_inv in Ht as (n & Hc & _ & _ & Hv).
    apply aiLengths_code in Hc as [_ Hc].
    rewrite allChars_append, (allChars_weaken _ _ _ isDigit_isAlnum Hc),
            (allChars_weaken _ _ _ isDigit_isAlnum Hv); reflexivity. }
  induction toks as [|t toks IH]; intros Hok; [discriminate|].
  change (unbracketed (t :: toks)) with (fst t ++ snd t ++ unbracketed toks).
  destruct toks as [|t' toks].
  - change (unbracketed []) with EmptyString; rewrite append_empty_r.
    simpl in Hok; apply orb_true_iff in Hok as [Hfix | Hvar]; [exact (Hfixed t Hfix)|].
    unfold variableToken in Hvar.
    destruct (aiLengths (fst t)) as [[|n]|] eqn:Hc; try discriminate.
    apply aiLengths_code in Hc as [_ Hc].
    rewrite allChars_append, (allChars_weaken _ _ _ isDigit_isAlnum Hc), Hvar; reflexivity.
  - assert (Hok' : fixedToken t = true /\ groupOk (t' :: toks) = true)
      by (apply andb_true_iff; exact Hok).
    destruct Hok' as [Hfix Hrest].
    rewrite <- append_assoc, allChars_append, (Hfixed t Hfix), (IH Hrest); reflexivity.
Qed.

Lemma split_no_separator (sep : ascii) (s : string) :
  allChars (fun c => negb (Ascii.eqb c sep)) s = true -> Js.split sep s = [s].
Proof.
  induction s as [|c s IH]; simpl; [reflexivity|].
  intros H; apply andb_true_iff in H as [Hc Hs]; apply negb_true_iff in Hc.
  rewrite Hc, (IH Hs); reflexivity.
Qed.

Lemma split_append (sep : ascii) (a b : string) :
  allChars (fun c => negb (Ascii.eqb c sep)) a = true ->
  Js.split sep (a ++ String sep b) = a :: Js.split sep b.
Proof.
  induction a as [|c a IH]; simpl.
  - intros _; rewrite Ascii.eqb_refl; reflexivity.
  - intros H; apply andb_true_iff in H as [Hc Ha]; apply negb_true_iff in Hc.
    rewrite Hc, (IH Ha); reflexivity.
Qed.

(** Splitting the parts joined by a separator that they do not hold gives
    the parts back. *)
Lemma split_join (sep : ascii) (parts : list string) :
  parts <> [] ->
  Forall (fun p => allChars (fun c => negb (Ascii.eqb c sep)) p = true) parts ->
  Js.split sep (join (String sep EmptyString) parts) = parts.
Proof.
  induction parts as [|p parts IH]; intros Hne Hall; [contradiction|].
  inversion Hall as [|? ? Hp Hrest]; subst.
  destruct parts as [|q parts].
  - simpl; apply split_no_separator; exact Hp.
  - change (join (String sep "") (p :: q :: parts))
      with (p ++ String sep "" ++ join (String sep "") (q :: parts)).
    change (String sep "" ++ join (String sep "") (q :: parts))
      with (String sep (join (String sep "") (q :: parts))).
    rewrite (split_append _ _ _ Hp), IH; [reflexivity | discriminate | exact Hrest].
Qed.

End Groups.

Section SeparatedGroups.

Lemma join_empty_cons (p : string) (parts : list string) :
  join "" (p :: parts) = p ++ join "" parts.
Proof. destruct parts; simpl; [rewrite append_empty_r|]; reflexivity. Qed.

Lemma allChars_join (p : ascii -> bool) (sep : string) (parts : list string) :
  allChars p sep = true -> Forall (fun s => allChars p s = true) parts ->
  allChars p (join sep parts) = true.
Proof.
  intros Hsep; induction parts as [|s parts IH]; intros Hall; [reflexivity|].
  inversion Hall as [|? ? Hs Hrest]; subst.
  destruct parts as [|s' parts]; [exact Hs|].
  change (join sep (s :: s' :: parts)) with (s ++ sep ++ join sep (s' :: parts)).
  rewrite !allChars_append, Hs, Hsep, (IH Hrest); reflexivity.
Qed.

Lemma mapChars_join (parts : list string) :
  Forall (fun s => allChars isAlnum s = true) parts ->
  Js.mapChars (fun c => if Ascii.eqb c GS then "|"%char else c)
    (join (String GS "") parts) = join "|" parts.
Proof.
  induction parts as [|s parts IH]; intros Hall; [reflexivity|].
  inversion Hall as [|? ? Hs Hrest]; subst.
  assert (Hid : Js.mapChars (fun c => if Ascii.eqb c GS then "|"%char else c) s = s).
  { apply mapChars_no_GS; refine (allChars_weaken _ _ _ _ Hs).
    intros c Hc; apply isAlnum_plain in Hc as (_ & -> & _); reflexivity. }
  destruct parts as [|s' parts]; [exact Hid|].
  change (join (String GS "") (s :: s' :: parts))
    with (s ++ String GS (join (String GS "") (s' :: parts))).
  change (join "|" (s :: s' :: parts)) with (s ++ String "|" (join "|" (s' :: parts))).
  assert (Hsep : forall x,
             Js.mapChars (fun c => if Ascii.eqb c GS then "|"%char else c) (String GS x)
             = String "|" (Js.mapChars (fun c => if Ascii.eqb c GS then "|"%char else c) x))
    by reflexivity.
  rewrite mapChars_append, Hid, Hsep, (IH Hrest); reflexivity.
Qed.

Lemma groups_chars (groups : list (list token)) :
  forallb groupOk groups = true ->
  Forall (fun s => allChars isAlnum s = true) (List.map unbracketed groups).
Proof.
  induction groups as [|g groups IH]; simpl; intros H; constructor.
  - apply andb_true_iff in H as [Hg _]; apply group_chars; exact Hg.
  - apply andb_true_iff in H as [_ Hrest]; apply IH; exact Hrest.
Qed.

Lemma fold_decodePart_groups (groups : list (list token)) (acc : string) :
  forallb groupOk groups = true ->
  fold_left decodePart (List.map unbracketed groups) acc
  = acc ++ join "" (List.map bracketed groups).
Proof.
  revert acc; induction groups as [|g groups IH]; intros acc H.
  - simpl; rewrite append_empty_r; reflexivity.
  - simpl in H; apply andb_true_iff in H as [Hg Hrest].
    change (List.map bracketed (g :: groups))
      with (bracketed g :: List.map bracketed groups).
    rewrite join_empty_cons; simpl fold_left.
    rewrite (decodePart_group g acc Hg), (IH _ Hrest), append_assoc; reflexivity.
Qed.

Lemma groups_open (groups : list (list token)) :
  groups <> [] -> forallb groupOk groups = true ->
  exists rest, join "" (List.map bracketed groups) = String "(" rest.
Proof.
  intros Hne H; destruct groups as [|g groups]; [contradiction|].
  simpl in H; apply andb_true_iff in H as [Hg _].
  change (List.map bracketed (g :: groups))
    with (bracketed g :: List.map bracketed groups).
  rewrite join_empty_cons.
  destruct g as [|[code v] g]; [discriminate|].
  simpl; eauto.
Qed.

Lemma bracketed_chars (p : ascii -> bool) (toks : list token) :
  p "("%char = true -> p ")"%char = true ->
  allChars p (unbracketed toks) = true -> allChars p (bracketed toks) = true.
Proof.
  intros Ho Hc; induction toks as [|[code v] toks IH]; [reflexivity|].
  change (unbracketed ((code, v) :: toks)) with (code ++ v ++ unbracketed toks).
  change (bracketed ((code, v) :: toks))
    with (String "(" (code ++ String ")" (v ++ bracketed toks))).
  rewrite !allChars_append; intros H.
  apply andb_true_iff in H as [H1 H]; apply andb_true_iff in H as [H2 H3].
  simpl; rewrite Ho, allChars_append, H1; simpl.
  rewrite Hc, allChars_append, H2, (IH H3); reflexivity.
Qed.

Lemma convert_groups (groups : list (list token)) :
  groups <> [] -> forallb groupOk groups = true ->
  convertRawToParenthesized (join "|" (List.map unbracketed groups))
  = join "" (List.map bracketed groups).
Proof.
  intros Hne H; unfold convertRawToParenthesized.
  rewrite split_join.
  - rewrite (fold_decodePart_groups groups "" H).
    destruct (groups_open groups Hne H) as (rest & ->); reflexivity.
  - destruct groups; [contradiction | discriminate].
  - refine (Forall_impl _ _ (groups_chars groups H)).
    intros s Hs; refine (allChars_weaken _ _ _ _ Hs).
    intros c Hc; apply isAlnum_plain in Hc as (_ & _ & -> & _); reflexivity.
Qed.

Lemma cleanInput_groups (groups : list (list token)) :
  groups <> [] -> forallb groupOk groups = true ->
  cleanInput (join (String GS "") (List.map unbracketed groups))
  = join "" (List.map bracketed groups).
Proof.
  intros Hne H; unfold cleanInput.
  pose proof (groups_chars groups H) as Hparts.
  rewrite trim_no_space.
  - rewrite (mapChars_join _ Hparts), includes_no_bracket;
      [apply convert_groups; assumption|].
    apply allChars_join; [reflexivity|].
    refine (Forall_impl _ _ Hparts).
    intros s Hs; refine (allChars_weaken _ _ _ _ Hs).
    intros c Hc; apply isAlnum_plain in Hc as (_ & _ & _ & ->); reflexivity.
  - apply allChars_join; [reflexivity|].
    refine (Forall_impl _ _ Hparts).
    intros s Hs; refine (allChars_weaken _ _ _ _ Hs).
    intros c Hc; apply isAlnum_plain in Hc as (-> & _); reflexivity.
Qed.

Lemma cleanInput_bracketed_groups (groups : list (list token)) :
  groups <> [] -> forallb groupOk groups = true ->
  cleanInput (join "" (List.map bracketed groups))
  = join "" (List.map bracketed groups).
Proof.
  intros Hne H; unfold cleanInput.
  assert (Hchars : forall p : ascii -> bool,
             p "("%char = true -> p ")"%char = true ->
             (forall c, isAlnum c = true -> p c = true) ->
             allChars p (join "" (List.map bracketed groups)) = true).
  { intros p Ho Hc Hp; apply allChars_join; [reflexivity|].
    apply Forall_forall; intros s Hs.
    apply in_map_iff in Hs as (g & <- & Hg).
    apply bracketed_chars; [exact Ho | exact Hc|].
    refine (allChars_weaken _ _ _ Hp _); apply group_chars.
    rewrite forallb_forall in H; apply H; exact Hg. }
  rewrite trim_no_space.
  - rewrite mapChars_no_GS.
    + destruct (groups_open groups Hne H) as (rest & ->).
      rewrite includes_cons.
      change (prefix "(" (String "(" rest)) with (prefix "" rest).
      rewrite prefix_empty; reflexivity.
    + apply Hchars; [reflexivity | reflexivity|].
      intros c Hc; apply isAlnum_plain in Hc as (_ & -> & _); reflexivity.
  - apply Hchars; [reflexivity | reflexivity|].
    intros c Hc; apply isAlnum_plain in Hc as (-> & _); reflexivity.
Qed.

End SeparatedGroups.

(** X13.  A payload made of groups parted by the group separator, each group
    a run of AIs of fixed length closed by at most one AI of variable length
    with a value of letters and digits, is decoded to the groups with every
    code in brackets; [parseGs1] gives the payload and that bracketed text
    the same field values. *)
Theorem separated_groups_round_trip (host : DateHost) (groups : list (list token)) :
  groups <> [] ->
  forallb groupOk groups = true ->
  convertRawToParenthesized (join "|" (List.map unbracketed groups))
  = join "" (List.map bracketed groups)
  /\ sameFields
       (parseGs1 host (Js.Str (join (String GS "") (List.map unbracketed groups))))
       (parseGs1 host (Js.Str (join "" (List.map bracketed groups)))).
Proof.
  intros Hne H; split; [apply convert_groups; assumption|].
  apply sameFields_of_cleanInput.
  - destruct groups as [|g groups]; [contradiction|].
    simpl in H; apply andb_true_iff in H as [Hg _].
    destruct g as [|[code v] g]; [discriminate|].
    assert (Hc : 2 <= String.length code).
    { destruct g as [|t g]; simpl in Hg.
      - apply orb_true_iff in Hg as [Hf | Hv].
        + apply fixedToken_inv in Hf as (n & Hc & _); apply (aiLengths_code _ _ Hc).
        + unfold variableToken in Hv; simpl in Hv.
          destruct (aiLengths code) as [n|] eqn:Hc; [|discriminate].
          apply (aiLengths_code _ _ Hc).
      - apply andb_true_iff in Hg as [Hf _].
        apply fixedToken_inv in Hf as (n & Hc & _); apply (aiLengths_code _ _ Hc). }
    destruct code as [|a code]; [simpl in Hc; lia|].
    destruct groups; discriminate.
  - destruct (groups_open groups Hne H) as (rest & ->); discriminate.
  - rewrite cleanInput_groups, cleanInput_bracketed_groups by assumption; reflexivity.
Qed.

(** The theorem at a GTIN, an expiry and a batch, then a serial number after
    a separator. *)
Lemma separated_groups_round_trip_witness :
  convertRawToParenthesized "01062970000012341725063010ABC001|21SN123"
  = "(01)06297000001234(17)250630(10)ABC001(21)SN123"
  /\ sameFields
       (parseGs1 exampleHost
          (Js.Str ("01062970000012341725063010ABC001" ++ String GS "21SN123")))
       (parseGs1 exampleHost
          (Js.Str "(01)06297000001234(17)250630(10)ABC001(21)SN123")).
Proof.
  exact (separated_groups_round_trip exampleHost
           [ [ ("01", "06297000001234"); ("17", "250630"); ("10", "ABC001") ];
             [ ("21", "SN123") ] ]
           ltac:(discriminate) eq_refl).
Defined.

(* ====================================================================== *)
(** ** The pages of the history table *)
(* ====================================================================== *)

Section Pages.

Context {A : Type}.

Lemma firstn_add (a b : nat) (l : list A) :
  firstn (a + b) l = (firstn a l ++ firstn b (skipn a l))%list.
Proof.
  revert l; induction a as [|a IH]; intros l; [reflexivity|].
  destruct l as [|x l]; simpl; [destruct b; reflexivity|].
  rewrite IH; reflexivity.
Qed.

Lemma slice_window (l : list A) (s n : nat) :
  slice l s (Nat.min (s + n) (List.length l)) = firstn n (skipn s l).
Proof.
  unfold slice.
  destruct (Nat.le_gt_cases (s + n) (List.length l)) as [Hle | Hgt].
  - rewrite Nat.min_l by exact Hle; f_equal; lia.
  - rewrite Nat.min_r by lia.
    rewrite !firstn_all2; [reflexivity | |]; rewrite length_skipn; lia.
Qed.

Lemma totalPages_bounds (perPage total : nat) :
  0 < perPage ->
  let pages := Nat.max 1 ((total + perPage - 1) / perPage) in
  1 <= pages /\ total <= pages * perPage /\ (0 < total -> (pages - 1) * perPage < total).
Proof.
  intros Hn pages.
  pose proof (Nat.Div0.mul_div_le (total + perPage - 1) perPage) as Hlow.
  pose proof (Nat.mul_succ_div_gt (total + perPage - 1) perPage ltac:(lia)) as Hhigh.
  assert (Hpages : pages = Nat.max 1 ((total + perPage - 1) / perPage)) by reflexivity.
  clearbody pages.
  destruct (Nat.max_spec 1 ((total + perPage - 1) / perPage)) as [[Hlt Hmax] | [Hge Hmax]];
    rewrite Hmax in Hpages; subst pages.
  - repeat split; nia.
  - assert (Hzero : (total + perPage - 1) / perPage = 0 \/ (total + perPage - 1) / perPage = 1)
      by lia.
    destruct Hzero as [Hz | Hz]; rewrite Hz in *; repeat split; nia.
Qed.

(** The items of the pages from the first on, one after the other. *)
Lemma pages_concat (l : list A) (n pages : nat) :
  concat (List.map (fun k => firstn n (skipn (k * n) l)) (seq 0 pages))
  = firstn (pages * n) l.
Proof.
  induction pages as [|pages IH]; [reflexivity|].
  rewrite seq_S, map_app, concat_app, IH; simpl.
  rewrite app_nil_r, (Nat.add_comm n), firstn_add; reflexivity.
Qed.

End Pages.

(** X14.  For a page number of at least 1 and a positive page size, the
    page shown is between 1 and the number of pages and not after the page
    asked for; it holds the rows from [startIdx] to [endIdx], at most a page
    size of them; and while the list has rows the page shown is not empty,
    so that the text "Showing a-b of n" names rows that exist. *)
Theorem history_page_window {A : Type} (page perPage : nat) (filtered : list A) :
  1 <= page -> 0 < perPage ->
  1 <= pageNumber (paginate page perPage filtered)
       <= totalPages (paginate page perPage filtered)
  /\ pageNumber (paginate page perPage filtered) <= page
  /\ pageItems (paginate page perPage filtered)
     = firstn perPage
         (skipn ((pageNumber (paginate page perPage filtered) - 1) * perPage) filtered)
  /\ List.length (pageItems (paginate page perPage filtered))
     = endIdx (paginate page perPage filtered) - startIdx (paginate page perPage filtered)
  /\ List.length (pageItems (paginate page perPage filtered)) <= perPage
  /\ (filtered <> [] ->
      startIdx (paginate page perPage filtered) < endIdx (paginate page perPage filtered)
      /\ endIdx (paginate page perPage filtered) <= List.length filtered).
Proof.
  intros Hpage Hn.
  destruct (totalPages_bounds perPage (List.length filtered) Hn) as (H1 & Hhigh & Hlow).
  unfold paginate; cbv zeta; cbn [pageNumber totalPages startIdx endIdx pageItems].
  set (pages := Nat.max 1 ((List.length filtered + perPage - 1) / perPage)) in *.
  set (shown := Nat.min page pages).
  assert (Hshown : 1 <= shown <= pages /\ shown <= page) by (unfold shown; lia).
  rewrite slice_window.
  assert (Hstart : filtered <> [] -> (shown - 1) * perPage < List.length filtered).
  { intros Hne.
    assert (Hpos : 0 < List.length filtered) by (destruct filtered; [contradiction | simpl; lia]).
    specialize (Hlow Hpos); nia. }
  split; [lia|]; split; [lia|]; split; [reflexivity|].
  rewrite length_firstn, length_skipn.
  split; [lia|]; split; [lia|].
  intros Hne; specialize (Hstart Hne); lia.
Qed.

(** The theorem at the third page of five rows by two, asked as page 7. *)
Lemma history_page_window_witness :
  pageNumber (paginate 7 2 [10; 20; 30; 40; 50]) = 3
  /\ pageItems (paginate 7 2 [10; 20; 30; 40; 50]) = [50]
  /\ startIdx (paginate 7 2 [10; 20; 30; 40; 50]) = 4
  /\ endIdx (paginate 7 2 [10; 20; 30; 40; 50]) = 5.
Proof.
  pose proof (history_page_window 7 2 [10; 20; 30; 40; 50] ltac:(lia) ltac:(lia)) as H.
  destruct H as (_ & _ & Hitems & _).
  split; [reflexivity|]; split; [exact Hitems|]; split; reflexivity.
Defined.

(** X15.  For a positive page size, the pages from 1 to the number of pages
    hold every row of the list once, in the order of the list. *)
Theorem history_pages_cover {A : Type} (perPage : nat) (filtered : list A) :
  0 < perPage ->
  concat (List.map (fun page => pageItems (paginate page perPage filtered))
            (seq 1 (totalPages (paginate 1 perPage filtered))))
  = filtered.
Proof.
  intros Hn.
  destruct (totalPages_bounds perPage (List.length filtered) Hn) as (H1 & Hhigh & _).
  unfold paginate at 2; cbv zeta; cbn [totalPages].
  set (pages := Nat.max 1 ((List.length filtered + perPage - 1) / perPage)) in *.
  rewrite <- seq_shift, map_map.
  rewrite (map_ext_in _ (fun k => firstn perPage (skipn (k * perPage) filtered))).
  - rewrite pages_concat; apply firstn_all2; lia.
  - intros k Hk; apply in_seq in Hk.
    unfold paginate; cbv zeta; cbn [pageItems].
    fold pages.
    rewrite (Nat.min_l (S k) pages) by lia.
    replace (S k - 1) with k by lia.
    apply slice_window.
Qed.

(** The theorem at five rows by two. *)
Lemma history_pages_cover_witness :
  List.map (fun page => pageItems (paginate page 2 [10; 20; 30; 40; 50])) [1; 2; 3]
  = [ [10; 20]; [30; 40]; [50] ]
  /\ concat (List.map (fun page => pageItems (paginate page 2 [10; 20; 30; 40; 50]))
               [1; 2; 3])
     = [10; 20; 30; 40; 50].
Proof.
  split; [reflexivity|].
  exact (history_pages_cover 2 [10; 20; 30; 40; 50] ltac:(lia)).
Defined.

(* ====================================================================== *)
(** ** The counters of the bulk paste *)
(* ====================================================================== *)

Section Bulk.











End Bulk.


(* ====================================================================== *)
(** ** Lines of a catalog file *)
(* ====================================================================== *)

Section CsvLines.

Lemma csvLoop_turn (delimiter char : ascii) (rest current : string) (inQuotes : bool)
  (result : list string) :
  csvLoop delimiter (String char rest) current inQuotes result
  = if Ascii.eqb char DQUOTE then
      match rest with
      | String next rest'' =>
          if inQuotes && Ascii.eqb next DQUOTE
          then csvLoop delimiter rest'' (current ++ String DQUOTE EmptyString) inQuotes result
          else csvLoop delimiter rest current (negb inQuotes) result
      | EmptyString => csvLoop delimiter rest current (negb inQuotes) result
      end
    else if Ascii.eqb char delimiter && negb inQuotes
    then csvLoop delimiter rest EmptyString inQuotes (result ++ [Js.trim current])%list
    else csvLoop delimiter rest (current ++ String char EmptyString) inQuotes result.
Proof. reflexivity. Qed.

Lemma split_cons (sep c : ascii) (s : string) :
  Js.split sep (String c s)
  = if Ascii.eqb c sep then EmptyString :: Js.split sep s
    else match Js.split sep s with
         | h :: t => String c h :: t
         | [] => [String c EmptyString]
         end.
Proof. reflexivity. Qed.

Lemma split_first (sep : ascii) (s : string) : exists h t, Js.split sep s = h :: t.
Proof.
  induction s as [|c s (h & t & IH)]; [simpl; eauto|].
  rewrite split_cons, IH; destruct (Ascii.eqb c sep); eauto.
Qed.

(** Outside quotes, on a text without double quotes, the loop cuts at every
    delimiter. *)
Lemma csvLoop_plain (delimiter : ascii) (rest : string) :
  allChars (fun c => negb (Ascii.eqb c DQUOTE)) rest = true ->
  forall current result,
    csvLoop delimiter rest current false result
    = match Js.split delimiter rest with
      | h :: t => (result ++ Js.trim (current ++ h) :: List.map Js.trim t)%list
      | [] => (result ++ [Js.trim current])%list
      end.
Proof.
  induction rest as [|c rest IH]; intros Hq current result.
  - simpl; rewrite append_empty_r; reflexivity.
  - simpl in Hq; apply andb_true_iff in Hq as [Hc Hrest]; apply negb_true_iff in Hc.
    rewrite csvLoop_turn, split_cons, Hc.
    destruct (split_first delimiter rest) as (h & t & Hs).
    destruct (Ascii.eqb c delimiter); cbn [andb negb]; rewrite (IH Hrest), Hs.
    + rewrite append_empty_r, <- app_assoc; reflexivity.
    + rewrite append_assoc; reflexivity.
Qed.

(** Inside quotes, the loop reads a value written with its double quotes
    doubled up to the closing quote. *)
Lemma csvLoop_quoted (delimiter : ascii) (tail : string) (result : list string) :
  prefix (String DQUOTE "") tail = false ->
  forall v current,
    csvLoop delimiter (doubleQuotes v ++ String DQUOTE tail) current true result
    = csvLoop delimiter tail (current ++ v) false result.
Proof.
  intros Htail; induction v as [|c v IH]; intros current.
  - change (doubleQuotes "" ++ String DQUOTE tail) with (String DQUOTE tail).
    rewrite csvLoop_turn, append_empty_r.
    change (Ascii.eqb DQUOTE DQUOTE) with true; cbn [andb negb].
    destruct tail as [|next tail]; [reflexivity|].
    destruct (Ascii.eqb_spec next DQUOTE) as [-> | Hne]; [|reflexivity].
    exfalso; revert Htail.
    change (prefix (String DQUOTE "") (String DQUOTE tail)) with (prefix "" tail).
    rewrite prefix_empty; discriminate.
  - cbn [doubleQuotes].
    replace (current ++ String c v) with ((current ++ String c "") ++ v)
      by (rewrite append_assoc; reflexivity).
    destruct (Ascii.eqb_spec c DQUOTE) as [-> | Hne].
    + change (String DQUOTE (String DQUOTE (doubleQuotes v)) ++ String DQUOTE tail)
        with (String DQUOTE (String DQUOTE (doubleQuotes v ++ String DQUOTE tail))).
      rewrite csvLoop_turn.
      change (Ascii.eqb DQUOTE DQUOTE) with true; cbn [andb].
      apply IH.
    + change (String c (doubleQuotes v) ++ String DQUOTE tail)
        with (String c (doubleQuotes v ++ String DQUOTE tail)).
      rewrite csvLoop_turn.
      apply Ascii.eqb_neq in Hne; rewrite Hne, andb_false_r.
      apply IH.
Qed.

(** The loop on one quoted value. *)
Lemma csvLoop_field (delimiter : ascii) (v tail : string) (result : list string) :
  prefix (String DQUOTE "") tail = false ->
  csvLoop delimiter (quoteField v ++ tail) EmptyString false result
  = csvLoop delimiter tail v false result.
Proof.
  intros Htail; unfold quoteField.
  change (String DQUOTE (doubleQuotes v ++ String DQUOTE "") ++ tail)
    with (String DQUOTE ((doubleQuotes v ++ String DQUOTE "") ++ tail)).
  rewrite append_assoc.
  change (String DQUOTE "" ++ tail) with (String DQUOTE tail).
  rewrite csvLoop_turn.
  change (Ascii.eqb DQUOTE DQUOTE) with true; cbn [andb negb].
  destruct (doubleQuotes v ++ String DQUOTE tail) eqn:Hd.
  - destruct (doubleQuotes v); discriminate Hd.
  - rewrite <- Hd; exact (csvLoop_quoted delimiter tail result Htail v "").
Qed.

Lemma csvLoop_fields (delimiter : ascii) (vs : list string) :
  Ascii.eqb delimiter DQUOTE = false ->
  vs <> [] ->
  forall result,
    csvLoop delimiter (join (String delimiter "") (List.map quoteField vs))
      EmptyString false result
    = (result ++ List.map Js.trim vs)%list.
Proof.
  intros Hd; induction vs as [|v vs IH]; intros Hne result; [contradiction|].
  destruct vs as [|v' vs].
  - cbn [List.map join].
    pose proof (csvLoop_field delimiter v "" result eq_refl) as H.
    rewrite append_empty_r in H; rewrite H; reflexivity.
  - change (join (String delimiter "") (List.map quoteField (v :: v' :: vs)))
      with (quoteField v
            ++ String delimiter (join (String delimiter "") (List.map quoteField (v' :: vs)))).
    rewrite csvLoop_field.
    + rewrite csvLoop_turn, Hd, Ascii.eqb_refl; cbn [andb negb].
      rewrite IH by discriminate.
      rewrite <- app_assoc; reflexivity.
    + apply prefix_char_ne; intros <-; rewrite Ascii.eqb_refl in Hd; discriminate.
Qed.

End CsvLines.

(** X17.  A line without double quotes is cut at every delimiter, and every
    piece is trimmed: the columns are as many as the delimiters and one. *)
Theorem unquoted_line_is_split (line : string) (delimiter : ascii) :
  without DQUOTE line = true ->
  parseCSVLine line delimiter = List.map Js.trim (Js.split delimiter line)
  /\ List.length (parseCSVLine line delimiter) = countChar delimiter line + 1.
Proof.
  intros Hq.
  assert (Heq : parseCSVLine line delimiter = List.map Js.trim (Js.split delimiter line)).
  { unfold parseCSVLine; rewrite (csvLoop_plain delimiter line Hq).
    destruct (split_first delimiter line) as (h & t & ->); reflexivity. }
  split; [exact Heq|].
  rewrite Heq, length_map; clear Hq Heq.
  induction line as [|c line IH]; [reflexivity|].
  rewrite split_cons; cbn [countChar].
  destruct (Ascii.eqb c delimiter); cbn [List.length]; [rewrite IH; lia|].
  destruct (Js.split delimiter line) as [|h t]; cbn [List.length] in *; lia.
Qed.

(** The theorem at a line of a catalog with spaces around a name. *)
Lemma unquoted_line_is_split_witness :
  parseCSVLine "06297000001234; Aspirin 100 mg ;12" ";"
  = ["06297000001234"; "Aspirin 100 mg"; "12"]
  /\ List.length (parseCSVLine "06297000001234; Aspirin 100 mg ;12" ";") = 3.
Proof.
  exact (unquoted_line_is_split "06297000001234; Aspirin 100 mg ;12" ";" eq_refl).
Defined.

(** X18.  A line written as [exportCSV] writes one, every value between
    double quotes with its own double quotes doubled and the values parted
    by the delimiter, is read by [parseCSVLine] as the values, trimmed:
    delimiters and double quotes inside a value do not cut it. *)
Theorem quoted_line_round_trip (delimiter : ascii) (values : list string) :
  Ascii.eqb delimiter DQUOTE = false ->
  values <> [] ->
  parseCSVLine (join (String delimiter "") (List.map quoteField values)) delimiter
  = List.map Js.trim values.
Proof.
  intros Hd Hne; unfold parseCSVLine.
  exact (csvLoop_fields delimiter values Hd Hne []).
Qed.

(** The theorem at a name with a comma and a quoted word. *)
Lemma quoted_line_round_trip_witness :
  parseCSVLine
    (join "," (List.map quoteField
                 ["06297000001234"; String.append "Syrup, " (quoteField "forte")]))
    ","
  = ["06297000001234"; String.append "Syrup, " (quoteField "forte")].
Proof.
  exact (quoted_line_round_trip ","
           ["06297000001234"; String.append "Syrup, " (quoteField "forte")]
           eq_refl ltac:(discriminate)).
Defined.

(* ====================================================================== *)
(** ** The exported files *)
(* ====================================================================== *)

Section Exports.

Lemma without_append (c : ascii) (a b : string) :
  without c (a ++ b) = without c a && without c b.
Proof. apply allChars_append. Qed.

Lemma without_join (c : ascii) (sep : string) (parts : list string) :
  without c sep = true -> Forall (fun s => without c s = true) parts ->
  without c (join sep parts) = true.
Proof. apply allChars_join. Qed.

Lemma without_doubleQuotes (c : ascii) (v : string) :
  without c v = true -> without c (doubleQuotes v) = true.
Proof.
  unfold without; induction v as [|x v IH]; [reflexivity|].
  cbn [allChars doubleQuotes]; intros H; apply andb_true_iff in H as [Hx Hv].
  destruct (Ascii.eqb x DQUOTE) eqn:Hq; cbn [allChars]; rewrite ?Hx, (IH Hv); [|reflexivity].
  apply Ascii.eqb_eq in Hq; subst x; rewrite Hx; reflexivity.
Qed.

Lemma without_quoteField (c : ascii) (v : string) :
  Ascii.eqb DQUOTE c = false -> without c v = true -> without c (quoteField v) = true.
Proof.
  intros Hc Hv; unfold quoteField.
  change (String DQUOTE (doubleQuotes v ++ String DQUOTE ""))
    with (String DQUOTE "" ++ doubleQuotes v ++ String DQUOTE "").
  rewrite !without_append, (without_doubleQuotes c v Hv).
  unfold without; cbn [allChars]; rewrite Hc; reflexivity.
Qed.

(** The lines of a text whose lines hold no line feed. *)
Lemma split_lines (header : string) (lines : list string) :
  Forall (fun l => without LF l = true) (header :: lines) ->
  Js.split LF (join (String LF "") (header :: lines)) = header :: lines.
Proof. intros H; apply split_join; [discriminate | exact H]. Qed.

End Exports.

(** X19.  When no value of the rows holds a tabulation or a line feed, the
    text of [exportTSV] has the line of the ten headers and one line for
    every row, in the order of the rows, and the ten values of a row are the
    pieces of its line between tabulations. *)
Theorem tsv_export_shape (rows : list Row.t) :
  Forall (fun row => Forall (fun v => without TAB v = true /\ without LF v = true)
                       (exportFields row)) rows ->
  List.map (Js.split TAB) (Js.split LF (exportTSV rows))
  = exportHeaders :: List.map exportFields rows.
Proof.
  intros Hrows; unfold exportTSV.
  rewrite split_lines.
  - cbn [List.map]; f_equal; rewrite map_map.
    apply map_ext_in; intros row Hrow.
    rewrite Forall_forall in Hrows; specialize (Hrows row Hrow).
    apply split_join; [discriminate|].
    refine (Forall_impl _ _ Hrows); intros v [Ht _]; exact Ht.
  - constructor; [reflexivity|].
    apply Forall_forall; intros l Hl.
    apply in_map_iff in Hl as (row & <- & Hrow).
    rewrite Forall_forall in Hrows; specialize (Hrows row Hrow).
    apply without_join; [reflexivity|].
    refine (Forall_impl _ _ Hrows); intros v [_ Hn]; exact Hn.
Qed.

(** The theorem at a scan without a product and with the quantity left
    out. *)
Lemma tsv_export_shape_witness :
  List.map (Js.split TAB)
    (Js.split LF
       (exportTSV
          [ {| Row.scanTime := Some "2025-06-01T10:00:00.000Z";
               Row.raw := Some "(01)06297000001234(17)250630";
               Row.gtin14 := Some "06297000001234"; Row.gtin13 := Some "6297000001234";
               Row.expiryFormatted := Some "30/06/2025"; Row.batch := Some "";
               Row.serial := Some ""; Row.qty := None; Row.productName := Some "";
               Row.matchType := Some "NONE" |} ]))
  = [ exportHeaders;
      [ "2025-06-01T10:00:00.000Z"; "(01)06297000001234(17)250630"; "06297000001234";
        "6297000001234"; "30/06/2025"; ""; ""; "1"; ""; "NONE" ] ].
Proof.
  refine (tsv_export_shape _ _).
  repeat constructor.
Defined.

(** X20.  When no value of the rows holds a line feed, the text of
    [exportCSV] has the line of the ten headers and one line for every row,
    and [parseCSVLine] reads from the line of a row its ten values, trimmed,
    whatever commas and double quotes they hold. *)
Theorem csv_export_shape (rows : list Row.t) :
  Forall (fun row => Forall (fun v => without LF v = true) (exportFields row)) rows ->
  List.map (fun line => parseCSVLine line ",") (Js.split LF (exportCSV rows))
  = exportHeaders :: List.map (fun row => List.map Js.trim (exportFields row)) rows.
Proof.
  intros Hrows; unfold exportCSV.
  rewrite split_lines.
  - cbn [List.map]; f_equal; rewrite map_map.
    apply map_ext_in; intros row _.
    unfold parseCSVLine; exact (csvLoop_fields "," (exportFields row) eq_refl
                                  ltac:(discriminate) []).
  - constructor; [reflexivity|].
    apply Forall_forall; intros l Hl.
    apply in_map_iff in Hl as (row & <- & Hrow).
    rewrite Forall_forall in Hrows; specialize (Hrows row Hrow).
    apply without_join; [reflexivity|].
    apply Forall_forall; intros q Hq.
    apply in_map_iff in Hq as (v & <- & Hv).
    apply without_quoteField; [reflexivity|].
    rewrite Forall_forall in Hrows; exact (Hrows v Hv).
Qed.

(** The theorem at a product name with a comma and a quoted word. *)
Lemma csv_export_shape_witness :
  List.map (fun line => parseCSVLine line ",")
    (Js.split LF
       (exportCSV
          [ {| Row.scanTime := Some "2025-06-01T10:00:00.000Z";
               Row.raw := Some "(01)06297000001234(17)250630";
               Row.gtin14 := Some "06297000001234"; Row.gtin13 := Some "6297000001234";
               Row.expiryFormatted := Some "30/06/2025"; Row.batch := None;
               Row.serial := None; Row.qty := Some "1";
               Row.productName := Some (String.append "Syrup, " (quoteField "forte"));
               Row.matchType := Some "EXACT" |} ]))
  = [ exportHeaders;
      [ "2025-06-01T10:00:00.000Z"; "(01)06297000001234(17)250630"; "06297000001234";
        "6297000001234"; "30/06/2025"; ""; ""; "1";
        String.append "Syrup, " (quoteField "forte"); "EXACT" ] ].
Proof.
  refine (csv_export_shape _ _).
  repeat constructor.
Defined.

(* ====================================================================== *)
(** ** Catalog files *)
(* ====================================================================== *)

Section Catalog.

Lemma masterRow_clean (delimiter : ascii) (gtinCol nameCol : nat) (line : string)
  (row : Product.t) :
  masterRow delimiter gtinCol nameCol line = Some row ->
  allDigits (Product.gtin row) = true
  /\ 8 <= String.length (Product.gtin row)
  /\ Js.trim (Product.name row) = Product.name row.
Proof.
  unfold masterRow.
  destruct (Nat.max gtinCol nameCol <? _); [|discriminate].
  destruct (negb (String.eqb _ "")); [|discriminate].
  destruct (8 <=? _) eqn:Hlen; [|discriminate].
  cbn [andb]; intros H; injection H as <-; cbn [Product.gtin Product.name].
  split; [apply allDigits_filterChars|].
  split; [apply Nat.leb_le; exact Hlen | apply trim_idempotent].
Qed.

(** The loop of [parseMasterFile] keeps what holds of every row pushed, and
    pushes at most one row by line. *)
Lemma master_loop (P : Product.t -> Prop) (delimiter : ascii) (gtinCol nameCol : nat)
  (body : list string) :
  (forall line row, masterRow delimiter gtinCol nameCol line = Some row -> P row) ->
  forall data,
    Forall P data ->
    Forall P
      (fold_left
         (fun data line =>
            match masterRow delimiter gtinCol nameCol line with
            | Some row => (data ++ [row])%list
            | None => data
            end) body data)
    /\ List.length
         (fold_left
            (fun data line =>
               match masterRow delimiter gtinCol nameCol line with
               | Some row => (data ++ [row])%list
               | None => data
               end) body data)
       <= List.length data + List.length body.
Proof.
  intros HP; induction body as [|line body IH]; intros data Hdata.
  - simpl; split; [exact Hdata | lia].
  - cbn [fold_left List.length].
    destruct (masterRow delimiter gtinCol nameCol line) as [row|] eqn:Hrow.
    + destruct (IH (data ++ [row])%list) as [Hall Hlen].
      { apply Forall_app; split; [exact Hdata|].
        constructor; [exact (HP line row Hrow) | constructor]. }
      split; [exact Hall|].
      rewrite length_app in Hlen; simpl in Hlen; lia.
    + destruct (IH data Hdata) as [Hall Hlen]; split; [exact Hall | lia].
Qed.

End Catalog.

(** X21.  Every product that [parseMasterFile] returns has a GTIN made of at
    least eight digits and nothing else, and a name without spaces around
    it; the first line that is not blank is the header and is never a
    product, so a file of n lines gives at most n - 1 products. *)
Theorem catalog_rows_are_clean (content filename : string) :
  Forall (fun row => allDigits (Product.gtin row) = true
                     /\ 8 <= String.length (Product.gtin row)
                     /\ Js.trim (Product.name row) = Product.name row)
    (parseMasterFile content filename)
  /\ S (List.length (parseMasterFile content filename))
     <= List.length (splitLines content).
Proof.
  unfold parseMasterFile.
  pose proof (filter_length_le
                (fun line => negb (String.eqb (Js.trim line) EmptyString))
                (splitLines content)) as Hlines.
  destruct (filter _ (splitLines content)) as [|header body].
  - split; [constructor|].
    destruct content as [|c content]; [simpl; lia|].
    assert (Hne : forall s, splitLines s <> []).
    { induction s as [|x s IH]; [discriminate|].
      cbn [splitLines].
      destruct (Ascii.eqb x LF); [discriminate|].
      destruct (Ascii.eqb x CR).
      - destruct s as [|y s]; [destruct (splitLines ""); discriminate|].
        destruct (Ascii.eqb y LF); [discriminate|].
        destruct (splitLines (String y s)); discriminate.
      - destruct (splitLines s); discriminate. }
    specialize (Hne (String c content)).
    destruct (splitLines (String c content)); [contradiction | simpl; lia].
  - match goal with
    | |- context [fold_left ?f body []] =>
        match f with
        | (fun data line => match masterRow ?d ?g ?n line with _ => _ end) =>
            destruct (master_loop
                        (fun row => allDigits (Product.gtin row) = true
                                    /\ 8 <= String.length (Product.gtin row)
                                    /\ Js.trim (Product.name row) = Product.name row)
                        d g n body (masterRow_clean d g n) [] (Forall_nil _))
              as [Hall Hlen]
        end
    end.
    split; [exact Hall|].
    simpl in Hlen, Hlines; lia.
Qed.

Section PlainCatalog.

Lemma isDigit_plain (c : ascii) :
  Js.isDigit c = true ->
  Js.isWhiteSpace c = false
  /\ Ascii.eqb c "," = false /\ Ascii.eqb c ";" = false /\ Ascii.eqb c TAB = false
  /\ Ascii.eqb c DQUOTE = false /\ Ascii.eqb c LF = false /\ Ascii.eqb c CR = false.
Proof.
  destruct c as [[] [] [] [] [] [] [] []]; intros H; try discriminate H;
    repeat split; reflexivity.
Qed.

Lemma plainCell_inv (s : string) :
  plainCell s = true ->
  without "," s = true /\ without ";" s = true /\ without TAB s = true
  /\ without DQUOTE s = true /\ without LF s = true /\ without CR s = true.
Proof.
  unfold plainCell; intros H.
  repeat (apply andb_true_iff in H as [H ?]); repeat split; assumption.
Qed.

Lemma allDigits_without (c : ascii) (s : string) :
  Js.isDigit c = false -> allDigits s = true -> without c s = true.
Proof.
  intros Hc; apply allChars_weaken; intros x Hx.
  destruct (Ascii.eqb_spec x c) as [-> | _]; [congruence | reflexivity].
Qed.

Lemma allDigits_plainCell (s : string) : allDigits s = true -> plainCell s = true.
Proof.
  intros H; unfold plainCell.
  rewrite !(allDigits_without _ s) by (reflexivity || exact H); reflexivity.
Qed.

Lemma filterChars_digits (s : string) :
  allDigits s = true -> Js.filterChars Js.isDigit s = s.
Proof.
  unfold allDigits; induction s as [|c s IH]; [reflexivity|].
  cbn [allChars Js.filterChars]; intros H; apply andb_true_iff in H as [Hc Hs].
  rewrite Hc, (IH Hs); reflexivity.
Qed.

Lemma trim_digits (s : string) : allDigits s = true -> Js.trim s = s.
Proof.
  intros H; apply trim_no_space; refine (allChars_weaken _ _ _ _ H).
  intros c Hc; apply isDigit_plain in Hc as (-> & _); reflexivity.
Qed.

(** A text that is trimmed to nothing is made of white space. *)
Lemma trim_blank (s : string) : Js.trim s = "" -> allChars Js.isWhiteSpace s = true.
Proof.
  unfold Js.trim.
  assert (Hend : forall t, Js.trimEnd t = "" -> allChars Js.isWhiteSpace t = true).
  { induction t as [|c t IH]; [reflexivity|].
    cbn [Js.trimEnd allChars].
    destruct (Js.trimEnd t); [|discriminate].
    destruct (Js.isWhiteSpace c); [|discriminate].
    intros _; apply IH; reflexivity. }
  induction s as [|c s IH]; [reflexivity|].
  cbn [Js.trimStart allChars].
  destruct (Js.isWhiteSpace c) eqn:Hc; [exact IH|].
  intros H; apply Hend in H; cbn [allChars] in H; rewrite Hc in H; discriminate H.
Qed.

Lemma includes_without (c : ascii) (s : string) :
  without c s = true -> Js.includes s (String c "") = false.
Proof.
  unfold without; induction s as [|x s IH]; intros H; [reflexivity|].
  cbn [allChars] in H; apply andb_true_iff in H as [Hx Hs]; apply negb_true_iff in Hx.
  rewrite includes_cons, (IH Hs), orb_false_r.
  apply prefix_char_ne; intros <-; rewrite Ascii.eqb_refl in Hx; discriminate.
Qed.

Lemma countChar_without (c : ascii) (s : string) :
  without c s = true -> countChar c s = 0.
Proof.
  unfold without; induction s as [|x s IH]; intros H; [reflexivity|].
  cbn [allChars countChar] in *; apply andb_true_iff in H as [Hx Hs].
  apply negb_true_iff in Hx; rewrite Hx, (IH Hs); reflexivity.
Qed.

Lemma splitLines_cons (c : ascii) (s : string) :
  splitLines (String c s)
  = if Ascii.eqb c LF then EmptyString :: splitLines s
    else if Ascii.eqb c CR then
      match s with
      | String c' s'' =>
          if Ascii.eqb c' LF then EmptyString :: splitLines s''
          else match splitLines s with
               | h :: t => String c h :: t
               | [] => [String c EmptyString]
               end
      | EmptyString =>
          match splitLines s with
          | h :: t => String c h :: t
          | [] => [String c EmptyString]
          end
      end
    else match splitLines s with
         | h :: t => String c h :: t
         | [] => [String c EmptyString]
         end.
Proof. reflexivity. Qed.

Lemma splitLines_one (s : string) :
  without LF s = true -> without CR s = true -> splitLines s = [s].
Proof.
  unfold without; induction s as [|c s IH]; intros Hl Hr; [reflexivity|].
  cbn [allChars] in Hl, Hr.
  apply andb_true_iff in Hl as [Hc Hl]; apply andb_true_iff in Hr as [Hc' Hr].
  apply negb_true_iff in Hc, Hc'.
  rewrite splitLines_cons, Hc, Hc', (IH Hl Hr); reflexivity.
Qed.

Lemma splitLines_append (a b : string) :
  without LF a = true -> without CR a = true ->
  splitLines (a ++ String LF b) = a :: splitLines b.
Proof.
  unfold without; induction a as [|c a IH]; intros Hl Hr; [reflexivity|].
  cbn [allChars] in Hl, Hr.
  apply andb_true_iff in Hl as [Hc Hl]; apply andb_true_iff in Hr as [Hc' Hr].
  apply negb_true_iff in Hc, Hc'.
  change (String c a ++ String LF b) with (String c (a ++ String LF b)).
  rewrite splitLines_cons, Hc, Hc', (IH Hl Hr); reflexivity.
Qed.

(** The lines of a text whose lines hold no end of line. *)
Lemma splitLines_join (lines : list string) :
  lines <> [] ->
  Forall (fun l => without LF l = true /\ without CR l = true) lines ->
  splitLines (join (String LF "") lines) = lines.
Proof.
  induction lines as [|l lines IH]; intros Hne Hall; [contradiction|].
  inversion Hall as [|? ? [Hl Hr] Hrest]; subst.
  destruct lines as [|l' lines]; [apply splitLines_one; assumption|].
  change (join (String LF "") (l :: l' :: lines))
    with (l ++ String LF (join (String LF "") (l' :: lines))).
  rewrite (splitLines_append _ _ Hl Hr), IH; [reflexivity | discriminate | exact Hrest].
Qed.

Lemma toLowerChar_keeps (c x : ascii) :
  (Js.code x <? 65) = true ->
  Ascii.eqb (toLowerChar c) x = Ascii.eqb c x.
Proof.
  intros Hx.
  destruct (Ascii.eqb_spec c x) as [-> | Hne].
  - unfold toLowerChar.
    apply Nat.ltb_lt in Hx.
    replace (65 <=? Js.code x) with false by (symmetry; apply Nat.leb_gt; lia).
    replace (192 <=? Js.code x) with false by (symmetry; apply Nat.leb_gt; lia).
    replace (216 <=? Js.code x) with false by (symmetry; apply Nat.leb_gt; lia).
    apply Ascii.eqb_refl.
  - apply Ascii.eqb_neq; unfold toLowerChar.
    destruct (_ || _ || _) eqn:Hup; [|exact Hne].
    assert (Hrange : 65 <= Js.code c <= 222).
    { apply orb_true_iff in Hup as [Hup | Hup];
        [apply orb_true_iff in Hup as [Hup | Hup]|];
        apply andb_true_iff in Hup as [Hlow Hhigh];
        apply Nat.leb_le in Hlow, Hhigh; lia. }
    intros <-; apply Nat.ltb_lt in Hx; revert Hx.
    unfold Js.code in *; rewrite nat_ascii_embedding; lia.
Qed.

Lemma without_toLowerCase (x : ascii) (s : string) :
  (Js.code x <? 65) = true -> without x s = true -> without x (toLowerCase s) = true.
Proof.
  intros Hx; unfold without, toLowerCase.
  induction s as [|c s IH]; [reflexivity|].
  cbn [allChars Js.mapChars]; intros H; apply andb_true_iff in H as [Hc Hs].
  rewrite (toLowerChar_keeps c x Hx), Hc, (IH Hs); reflexivity.
Qed.

(** A line without double quotes is cut at the delimiters. *)
Lemma parseCSVLine_plain (line : string) (delimiter : ascii) :
  without DQUOTE line = true ->
  parseCSVLine line delimiter = List.map Js.trim (Js.split delimiter line).
Proof.
  intros Hq; unfold parseCSVLine; rewrite (csvLoop_plain delimiter line Hq).
  destruct (split_first delimiter line) as (h & t & ->); reflexivity.
Qed.

(** A line of two cells that need no quotes. *)
Lemma parseCSVLine_two (a b : string) :
  without "," a = true -> without "," b = true ->
  without DQUOTE a = true -> without DQUOTE b = true ->
  parseCSVLine (a ++ "," ++ b) "," = [Js.trim a; Js.trim b].
Proof.
  intros Ha Hb Hqa Hqb.
  rewrite parseCSVLine_plain by (rewrite !without_append, Hqa, Hqb; reflexivity).
  change (a ++ "," ++ b) with (a ++ String "," b).
  rewrite (split_append "," a b Ha), (split_no_separator "," b Hb); reflexivity.
Qed.

Lemma masterRow_plain (row : Product.t) :
  allDigits (Product.gtin row) = true ->
  8 <= String.length (Product.gtin row) ->
  plainCell (Product.name row) = true ->
  Js.trim (Product.name row) = Product.name row ->
  masterRow "," 0 1 (Product.gtin row ++ "," ++ Product.name row) = Some row.
Proof.
  intros Hd Hlen Hplain Htrim.
  apply plainCell_inv in Hplain as (Hc & _ & _ & Hq & _).
  pose proof (allDigits_plainCell _ Hd) as Hg.
  apply plainCell_inv in Hg as (Hgc & _ & _ & Hgq & _).
  unfold masterRow.
  rewrite (parseCSVLine_two _ _ Hgc Hc Hgq Hq).
  change (Nat.max 0 1 <? List.length [Js.trim (Product.gtin row); Js.trim (Product.name row)])
    with true.
  cbn [nth].
  rewrite (trim_digits _ Hd), (filterChars_digits _ Hd), Htrim, Htrim.
  replace (8 <=? String.length (Product.gtin row)) with true
    by (symmetry; apply Nat.leb_le; exact Hlen).
  destruct row as [g n]; cbn [Product.gtin Product.name] in *.
  destruct g as [|c g]; [simpl in Hlen; lia | reflexivity].
Qed.

End PlainCatalog.

Section PlainCatalogFile.

Lemma filter_all {A} (f : A -> bool) (l : list A) :
  Forall (fun x => f x = true) l -> filter f l = l.
Proof.
  induction 1 as [|x l Hx _ IH]; [reflexivity|].
  cbn [filter]; rewrite Hx, IH; reflexivity.
Qed.

(** A line with a character that is not white space is not blank. *)
Lemma not_blank (a b : string) (c : ascii) :
  Js.isWhiteSpace c = false ->
  negb (String.eqb (Js.trim (a ++ String c b)) EmptyString) = true.
Proof.
  intros Hc; apply negb_true_iff, String.eqb_neq; intros H.
  apply trim_blank in H; rewrite allChars_append in H; cbn [allChars] in H.
  rewrite Hc, andb_false_r in H; discriminate H.
Qed.

Lemma master_loop_plain (rows : list Product.t) :
  Forall (fun row => allDigits (Product.gtin row) = true
                     /\ 8 <= String.length (Product.gtin row)
                     /\ plainCell (Product.name row) = true
                     /\ Js.trim (Product.name row) = Product.name row) rows ->
  forall data,
    fold_left
      (fun data line =>
         match masterRow "," 0 1 line with
         | Some row => (data ++ [row])%list
         | None => data
         end)
      (List.map (fun row => Product.gtin row ++ "," ++ Product.name row) rows) data
    = (data ++ rows)%list.
Proof.
  induction 1 as [|row rows (Hd & Hlen & Hplain & Htrim) _ IH]; intros data.
  - simpl; rewrite app_nil_r; reflexivity.
  - cbn [List.map fold_left].
    rewrite (masterRow_plain row Hd Hlen Hplain Htrim), IH, <- app_assoc; reflexivity.
Qed.

End PlainCatalogFile.

(** X22.  A catalog of two columns parted by commas, the first under a
    header that names a code and not a name, with cells that need no quotes,
    GTINs of at least eight digits and names without spaces around them, is
    read as its rows, in their order. *)
Theorem plain_catalog_is_read (gtinHeader nameHeader filename : string)
  (rows : list Product.t) :
  plainCell gtinHeader = true ->
  plainCell nameHeader = true ->
  isGtinHeader (Js.trim (toLowerCase gtinHeader)) = true ->
  isNameHeader (Js.trim (toLowerCase gtinHeader)) = false ->
  Forall (fun row => allDigits (Product.gtin row) = true
                     /\ 8 <= String.length (Product.gtin row)
                     /\ plainCell (Product.name row) = true
                     /\ Js.trim (Product.name row) = Product.name row) rows ->
  parseMasterFile
    (join (String LF "")
       ((gtinHeader ++ "," ++ nameHeader)
        :: List.map (fun row => Product.gtin row ++ "," ++ Product.name row) rows))
    filename
  = rows.
Proof.
  intros Hgh Hnh HG HN Hrows.
  apply plainCell_inv in Hgh as (Hgc & Hgs & Hgt & Hgq & Hgl & Hgr).
  apply plainCell_inv in Hnh as (Hnc & Hns & Hnt & Hnq & Hnl & Hnr).
  set (header := gtinHeader ++ "," ++ nameHeader).
  set (body := List.map (fun row => Product.gtin row ++ "," ++ Product.name row) rows).
  assert (Hheader : forall c, Ascii.eqb "," c = false ->
                              without c gtinHeader = true -> without c nameHeader = true ->
                              without c header = true).
  { intros c Hc Hg Hn; unfold header.
    change ("," ++ nameHeader) with (String "," "" ++ nameHeader).
    rewrite !without_append, Hg, Hn; unfold without; cbn [allChars]; rewrite Hc; reflexivity. }
  assert (Hbody : forall c, Ascii.eqb "," c = false -> Js.isDigit c = false ->
                            Forall (fun row => without c (Product.name row) = true) rows ->
                            Forall (fun l => without c l = true) body).
  { intros c Hc Hdc Hn; unfold body; apply Forall_forall; intros l Hl.
    apply in_map_iff in Hl as (row & <- & Hrow).
    rewrite Forall_forall in Hrows, Hn.
    destruct (Hrows row Hrow) as (Hd & _).
    change ("," ++ Product.name row) with (String "," "" ++ Product.name row).
    rewrite !without_append, (allDigits_without c _ Hdc Hd), (Hn row Hrow).
    unfold without; cbn [allChars]; rewrite Hc; reflexivity. }
  assert (Hnames : forall c,
             (forall s, plainCell s = true -> without c s = true) ->
             Forall (fun row => without c (Product.name row) = true) rows).
  { intros c Hc; refine (Forall_impl _ _ Hrows); intros row (_ & _ & Hp & _); auto. }
  assert (Hlf : Forall (fun l => without LF l = true) (header :: body)).
  { constructor; [apply Hheader; [reflexivity | assumption | assumption]|].
    apply Hbody; [reflexivity | reflexivity|].
    apply Hnames; intros s Hs; apply plainCell_inv in Hs; tauto. }
  assert (Hcr : Forall (fun l => without CR l = true) (header :: body)).
  { constructor; [apply Hheader; [reflexivity | assumption | assumption]|].
    apply Hbody; [reflexivity | reflexivity|].
    apply Hnames; intros s Hs; apply plainCell_inv in Hs; tauto. }
  assert (Hdelimiter : chooseDelimiter (join (String LF "") (header :: body)) = ","%char).
  { unfold chooseDelimiter; rewrite (split_lines header body Hlf); cbn [hd].
    rewrite (includes_without TAB header) by (apply Hheader; [reflexivity | assumption..]).
    rewrite (countChar_without ";" header) by (apply Hheader; [reflexivity | assumption..]).
    reflexivity. }
  assert (Hsplit : splitLines (join (String LF "") (header :: body)) = header :: body).
  { apply splitLines_join; [discriminate|].
    clear - Hlf Hcr; induction (header :: body) as [|l ls IH]; [constructor|].
    inversion Hlf; inversion Hcr; subst; constructor; auto. }
  assert (Hfilter : filter (fun line => negb (String.eqb (Js.trim line) EmptyString))
                      (header :: body) = header :: body).
  { apply filter_all; constructor.
    - unfold header; change ("," ++ nameHeader) with (String "," nameHeader).
      apply not_blank; reflexivity.
    - unfold body; apply Forall_forall; intros l Hl.
      apply in_map_iff in Hl as (row & <- & Hrow).
      rewrite Forall_forall in Hrows; destruct (Hrows row Hrow) as (Hd & Hlen & _).
      destruct (Product.gtin row) as [|c g]; [simpl in Hlen; lia|].
      cbn [allDigits allChars] in Hd; apply andb_true_iff in Hd as [Hc _].
      apply isDigit_plain in Hc as (Hc & _).
      exact (not_blank "" (g ++ "," ++ Product.name row) c Hc). }
  unfold parseMasterFile; rewrite Hdelimiter, Hsplit, Hfilter.
  assert (Hlower : toLowerCase header
                   = toLowerCase gtinHeader ++ "," ++ toLowerCase nameHeader).
  { unfold header, toLowerCase; rewrite mapChars_append; reflexivity. }
  rewrite Hlower, parseCSVLine_two
    by (apply without_toLowerCase; [reflexivity | assumption]).
  cbn [findIndex]; rewrite HG, HN.
  replace (match option_map S
                   (if isNameHeader (Js.trim (toLowerCase nameHeader))
                    then Some 0 else option_map S None)
           with Some i => i | None => 1 end) with 1
    by (destruct (isNameHeader (Js.trim (toLowerCase nameHeader))); reflexivity).
  exact (master_loop_plain rows Hrows []).
Qed.

(** The theorem at the catalog of the README. *)
Lemma plain_catalog_is_read_witness :
  parseMasterFile
    (join (String LF "")
       [ "Barcode,Product Name";
         "6297000001234,Vitamin D 1000 IU Tab 60s";
         "6297000002345,Vitamin D 50000 IU Tab 15s" ])
    "sample-master-data.csv"
  = [ {| Product.gtin := "6297000001234"; Product.name := "Vitamin D 1000 IU Tab 60s" |};
      {| Product.gtin := "6297000002345"; Product.name := "Vitamin D 50000 IU Tab 15s" |} ].
Proof.
  refine (plain_catalog_is_read "Barcode" "Product Name" "sample-master-data.csv"
            [ {| Product.gtin := "6297000001234";
                 Product.name := "Vitamin D 1000 IU Tab 60s" |};
              {| Product.gtin := "6297000002345";
                 Product.name := "Vitamin D 50000 IU Tab 15s" |} ]
            eq_refl eq_refl eq_refl eq_refl _).
  repeat constructor.
Defined.
